(** * Session lifecycle and engagement aggregation: a shallow embedding

    The backend keeps its state in PostgreSQL tables (database/migrate.js),
    of which the session engine uses four: users, sessions, session_users
    and engagement_metrics.  Every route handler is a short sequence of
    SQL statements with early returns.  The embedding follows that shape:

    - a table is a list of rows, in insertion order;
    - [query] (database/connection.js) is taken to hand its statement
      and parameters to PostgreSQL and to throw the error PostgreSQL
      answers;
    - a handler is a function from the database (and the request) to a
      response and the database afterwards;
    - CURRENT_TIMESTAMP / NOW() is an explicit argument [now], counted in
      microseconds;
    - numbers are exact rationals; a value stored in a DECIMAL column is
      rounded to the column's scale first, and AVG() is the exact
      quotient (the number of digits PostgreSQL computes of it is outside
      the model);
    - a statement is analysed before it is run: a column it names that
      its table does not have makes it fail with undefined_column, and
      nothing of it is executed.  The student column of
      engagement_metrics is [student_id] in the DDL and in the class
      overview; services/sessionManager.js, routes/reports.js and the
      other routes of routes/metrics.js name it [user_id].

    Requests are taken well typed: ids and counts are numbers within the
    range of INTEGER unless a handler is said to check them, timestamps
    are valid dates, strings fit their VARCHAR columns, and a field of a
    JSON body is absent, null or a value of the column's type.  POST / is
    taken without a [settings] object. *)

From Stdlib Require Import ZArith QArith Qround List Sorted String Bool Lia.
Import ListNotations.

Local Open Scope Z_scope.

(** ** Rows (database/migrate.js, createTables) *)

(** users.role: CHECK (role IN ('teacher', 'student', 'admin')). *)
Inductive user_role := teacher | student | admin.

(** sessions.status: CHECK (status IN ('active', 'ended', 'cancelled')).
    The column is nullable and a NULL satisfies a CHECK: [no_status] is
    the NULL that PUT /:id stores for [status: null]. *)
Inductive session_status := active | ended | cancelled | no_status.

Definition user_role_eqb (a b : user_role) : bool :=
  match a, b with
  | teacher, teacher | student, student | admin, admin => true
  | _, _ => false
  end.

Definition session_status_eqb (a b : session_status) : bool :=
  match a, b with
  | active, active | ended, ended | cancelled, cancelled
  | no_status, no_status => true
  | _, _ => false
  end.

Record users_row := {
  u_id : Z;
  u_role : user_role;
  u_is_active : bool
}.

Record sessions_row := {
  s_id : Z;
  s_teacher_id : Z;
  s_title : string;
  s_description : option string;    (* TEXT, nullable *)
  s_start_time : Z;
  s_end_time : option Z;            (* TIMESTAMP, nullable *)
  s_status : session_status;
  s_max_students : option Z;        (* INTEGER DEFAULT 50, nullable *)
  s_created_at : Z;
  s_updated_at : Z
}.

Record session_users_row := {
  su_id : Z;
  su_session_id : Z;
  su_user_id : Z;
  su_role : user_role;              (* CHECK (role IN ('teacher', 'student')) *)
  su_joined_at : Z;
  su_left_at : option Z             (* TIMESTAMP, nullable *)
}.

Record engagement_metrics_row := {
  em_id : Z;
  em_session_id : Z;
  em_student_id : Z;
  em_timestamp : Z;
  em_emotion : string;              (* VARCHAR(50) *)
  em_confidence : Q;                (* CHECK (confidence >= 0 AND confidence <= 1) *)
  em_engagement_score : Q           (* CHECK (engagement_score >= 0 AND engagement_score <= 1) *)
}.

(** The database: the four tables and the three SERIAL sequences that
    the modelled statements draw from. *)
Record db := {
  users : list users_row;
  sessions : list sessions_row;
  session_users : list session_users_row;
  engagement_metrics : list engagement_metrics_row;
  sessions_id_seq : Z;
  session_users_id_seq : Z;
  engagement_metrics_id_seq : Z
}.

Definition with_sessions (d : db) (l : list sessions_row) (seq : Z) : db :=
  {| users := users d; sessions := l; session_users := session_users d;
     engagement_metrics := engagement_metrics d;
     sessions_id_seq := seq;
     session_users_id_seq := session_users_id_seq d;
     engagement_metrics_id_seq := engagement_metrics_id_seq d |}.

Definition with_session_users (d : db) (l : list session_users_row) (seq : Z) : db :=
  {| users := users d; sessions := sessions d; session_users := l;
     engagement_metrics := engagement_metrics d;
     sessions_id_seq := sessions_id_seq d;
     session_users_id_seq := seq;
     engagement_metrics_id_seq := engagement_metrics_id_seq d |}.

Definition with_engagement_metrics (d : db) (l : list engagement_metrics_row) (seq : Z) : db :=
  {| users := users d; sessions := sessions d; session_users := session_users d;
     engagement_metrics := l;
     sessions_id_seq := sessions_id_seq d;
     session_users_id_seq := session_users_id_seq d;
     engagement_metrics_id_seq := seq |}.

(** ** SQL building blocks *)

(** The errors a statement of the modelled code can raise, each with its
    SQLSTATE. *)
Inductive db_error :=
| check_violation                  (* 23514 *)
| foreign_key_violation            (* 23503 *)
| unique_violation                 (* 23505 *)
| not_null_violation               (* 23502 *)
| undefined_column                 (* 42703 *)
| datatype_mismatch                (* 42804 *)
| numeric_value_out_of_range       (* 22003 *)
| invalid_row_count_in_limit_clause  (* 2201W *)
| invalid_column_reference.        (* 42P10 *)

(** A statement's result or its error; [bind] runs the rest of a
    statement on the result and passes an error on. *)
Definition bind {A B} (x : db_error + A) (f : A -> db_error + B) : db_error + B :=
  match x with
  | inl e => inl e
  | inr a => f a
  end.

(** The range of an INTEGER column or parameter. *)
Definition INTEGER_in_range (z : Z) : bool :=
  (- 2 ^ 31 <=? z) && (z <? 2 ^ 31).

(** Rounding to the nearest integer, ties away from zero, as numeric
    values are rounded. *)
Definition round_half_away (q : Q) : Z :=
  if Qle_bool 0 q then Qfloor (q + (1 # 2)) else - Qfloor (- q + (1 # 2)).

(** A value stored in a DECIMAL(precision, scale) column: it is rounded
    to [scale] digits after the point, and must then have no more than
    [precision] digits in all. *)
Definition DECIMAL (precision scale : Z) (q : Q) : db_error + Q :=
  let digits := round_half_away (q * inject_Z (10 ^ scale)) in
  if Z.abs digits <? 10 ^ precision
  then inr (Qred (inject_Z digits / inject_Z (10 ^ scale)))
  else inl numeric_value_out_of_range.

Definition is_null {A} (o : option A) : bool :=
  match o with None => true | Some _ => false end.

(** COUNT( * ) *)
Definition COUNT {A} (rows : list A) : Z := Z.of_nat (List.length rows).

Definition Qsum (l : list Q) : Q := fold_right Qplus (0%Q) l.

(** AVG(col): NULL over no rows; the quotient in lowest terms. *)
Definition AVG (l : list Q) : option Q :=
  match l with
  | [] => None
  | _ :: _ => Some (Qred (Qsum l / inject_Z (COUNT l)))
  end.

Definition Qmin (a b : Q) : Q := if Qle_bool a b then a else b.
Definition Qmax (a b : Q) : Q := if Qle_bool a b then b else a.

(** MIN(col) / MAX(col): NULL over no rows. *)
Definition MIN_Q (l : list Q) : option Q :=
  match l with [] => None | x :: r => Some (fold_left Qmin r x) end.
Definition MAX_Q (l : list Q) : option Q :=
  match l with [] => None | x :: r => Some (fold_left Qmax r x) end.
Definition MIN_Z (l : list Z) : option Z :=
  match l with [] => None | x :: r => Some (fold_left Z.min r x) end.
Definition MAX_Z (l : list Z) : option Z :=
  match l with [] => None | x :: r => Some (fold_left Z.max r x) end.

Section GroupBy.
Context {A K : Type} (eqb : K -> K -> bool) (key : A -> K).

(** The distinct values of the grouping expression, each at its first
    occurrence. *)
Fixpoint distinct_keys (rows : list A) : list K :=
  match rows with
  | [] => []
  | r :: rest =>
      key r :: filter (fun k => negb (eqb k (key r))) (distinct_keys rest)
  end.

(** GROUP BY key: one group per distinct key, holding its rows. *)
Definition group_by (rows : list A) : list (K * list A) :=
  map (fun k => (k, filter (fun r => eqb (key r) k) rows))
      (distinct_keys rows).
End GroupBy.

(** COUNT(DISTINCT col) *)
Definition COUNT_DISTINCT (l : list Z) : Z :=
  COUNT (distinct_keys Z.eqb (fun z => z) l).

Section OrderBy.
Context {A : Type} (key : A -> Z).

Fixpoint insert_sorted (x : A) (l : list A) : list A :=
  match l with
  | [] => [x]
  | y :: r => if key x <=? key y then x :: y :: r else y :: insert_sorted x r
  end.

(** ORDER BY key (ascending); rows with equal keys keep their order. *)
Definition order_by (l : list A) : list A :=
  fold_right insert_sorted [] l.
End OrderBy.

(** Timestamps are microseconds. *)
Definition usecs_per_minute : Z := 60000000.

(** DATE_TRUNC('minute', ts) *)
Definition date_trunc_minute (ts : Z) : Z := ts - ts mod usecs_per_minute.

(** INTERVAL '5 minutes' *)
Definition interval_5_minutes : Z := 5 * usecs_per_minute.

(** ** Requests and responses *)

(** req.user, as middleware/auth.js attaches it. *)
Record req_user := { ru_id : Z; ru_role : user_role }.

(** What a handler sends: [res.json(body)] or
    [res.status(http_status).json({ error, code })]. *)
Inductive response (A : Type) :=
| res_json (body : A)
| res_error (http_status : Z) (code : string).
Arguments res_json {A} body.
Arguments res_error {A} http_status code.

(** middleware/auth.js, authenticateToken, once the token has been decoded
    to [userId]. *)
Definition authenticateToken (d : db) (userId : Z) : response req_user :=
  match filter (fun u => u_id u =? userId) (users d) with
  | [] => res_error 401 "USER_NOT_FOUND"
  | user :: _ =>
      if negb (u_is_active user) then res_error 401 "USER_DEACTIVATED"
      else res_json {| ru_id := u_id user; ru_role := u_role user |}
  end.

(** middleware/auth.js, requireRole: [roles.includes(req.user.role)]. *)
Definition requireRole (roles : list user_role) (user : req_user) : bool :=
  existsb (user_role_eqb (ru_role user)) roles.

(** A NULL operand of a JavaScript comparison with a number counts as 0. *)
Definition to_number (o : option Z) : Z :=
  match o with Some z => z | None => 0 end.

(** ** Statements on sessions and session_users *)

Definition user_exists (d : db) (uid : Z) : bool :=
  existsb (fun u => u_id u =? uid) (users d).

Definition session_exists (d : db) (sid : Z) : bool :=
  existsb (fun s => s_id s =? sid) (sessions d).

(** SELECT ... FROM sessions WHERE id = $1 *)
Definition select_session (d : db) (sid : Z) : list sessions_row :=
  filter (fun s => s_id s =? sid) (sessions d).

(** SELECT * FROM sessions WHERE id = $1 AND status = 'active' *)
Definition select_active_session (d : db) (sid : Z) : list sessions_row :=
  filter (fun s => (s_id s =? sid) && session_status_eqb (s_status s) active)
         (sessions d).

(** SELECT * FROM session_users WHERE session_id = $1 AND user_id = $2 *)
Definition select_session_user (d : db) (sid uid : Z) : list session_users_row :=
  filter (fun su => (su_session_id su =? sid) && (su_user_id su =? uid))
         (session_users d).

(** SELECT COUNT( * ) FROM session_users WHERE session_id = $1 *)
Definition count_session_users (d : db) (sid : Z) : Z :=
  COUNT (filter (fun su => su_session_id su =? sid) (session_users d)).

(** INSERT INTO sessions (...) VALUES ($1, ..., 'active', CURRENT_TIMESTAMP,
    CURRENT_TIMESTAMP) RETURNING ...; the id comes from the sequence, which
    a failed statement does not give back. *)
Definition insert_session (d : db) (now teacher_id : Z) (title description : string)
    (max_students start_time end_time : Z) : (db_error + sessions_row) * db :=
  let row := {| s_id := sessions_id_seq d; s_teacher_id := teacher_id;
                s_title := title; s_description := Some description;
                s_start_time := start_time; s_end_time := Some end_time;
                s_status := active; s_max_students := Some max_students;
                s_created_at := now; s_updated_at := now |} in
  if negb (user_exists d teacher_id)
  then (inl foreign_key_violation, with_sessions d (sessions d) (sessions_id_seq d + 1))
  else (inr row, with_sessions d (sessions d ++ [row]) (sessions_id_seq d + 1)).

(** INSERT INTO session_users (session_id, user_id, joined_at, role)
    VALUES ($1, $2, CURRENT_TIMESTAMP, $3) *)
Definition insert_session_user (d : db) (now sid uid : Z) (r : user_role)
    : (db_error + session_users_row) * db :=
  let row := {| su_id := session_users_id_seq d; su_session_id := sid;
                su_user_id := uid; su_role := r; su_joined_at := now;
                su_left_at := None |} in
  let d_failed := with_session_users d (session_users d) (session_users_id_seq d + 1) in
  if user_role_eqb r admin then (inl check_violation, d_failed)
  else if 0 <? COUNT (select_session_user d sid uid) then (inl unique_violation, d_failed)
  else if negb (session_exists d sid && user_exists d uid)
       then (inl foreign_key_violation, d_failed)
  else (inr row, with_session_users d (session_users d ++ [row]) (session_users_id_seq d + 1)).

(** UPDATE session_users SET left_at = CURRENT_TIMESTAMP
    WHERE session_id = $1 AND user_id = $2 *)
Definition update_left_at (d : db) (now sid uid : Z) : db :=
  with_session_users d
    (map (fun su =>
            if (su_session_id su =? sid) && (su_user_id su =? uid)
            then {| su_id := su_id su; su_session_id := su_session_id su;
                    su_user_id := su_user_id su; su_role := su_role su;
                    su_joined_at := su_joined_at su; su_left_at := Some now |}
            else su)
         (session_users d))
    (session_users_id_seq d).

(** UPDATE session_users SET joined_at = CURRENT_TIMESTAMP
    WHERE session_id = $1 AND user_id = $2 *)
Definition update_joined_at (d : db) (now sid uid : Z) : db :=
  with_session_users d
    (map (fun su =>
            if (su_session_id su =? sid) && (su_user_id su =? uid)
            then {| su_id := su_id su; su_session_id := su_session_id su;
                    su_user_id := su_user_id su; su_role := su_role su;
                    su_joined_at := now; su_left_at := su_left_at su |}
            else su)
         (session_users d))
    (session_users_id_seq d).

(** UPDATE sessions SET ... WHERE id = $n: [f] rewrites the matching rows. *)
Definition update_sessions (d : db) (sid : Z) (f : sessions_row -> sessions_row) : db :=
  with_sessions d
    (map (fun s => if s_id s =? sid then f s else s) (sessions d))
    (sessions_id_seq d).

(** ** routes/sessions.js *)

Record create_body := {
  cb_title : string;                 (* the empty string when missing *)
  cb_description : option string;
  cb_max_students : option Z;
  cb_start_time : option Z;
  cb_end_time : option Z
}.

(** [x || fallback] on an optional number: undefined and 0 are falsy. *)
Definition or_default (x : option Z) (fallback : Z) : Z :=
  match x with
  | Some z => if z =? 0 then fallback else z
  | None => fallback
  end.

(** POST / : create a new session. *)
Definition post_session (d : db) (now : Z) (user : req_user) (body : create_body)
    : response sessions_row * db :=
  if negb (requireRole [teacher; admin] user)
  then (res_error 403 "INSUFFICIENT_PERMISSIONS", d)
  else
    match cb_title body, cb_start_time body, cb_end_time body with
    | EmptyString, _, _ | _, None, _ | _, _, None =>
        (res_error 400 "MISSING_REQUIRED_FIELDS", d)
    | title, Some start_time, Some end_time =>
        if end_time <=? start_time
        then (res_error 400 "INVALID_TIME_RANGE", d)
        else
          match insert_session d now (ru_id user) title
                  (match cb_description body with Some s => s | None => EmptyString end)
                  (or_default (cb_max_students body) 50) start_time end_time with
          | (inl _, d1) => (res_error 500 "SESSION_CREATION_ERROR", d1)
          | (inr session, d1) =>
              match insert_session_user d1 now (s_id session) (ru_id user) teacher with
              | (inl _, d2) => (res_error 500 "SESSION_CREATION_ERROR", d2)
              | (inr _, d2) => (res_json session, d2)
              end
          end
    end.

(** POST /:id/join, the handler registered first.  Express runs the
    handlers of a path in registration order and this one always answers,
    so it is the one that serves the route. *)
Definition post_join (d : db) (now sid : Z) (user : req_user)
    : response string * db :=
  match select_active_session d sid with
  | [] => (res_error 404 "SESSION_NOT_FOUND", d)
  | session :: _ =>
      if 0 <? COUNT (select_session_user d sid (ru_id user))
      then (res_error 400 "USER_ALREADY_IN_SESSION", d)
      else if count_session_users d sid >=? to_number (s_max_students session)
      then (res_error 400 "SESSION_FULL", d)
      else
        match insert_session_user d now sid (ru_id user) (ru_role user) with
        | (inl _, d1) => (res_error 500 "SESSION_JOIN_ERROR", d1)
        | (inr _, d1) => (res_json "Successfully joined session"%string, d1)
        end
  end.

(** POST /:id/join, the handler registered second (after POST /:id/end). *)
Definition post_join_second (d : db) (now sid : Z) (user : req_user)
    : response string * db :=
  match select_session d sid with
  | [] => (res_error 404 "SESSION_NOT_FOUND", d)
  | session :: _ =>
      if negb (session_status_eqb (s_status session) active)
      then (res_error 400 "SESSION_NOT_ACTIVE", d)
      else if 0 <? COUNT (select_session_user d sid (ru_id user))
      then (res_error 400 "USER_ALREADY_IN_SESSION", d)
      else if count_session_users d sid >=? to_number (s_max_students session)
      then (res_error 400 "SESSION_FULL", d)
      else
        match insert_session_user d now sid (ru_id user) (ru_role user) with
        | (inl _, d1) => (res_error 500 "SESSION_JOIN_ERROR", d1)
        | (inr _, d1) => (res_json "Successfully joined session"%string, d1)
        end
  end.

(** POST /:id/leave *)
Definition post_leave (d : db) (now sid : Z) (user : req_user)
    : response string * db :=
  match select_session_user d sid (ru_id user) with
  | [] => (res_error 400 "USER_NOT_IN_SESSION", d)
  | _ :: _ =>
      (res_json "Successfully left session"%string, update_left_at d now sid (ru_id user))
  end.

(** UPDATE sessions SET status = 'ended', end_time = CURRENT_TIMESTAMP,
    updated_at = CURRENT_TIMESTAMP ...: what becomes of a matching row. *)
Definition ended_at (now : Z) (s : sessions_row) : sessions_row :=
  {| s_id := s_id s; s_teacher_id := s_teacher_id s;
     s_title := s_title s; s_description := s_description s;
     s_start_time := s_start_time s; s_end_time := Some now;
     s_status := ended; s_max_students := s_max_students s;
     s_created_at := s_created_at s; s_updated_at := now |}.

(** POST /:id/end *)
Definition post_end (d : db) (now sid : Z) (user : req_user)
    : response string * db :=
  if negb (requireRole [teacher; admin] user)
  then (res_error 403 "INSUFFICIENT_PERMISSIONS", d)
  else
    match select_session d sid with
    | [] => (res_error 404 "SESSION_NOT_FOUND", d)
    | session :: _ =>
        if negb (s_teacher_id session =? ru_id user)
        then (res_error 403 "END_PERMISSION_DENIED", d)
        else if session_status_eqb (s_status session) ended
        then (res_error 400 "SESSION_ALREADY_ENDED", d)
        else
          (res_json "Session ended successfully"%string,
           update_sessions d sid (ended_at now))
    end.

(** The body of PUT /:id.  A field is absent ([None]), null
    ([Some None]) or a value: the handler tests [!== undefined], which
    null passes. *)
Record update_body := {
  ub_title : option (option string);
  ub_description : option (option string);
  ub_max_students : option (option Z);
  ub_start_time : option (option Z);
  ub_end_time : option (option Z);
  ub_status : option (option string)
}.

(** The CHECK on sessions.status. *)
Definition status_of_string (s : string) : option session_status :=
  if String.eqb s "active" then Some active
  else if String.eqb s "ended" then Some ended
  else if String.eqb s "cancelled" then Some cancelled
  else None.

Definition or_old {A} (new : option A) (old : A) : A :=
  match new with Some v => v | None => old end.

(** [column = $n] for a NOT NULL column (title, start_time). *)
Definition new_not_null {A} (new : option (option A)) (old : A) : db_error + A :=
  match new with
  | None => inr old
  | Some None => inl not_null_violation
  | Some (Some v) => inr v
  end.

(** [max_students = $n]: null, or a number that has to fit INTEGER. *)
Definition new_max_students (new : option (option Z)) (old : option Z)
    : db_error + option Z :=
  match new with
  | None => inr old
  | Some None => inr None
  | Some (Some m) =>
      if INTEGER_in_range m then inr (Some m) else inl numeric_value_out_of_range
  end.

(** [status = $n]: null, or a string that has to pass the CHECK. *)
Definition new_status (new : option (option string)) (old : session_status)
    : db_error + session_status :=
  match new with
  | None => inr old
  | Some None => inr no_status
  | Some (Some str) =>
      match status_of_string str with
      | Some st => inr st
      | None => inl check_violation
      end
  end.

(** Whether a field is given as null. *)
Definition is_json_null {A} (x : option (option A)) : bool :=
  match x with Some None => true | _ => false end.

(** A value given for a field, or the old one. *)
Definition or_old_value {A} (new : option (option A)) (old : A) : A :=
  match new with Some (Some v) => v | _ => old end.

(** UPDATE sessions SET <the fields of the body>, updated_at =
    CURRENT_TIMESTAMP: what becomes of a matching row, or the error of
    the statement. *)
Definition updated_session (body : update_body) (now : Z) (s : sessions_row)
    : db_error + sessions_row :=
  bind (new_not_null (ub_title body) (s_title s)) (fun title =>
  bind (new_not_null (ub_start_time body) (s_start_time s)) (fun start_time =>
  bind (new_max_students (ub_max_students body) (s_max_students s)) (fun max_students =>
  bind (new_status (ub_status body) (s_status s)) (fun status =>
  inr {| s_id := s_id s; s_teacher_id := s_teacher_id s;
         s_title := title;
         s_description := or_old (ub_description body) (s_description s);
         s_start_time := start_time;
         s_end_time := or_old (ub_end_time body) (s_end_time s);
         s_status := status;
         s_max_students := max_students;
         s_created_at := s_created_at s; s_updated_at := now |})))).

(** The row after an UPDATE that is not refused. *)
Definition updated_or_same (body : update_body) (now : Z) (s : sessions_row)
    : sessions_row :=
  match updated_session body now s with
  | inr s1 => s1
  | inl _ => s
  end.

(** PUT /:id : every field of the body that is present is written, status
    and end_time independently of each other.  Whether the UPDATE is
    accepted depends on the body alone; a refused UPDATE writes nothing
    and the catch answers 500. *)
Definition put_session (d : db) (now sid : Z) (user : req_user) (body : update_body)
    : response sessions_row * db :=
  if negb (requireRole [teacher; admin] user)
  then (res_error 403 "INSUFFICIENT_PERMISSIONS", d)
  else
    match select_session d sid with
    | [] => (res_error 404 "SESSION_NOT_FOUND", d)
    | session :: _ =>
        if negb (s_teacher_id session =? ru_id user)
        then (res_error 403 "UPDATE_PERMISSION_DENIED", d)
        else if is_null (ub_title body) && is_null (ub_description body)
                && is_null (ub_max_students body) && is_null (ub_start_time body)
                && is_null (ub_end_time body) && is_null (ub_status body)
        then (res_error 400 "NO_UPDATE_FIELDS", d)
        else
          match updated_session body now session with
          | inl _ => (res_error 500 "SESSION_UPDATE_ERROR", d)
          | inr _ =>
              let d1 := update_sessions d sid (updated_or_same body now) in
              match select_session d1 sid with
              | [] => (res_error 500 "SESSION_UPDATE_ERROR", d1)
              | updated :: _ => (res_json updated, d1)
              end
          end
    end.

(** ** services/sessionManager.js *)

(** The two CHECK constraints of engagement_metrics. *)
Definition confidence_check (confidence : Q) : bool :=
  Qle_bool 0 confidence && Qle_bool confidence 1.
Definition engagement_score_check (engagement_score : Q) : bool :=
  Qle_bool 0 engagement_score && Qle_bool engagement_score 1.

(** CREATE TABLE engagement_metrics (migrate.js): the names of its
    columns. *)
Definition engagement_metrics_columns : list string :=
  ["id"; "session_id"; "student_id"; "timestamp"; "emotion"; "confidence";
   "engagement_score"; "face_detected"; "created_at"]%string.

Definition column_exists (columns : list string) (name : string) : bool :=
  existsb (String.eqb name) columns.

(** An INTEGER column of engagement_metrics, by the name a statement
    gives it. *)
Definition engagement_metrics_integer (name : string)
    : db_error + (engagement_metrics_row -> Z) :=
  if String.eqb name "id" then inr em_id
  else if String.eqb name "session_id" then inr em_session_id
  else if String.eqb name "student_id" then inr em_student_id
  else if column_exists engagement_metrics_columns name then inl datatype_mismatch
  else inl undefined_column.

(** The value an INSERT gives for a column. *)
Inductive sql_value :=
| sql_integer (z : Z)
| sql_text (s : string)
| sql_numeric (q : Q)
| sql_timestamp (t : Z).

Definition given (name : string) (values : list (string * sql_value)) : option sql_value :=
  option_map snd (find (fun v => String.eqb (fst v) name) values).

Definition given_integer (name : string) (values : list (string * sql_value)) : option Z :=
  match given name values with Some (sql_integer z) => Some z | _ => None end.
Definition given_text (name : string) (values : list (string * sql_value)) : option string :=
  match given name values with Some (sql_text s) => Some s | _ => None end.
Definition given_numeric (name : string) (values : list (string * sql_value)) : option Q :=
  match given name values with Some (sql_numeric q) => Some q | _ => None end.
Definition given_timestamp (name : string) (values : list (string * sql_value)) : option Z :=
  match given name values with Some (sql_timestamp t) => Some t | _ => None end.

(** INSERT INTO engagement_metrics (<columns>) VALUES (<values>)
    RETURNING id, the columns paired with their values.  The statement
    is analysed first: every column it names must be one of the table.
    Then the two numbers are rounded to the scale of their columns; id
    comes from the sequence, which a failed statement does not give
    back; the six columns without a default are NOT NULL; the row must
    pass the two CHECKs and the two foreign keys. *)
Definition insert_into_engagement_metrics (d : db) (values : list (string * sql_value))
    : (db_error + engagement_metrics_row) * db :=
  if negb (forallb (fun v => column_exists engagement_metrics_columns (fst v)) values)
  then (inl undefined_column, d)
  else
    let d_failed :=
      with_engagement_metrics d (engagement_metrics d) (engagement_metrics_id_seq d + 1) in
    match given_integer "session_id" values, given_integer "student_id" values,
          given_timestamp "timestamp" values, given_text "emotion" values,
          given_numeric "confidence" values, given_numeric "engagement_score" values with
    | Some sid, Some uid, Some timestamp, Some emotion, Some confidence,
      Some engagement_score =>
        match DECIMAL 5 4 confidence, DECIMAL 3 2 engagement_score with
        | inr confidence, inr engagement_score =>
            let row := {| em_id := engagement_metrics_id_seq d; em_session_id := sid;
                          em_student_id := uid; em_timestamp := timestamp;
                          em_emotion := emotion; em_confidence := confidence;
                          em_engagement_score := engagement_score |} in
            if negb (confidence_check confidence && engagement_score_check engagement_score)
            then (inl check_violation, d_failed)
            else if negb (session_exists d sid && user_exists d uid)
            then (inl foreign_key_violation, d_failed)
            else (inr row,
                  with_engagement_metrics d (engagement_metrics d ++ [row])
                    (engagement_metrics_id_seq d + 1))
        | _, _ => (inl numeric_value_out_of_range, d)
        end
    | _, _, _, _, _, _ => (inl not_null_violation, d_failed)
    end.

(** INSERT INTO engagement_metrics (session_id, user_id, emotion, confidence,
    engagement_score, timestamp) VALUES ($1, $2, $3, $4, $5,
    CURRENT_TIMESTAMP) RETURNING id: the statement of
    SessionManager.storeEngagementMetric and of POST /process-frame. *)
Definition insert_engagement_metric (d : db) (now sid uid : Z) (emotion : string)
    (confidence engagement_score : Q) : (db_error + engagement_metrics_row) * db :=
  insert_into_engagement_metrics d
    [("session_id", sql_integer sid); ("user_id", sql_integer uid);
     ("emotion", sql_text emotion); ("confidence", sql_numeric confidence);
     ("engagement_score", sql_numeric engagement_score);
     ("timestamp", sql_timestamp now)]%string.

(** SessionManager.storeEngagementMetric: the inserted row's id, or the
    statement's error thrown on. *)
Definition storeEngagementMetric (d : db) (now sessionId studentId : Z)
    (emotion : string) (confidence engagementScore : Q) : (db_error + Z) * db :=
  match insert_engagement_metric d now sessionId studentId emotion confidence
          engagementScore with
  | (inl e, d1) => (inl e, d1)
  | (inr row, d1) => (inr (em_id row), d1)
  end.

(** The [status] argument: 'left', 'joined', or any other string. *)
Inductive user_status := status_left | status_joined | status_other.

(** SessionManager.updateUserStatus *)
Definition updateUserStatus (d : db) (now sessionId userId : Z) (status : user_status) : db :=
  match status with
  | status_left => update_left_at d now sessionId userId
  | status_joined => update_joined_at d now sessionId userId
  | status_other => d
  end.

(** SELECT ... FROM engagement_metrics WHERE session_id = $1 *)
Definition select_metrics (d : db) (sid : Z) : list engagement_metrics_row :=
  filter (fun em => em_session_id em =? sid) (engagement_metrics d).

Record engagement_summary := {
  total_metrics : Z;
  avg_engagement : option Q;
  active_participants : Z;
  session_start : option Z;
  session_end : option Z
}.

(** SessionManager.getSessionEngagementSummary:
    SELECT COUNT( * ) as total_metrics, AVG(engagement_score) as
    avg_engagement, COUNT(DISTINCT user_id) as active_participants,
    MIN(timestamp) as session_start, MAX(timestamp) as session_end
    FROM engagement_metrics WHERE session_id = $1; the error of the
    statement is thrown on. *)
Definition getSessionEngagementSummary (d : db) (sessionId : Z)
    : db_error + engagement_summary :=
  bind (engagement_metrics_integer "user_id") (fun user_id =>
  let rows := select_metrics d sessionId in
  inr {| total_metrics := COUNT rows;
         avg_engagement := AVG (map em_engagement_score rows);
         active_participants := COUNT_DISTINCT (map user_id rows);
         session_start := MIN_Z (map em_timestamp rows);
         session_end := MAX_Z (map em_timestamp rows) |}).

(** SessionManager.endSession: end_time is written, status is not
    (updated_at is written by the table's BEFORE UPDATE trigger). *)
Definition endSession (d : db) (now sessionId : Z) : db :=
  update_sessions d sessionId (fun s =>
    {| s_id := s_id s; s_teacher_id := s_teacher_id s;
       s_title := s_title s; s_description := s_description s;
       s_start_time := s_start_time s; s_end_time := Some now;
       s_status := s_status s; s_max_students := s_max_students s;
       s_created_at := s_created_at s; s_updated_at := now |}).

(** SessionManager.isUserInSession *)
Definition isUserInSession (d : db) (sessionId userId : Z) : bool :=
  0 <? COUNT (select_session_user d sessionId userId).

(** ** index.js: the socket handler of engagement_update *)

Record engagement_update_data := {
  sessionId : Z;
  studentId : Z;
  emotion : string;
  confidence : Q;
  engagementScore : Q
}.

(** One [socket.to(room).emit('engagement_update', payload)]. *)
Record emitted := {
  room : Z;
  payload : engagement_update_data;
  emitted_at : Z
}.

(** The handler broadcasts first and stores second; the promise of the
    store is neither awaited nor given a catch, so its error reaches
    no one: the second component is how that promise settles. *)
Definition on_engagement_update (d : db) (now : Z) (data : engagement_update_data)
    : list emitted * (db_error + Z) * db :=
  let broadcast := {| room := sessionId data; payload := data; emitted_at := now |} in
  let '(stored, d1) :=
    storeEngagementMetric d now (sessionId data) (studentId data) (emotion data)
      (confidence data) (engagementScore data) in
  ([broadcast], stored, d1).

(** A rejected promise that nothing handles is an unhandled rejection,
    on which Node.js (version 15 and later; setup.sh asks for 18) ends the
    process. *)
Definition unhandled_rejection (outcome : list emitted * (db_error + Z) * db) : bool :=
  match snd (fst outcome) with
  | inl _ => true
  | inr _ => false
  end.

(** ** routes/metrics.js: GET /class-overview *)

(** a JOIN b ON on *)
Definition JOIN {A B} (on : A -> B -> bool) (a : list A) (b : list B) : list (A * B) :=
  flat_map (fun x => map (pair x) (filter (on x) b)) a.

(** ... FROM session_users su JOIN sessions s ON su.session_id = s.id
    WHERE s.end_time IS NULL AND su.user_id != s.teacher_id *)
Definition open_session_students (d : db) : list (session_users_row * sessions_row) :=
  filter (fun p => is_null (s_end_time (snd p))
                   && negb (su_user_id (fst p) =? s_teacher_id (snd p)))
         (JOIN (fun su s => su_session_id su =? s_id s) (session_users d) (sessions d)).

(** ... FROM engagement_metrics em JOIN sessions s ON em.session_id = s.id
    WHERE s.end_time IS NULL AND em.timestamp > NOW() - INTERVAL '5 minutes' *)
Definition recent_metrics (d : db) (now : Z) : list (engagement_metrics_row * sessions_row) :=
  filter (fun p => is_null (s_end_time (snd p))
                   && (now - interval_5_minutes <? em_timestamp (fst p)))
         (JOIN (fun em s => em_session_id em =? s_id s) (engagement_metrics d) (sessions d)).

(** SELECT em.emotion, COUNT( * ) as count ... GROUP BY em.emotion *)
Definition emotion_counts (d : db) (now : Z) : list (string * Z) :=
  map (fun g => (fst g, COUNT (snd g)))
      (group_by String.eqb (fun p => em_emotion (fst p)) (recent_metrics d now)).

Record emotion_distribution := {
  attentive : Z;
  confused : Z;
  bored : Z;
  neutral : Z;
  happy : Z
}.

(** [if (emotionDistribution.hasOwnProperty(row.emotion))
       emotionDistribution[row.emotion] = parseInt(row.count)] *)
Definition set_emotion (e : emotion_distribution) (row : string * Z) : emotion_distribution :=
  let (emotion, count) := row in
  if String.eqb emotion "attentive" then
    {| attentive := count; confused := confused e; bored := bored e;
       neutral := neutral e; happy := happy e |}
  else if String.eqb emotion "confused" then
    {| attentive := attentive e; confused := count; bored := bored e;
       neutral := neutral e; happy := happy e |}
  else if String.eqb emotion "bored" then
    {| attentive := attentive e; confused := confused e; bored := count;
       neutral := neutral e; happy := happy e |}
  else if String.eqb emotion "neutral" then
    {| attentive := attentive e; confused := confused e; bored := bored e;
       neutral := count; happy := happy e |}
  else if String.eqb emotion "happy" then
    {| attentive := attentive e; confused := confused e; bored := bored e;
       neutral := neutral e; happy := count |}
  else e.

Definition emotionDistribution (d : db) (now : Z) : emotion_distribution :=
  fold_left set_emotion (emotion_counts d now)
    {| attentive := 0; confused := 0; bored := 0; neutral := 0; happy := 0 |}.

Definition confusion_alert : string :=
  "High confusion detected. Consider slowing down or providing examples.".
Definition boredom_alert : string :=
  "Students seem disengaged. Try an interactive activity or poll.".
Definition low_engagement_alert : string :=
  "Overall engagement is low. Consider changing the topic or format.".

(** [avg_engagement < n] in JavaScript, where avg_engagement is the
    column of the result row: null counts as 0. *)
Definition js_lt (avg : option Q) (n : Q) : bool :=
  negb (Qle_bool n (match avg with Some q => q | None => 0%Q end)).

(** The three [if (...) alerts.push(...)] of the handler, in order. *)
Definition generate_alerts (e : emotion_distribution) (avg : option Q) : list string :=
  let alerts := [] in
  let alerts := if 20 <? confused e then alerts ++ [confusion_alert] else alerts in
  let alerts := if 30 <? bored e then alerts ++ [boredom_alert] else alerts in
  let alerts := if js_lt avg 60 then alerts ++ [low_engagement_alert] else alerts in
  alerts.

(** [Math.round(x) || 0], x a numeric column or null. *)
Definition round_or_0 (avg : option Q) : Z :=
  match avg with Some q => Qfloor (q + (1 # 2)) | None => 0 end.

Record class_overview := {
  totalStudents : Z;
  onlineStudents : Z;
  averageEngagement : Z;
  co_emotionDistribution : emotion_distribution;
  alerts : list string
}.

(** SELECT AVG(em.engagement_score) as avg_engagement ... *)
Definition recent_avg_engagement (d : db) (now : Z) : option Q :=
  AVG (map (fun p => em_engagement_score (fst p)) (recent_metrics d now)).

(** GET /class-overview *)
Definition get_class_overview (d : db) (now : Z) (user : req_user)
    : response class_overview :=
  if negb (requireRole [teacher; admin] user)
  then res_error 403 "INSUFFICIENT_PERMISSIONS"
  else
    res_json
      {| totalStudents :=
           COUNT_DISTINCT (map (fun p => su_user_id (fst p)) (open_session_students d));
         onlineStudents :=
           COUNT_DISTINCT (map (fun p => em_student_id (fst p)) (recent_metrics d now));
         averageEngagement := round_or_0 (recent_avg_engagement d now);
         co_emotionDistribution := emotionDistribution d now;
         alerts := generate_alerts (emotionDistribution d now)
                     (recent_avg_engagement d now) |}.

(** ** routes/reports.js: GET /session/:sessionId *)

Record engagement_summary_row := {
  es_user_id : Z;
  es_total_metrics : Z;
  es_avg_engagement : option Q;
  es_min_engagement : option Q;
  es_max_engagement : option Q;
  happy_count : Z;
  sad_count : Z;
  neutral_count : Z;
  angry_count : Z;
  surprised_count : Z
}.

Record time_data_row := {
  time_bucket : Z;
  td_avg_engagement : option Q;
  metric_count : Z
}.

Record overall_stats := {
  os_total_metrics : Z;
  overall_engagement : option Q;
  os_active_participants : Z;
  os_session_start : option Z;
  os_session_end : option Z
}.

Record report := {
  r_session : sessions_row;
  r_participants : list (session_users_row * users_row);
  r_engagement_summary : list engagement_summary_row;
  r_time_data : list time_data_row;
  r_overall_stats : overall_stats;
  r_generated_at : Z
}.

(** COUNT(CASE WHEN emotion = e THEN 1 END) *)
Definition count_emotion (e : string) (rows : list engagement_metrics_row) : Z :=
  COUNT (filter (fun em => String.eqb (em_emotion em) e) rows).

(** SELECT user_id, COUNT( * ) as total_metrics, AVG(engagement_score) as
    avg_engagement, MIN(engagement_score), MAX(engagement_score),
    COUNT(CASE WHEN emotion = 'happy' THEN 1 END) as happy_count, ...
    FROM engagement_metrics WHERE session_id = $1 GROUP BY user_id *)
Definition engagement_summary_query (d : db) (sid : Z)
    : db_error + list engagement_summary_row :=
  bind (engagement_metrics_integer "user_id") (fun user_id =>
  inr (map (fun g =>
         let scores := map em_engagement_score (snd g) in
         {| es_user_id := fst g;
            es_total_metrics := COUNT (snd g);
            es_avg_engagement := AVG scores;
            es_min_engagement := MIN_Q scores;
            es_max_engagement := MAX_Q scores;
            happy_count := count_emotion "happy" (snd g);
            sad_count := count_emotion "sad" (snd g);
            neutral_count := count_emotion "neutral" (snd g);
            angry_count := count_emotion "angry" (snd g);
            surprised_count := count_emotion "surprised" (snd g) |})
      (group_by Z.eqb user_id (select_metrics d sid)))).

(** SELECT DATE_TRUNC('minute', timestamp) as time_bucket,
           AVG(engagement_score) as avg_engagement, COUNT( * ) as metric_count
    FROM engagement_metrics WHERE session_id = $1
    GROUP BY DATE_TRUNC('minute', timestamp) ORDER BY time_bucket *)
Definition time_data_query (d : db) (sid : Z) : list time_data_row :=
  order_by time_bucket
    (map (fun g =>
            {| time_bucket := fst g;
               td_avg_engagement := AVG (map em_engagement_score (snd g));
               metric_count := COUNT (snd g) |})
         (group_by Z.eqb (fun em => date_trunc_minute (em_timestamp em))
            (select_metrics d sid))).

(** SELECT COUNT( * ) as total_metrics, AVG(engagement_score) as
    overall_engagement, COUNT(DISTINCT user_id) as active_participants,
    MIN(timestamp) as session_start, MAX(timestamp) as session_end
    FROM engagement_metrics WHERE session_id = $1 *)
Definition overall_stats_query (d : db) (sid : Z) : db_error + overall_stats :=
  bind (engagement_metrics_integer "user_id") (fun user_id =>
  let rows := select_metrics d sid in
  inr {| os_total_metrics := COUNT rows;
         overall_engagement := AVG (map em_engagement_score rows);
         os_active_participants := COUNT_DISTINCT (map user_id rows);
         os_session_start := MIN_Z (map em_timestamp rows);
         os_session_end := MAX_Z (map em_timestamp rows) |}).

(** ... FROM session_users su JOIN users u ON su.user_id = u.id
    WHERE su.session_id = $1 ORDER BY su.joined_at *)
Definition participants_query (d : db) (sid : Z) : list (session_users_row * users_row) :=
  order_by (fun p => su_joined_at (fst p))
    (filter (fun p => su_session_id (fst p) =? sid)
       (JOIN (fun su u => su_user_id su =? u_id u) (session_users d) (users d))).

(** GET /session/:sessionId : the access check comes first, the session
    lookup second; then the four statements of the report, in the order
    of the handler, whose catch answers 500 to the error of any. *)
Definition get_session_report (d : db) (now sid : Z) (user : req_user)
    : response report :=
  match select_session_user d sid (ru_id user) with
  | [] => res_error 403 "SESSION_ACCESS_DENIED"
  | _ :: _ =>
      match select_session d sid with
      | [] => res_error 404 "SESSION_NOT_FOUND"
      | session :: _ =>
          let participants := participants_query d sid in
          match engagement_summary_query d sid with
          | inl _ => res_error 500 "REPORT_GENERATION_ERROR"
          | inr engagementSummary =>
              let timeData := time_data_query d sid in
              match overall_stats_query d sid with
              | inl _ => res_error 500 "REPORT_GENERATION_ERROR"
              | inr overallStats =>
                  res_json
                    {| r_session := session;
                       r_participants := participants;
                       r_engagement_summary := engagementSummary;
                       r_time_data := timeData;
                       r_overall_stats := overallStats;
                       r_generated_at := now |}
              end
          end
      end
  end.

(** * Further operations *)

(** ** middleware/auth.js and middleware/socketAuth.js: the token *)

(** What jwt.verify makes of the token presented as [Bearer <token>]:
    nothing was presented, one of the three errors the library throws, or
    the payload's userId. *)
Inductive token :=
| token_missing
| token_malformed                  (* JsonWebTokenError *)
| token_expired                    (* TokenExpiredError *)
| token_not_before                 (* NotBeforeError *)
| token_for (userId : Z).

(** authenticateToken, from the Authorization header on; an error that
    is neither a JsonWebTokenError nor a TokenExpiredError is answered
    500 AUTH_ERROR. *)
Definition authenticate (d : db) (t : token) : response req_user :=
  match t with
  | token_missing => res_error 401 "TOKEN_MISSING"
  | token_malformed => res_error 401 "TOKEN_INVALID"
  | token_expired => res_error 401 "TOKEN_EXPIRED"
  | token_not_before => res_error 500 "AUTH_ERROR"
  | token_for userId => authenticateToken d userId
  end.

(** optionalAuth: req.user is set, or the request goes on without it. *)
Definition optionalAuth (d : db) (t : token) : option req_user :=
  match t with
  | token_for userId =>
      match filter (fun u => u_id u =? userId) (users d) with
      | user :: _ =>
          if u_is_active user
          then Some {| ru_id := u_id user; ru_role := u_role user |}
          else None
      | [] => None
      end
  | _ => None
  end.

(** socketAuth: [SELECT ... FROM users WHERE id = $1 AND is_active = true];
    the handshake is refused with an Error carrying a message, or the
    user's id and role are attached to the socket. *)
Definition socketAuth (d : db) (t : token) : string + req_user :=
  match t with
  | token_missing => inl "Authentication token required"%string
  | token_malformed | token_expired | token_not_before =>
      inl "Authentication failed"%string
  | token_for userId =>
      match filter (fun u => (u_id u =? userId) && u_is_active u) (users d) with
      | [] => inl "User not found or inactive"%string
      | user :: _ => inr {| ru_id := u_id user; ru_role := u_role user |}
      end
  end.

(** ** middleware/errorHandler.js *)

(** The fields of a thrown error that errorHandler reads; a missing
    message or code is the empty string, which is falsy as well. *)
Record js_error := {
  err_name : string;
  err_statusCode : option Z;
  err_message : string;
  err_code : string
}.

Inductive node_env := production | development | other_env.

Record error_response := {
  er_statusCode : Z;
  er_error : string;
  er_code : string;
  er_stack_exposed : bool
}.

(** [s || fallback] on strings. *)
Definition or_string (s fallback : string) : string :=
  match s with EmptyString => fallback | _ => s end.

Definition errorHandler (env : node_env) (err : js_error) : error_response :=
  let statusCode := or_default (err_statusCode err) 500 in
  let message := or_string (err_message err) "Internal Server Error" in
  let code := or_string (err_code err) "INTERNAL_ERROR" in
  let '(statusCode, message, code) :=
    if String.eqb (err_name err) "ValidationError"
    then (400, "Validation failed"%string, "VALIDATION_ERROR"%string)
    else if String.eqb (err_name err) "UnauthorizedError"
    then (401, "Unauthorized"%string, "UNAUTHORIZED"%string)
    else if String.eqb (err_name err) "ForbiddenError"
    then (403, "Forbidden"%string, "FORBIDDEN"%string)
    else if String.eqb (err_name err) "NotFoundError"
    then (404, "Resource not found"%string, "NOT_FOUND"%string)
    else if String.eqb (err_name err) "ConflictError"
    then (409, "Resource conflict"%string, "CONFLICT"%string)
    else if String.eqb (err_name err) "RateLimitError"
    then (429, "Too many requests"%string, "RATE_LIMIT_EXCEEDED"%string)
    else (statusCode, message, code) in
  let '(message, code) :=
    match env with
    | production =>
        if statusCode =? 500
        then ("Internal Server Error"%string, "INTERNAL_ERROR"%string)
        else (message, code)
    | _ => (message, code)
    end in
  {| er_statusCode := statusCode; er_error := message; er_code := code;
     er_stack_exposed := match env with development => true | _ => false end |}.

(** ** routes/metrics.js: POST /process-frame *)

Definition mockEmotions : list string :=
  ["attentive"; "confused"; "bored"; "neutral"; "happy"]%string.

Record frame_result := {
  fr_emotion : string;
  fr_confidence : Q;
  fr_engagementScore : Z;
  fr_timestamp : Z
}.

(** The handler after authenticateToken and the upload middleware.
    [frame] tells whether a frame buffer came with the request; the three
    draws of Math.random() are arguments. *)
Definition post_process_frame (d : db) (now : Z) (frame : bool)
    (studentId sessionId : option Z) (random1 random2 random3 : Q)
    : response frame_result * db :=
  if negb frame then (res_error 400 "NO_FRAME_DATA", d)
  else
    match studentId, sessionId with
    | Some studentId, Some sessionId =>
        let mockEmotion :=
          nth (Z.to_nat (Qfloor (random1 * inject_Z (COUNT mockEmotions))))
              mockEmotions EmptyString in
        let mockConfidence := ((7 # 10) + random2 * (3 # 10))%Q in
        let mockEngagementScore := Qfloor (60 + random3 * 40) in
        match insert_engagement_metric d now sessionId studentId mockEmotion
                mockConfidence (inject_Z mockEngagementScore) with
        | (inl _, d1) => (res_error 500 "FRAME_PROCESSING_ERROR", d1)
        | (inr _, d1) =>
            (res_json {| fr_emotion := mockEmotion; fr_confidence := mockConfidence;
                         fr_engagementScore := mockEngagementScore;
                         fr_timestamp := now |}, d1)
        end
    | _, _ => (res_error 400 "MISSING_PARAMETERS", d)
    end.

(** ** routes/metrics.js: GET /session/:sessionId *)

(** a LEFT JOIN b ON on: a row of [a] without a match is kept, with NULLs. *)
Definition LEFT_JOIN {A B} (on : A -> B -> bool) (a : list A) (b : list B)
    : list (A * option B) :=
  flat_map (fun x =>
              match filter (on x) b with
              | [] => [(x, None)]
              | y :: m => map (fun z => (x, Some z)) (y :: m)
              end) a.

(** The non-NULL values of a column. *)
Fixpoint not_null {A} (l : list (option A)) : list A :=
  match l with
  | [] => []
  | Some x :: r => x :: not_null r
  | None :: r => not_null r
  end.

Definition option_Z_eqb (a b : option Z) : bool :=
  match a, b with
  | Some x, Some y => x =? y
  | None, None => true
  | _, _ => false
  end.

(** The GROUP BY columns of the session summary: s.id, s.title,
    s.teacher_id, s.created_at, s.end_time. *)
Definition summary_key (s : sessions_row) : Z * string * Z * Z * option Z :=
  (s_id s, s_title s, s_teacher_id s, s_created_at s, s_end_time s).

Definition summary_key_eqb (a b : Z * string * Z * Z * option Z) : bool :=
  let '(i, t, te, c, e) := a in
  let '(i1, t1, te1, c1, e1) := b in
  (i =? i1) && String.eqb t t1 && (te =? te1) && (c =? c1) && option_Z_eqb e e1.

Record session_summary_row := {
  ss_key : Z * string * Z * Z * option Z;
  ss_participant_count : Z;
  ss_avg_engagement : option Q;
  ss_total_metrics : Z
}.

(** SELECT s.id, ..., COUNT(DISTINCT su.user_id) as participant_count,
           AVG(em.engagement_score) as avg_engagement,
           COUNT(em.id) as total_metrics
    FROM sessions s
    LEFT JOIN session_users su ON s.id = su.session_id
    LEFT JOIN engagement_metrics em ON s.id = em.session_id
    WHERE s.id = $1 GROUP BY s.id, s.title, s.teacher_id, s.created_at, s.end_time *)
Definition session_summary_query (d : db) (sid : Z) : list session_summary_row :=
  let joined :=
    filter (fun r => s_id (fst (fst r)) =? sid)
      (LEFT_JOIN (fun r em => s_id (fst r) =? em_session_id em)
         (LEFT_JOIN (fun s su => s_id s =? su_session_id su) (sessions d) (session_users d))
         (engagement_metrics d)) in
  map (fun g =>
         {| ss_key := fst g;
            ss_participant_count :=
              COUNT_DISTINCT (map su_user_id (not_null (map (fun r => snd (fst r)) (snd g))));
            ss_avg_engagement :=
              AVG (map em_engagement_score (not_null (map snd (snd g))));
            ss_total_metrics := COUNT (not_null (map snd (snd g))) |})
      (group_by summary_key_eqb (fun r => summary_key (fst (fst r))) joined).

(** SELECT em.id, em.user_id, em.session_id, ..., u.name as user_name
    FROM engagement_metrics em JOIN users u ON em.user_id = u.id
    WHERE em.session_id = $1 ORDER BY em.timestamp DESC *)
Definition session_metrics_query (d : db) (sid : Z)
    : db_error + list (engagement_metrics_row * users_row) :=
  bind (engagement_metrics_integer "user_id") (fun user_id =>
  inr (order_by (fun p => - em_timestamp (fst p))
         (filter (fun p => em_session_id (fst p) =? sid)
            (JOIN (fun em u => user_id em =? u_id u) (engagement_metrics d) (users d))))).

Record session_metrics := {
  sm_session : option session_summary_row;     (* sessionSummary.rows[0] || null *)
  sm_metrics : list (engagement_metrics_row * users_row);
  sm_total_metrics : Z                          (* metrics.rows.length *)
}.

(** GET /api/metrics/session/:sessionId : the access check, the metrics
    of the session, the summary; the catch answers 500. *)
Definition get_session_metrics (d : db) (sid : Z) (user : req_user)
    : response session_metrics :=
  match select_session_user d sid (ru_id user) with
  | [] => res_error 403 "SESSION_ACCESS_DENIED"
  | _ :: _ =>
      match session_metrics_query d sid with
      | inl _ => res_error 500 "METRICS_FETCH_ERROR"
      | inr metrics =>
          let sessionSummary := session_summary_query d sid in
          res_json {| sm_session := hd_error sessionSummary;
                      sm_metrics := metrics;
                      sm_total_metrics := COUNT metrics |}
      end
  end.

(** ** services/sessionManager.js: the read operations *)

(** SessionManager.getSessionParticipants: the statement of the session
    report's participants. *)
Definition getSessionParticipants (d : db) (sessionId : Z)
    : list (session_users_row * users_row) :=
  order_by (fun p => su_joined_at (fst p))
    (filter (fun p => su_session_id (fst p) =? sessionId)
       (JOIN (fun su u => su_user_id su =? u_id u) (session_users d) (users d))).

(** SessionManager.getRealTimeEngagement(sessionId, limit = 50):
    SELECT em.id, em.user_id, ..., u.name as user_name
    FROM engagement_metrics em JOIN users u ON em.user_id = u.id
    WHERE em.session_id = $1 ORDER BY em.timestamp DESC LIMIT $2.
    A negative LIMIT is an error of the execution; the method throws the
    statement's error on. *)
Definition getRealTimeEngagement (d : db) (sessionId : Z) (limit : option Z)
    : db_error + list (engagement_metrics_row * users_row) :=
  let limit := match limit with Some n => n | None => 50 end in
  bind (engagement_metrics_integer "user_id") (fun user_id =>
  if limit <? 0 then inl invalid_row_count_in_limit_clause
  else inr (firstn (Z.to_nat limit)
              (order_by (fun p => - em_timestamp (fst p))
                 (filter (fun p => em_session_id (fst p) =? sessionId)
                    (JOIN (fun em u => user_id em =? u_id u)
                       (engagement_metrics d) (users d)))))).

(** ** routes/metrics.js: GET /user/:userId *)

Record user_summary := {
  us_total_metrics : Z;
  us_avg_engagement : option Q;
  us_sessions_participated : Z;
  us_first_metric : option Z;
  us_last_metric : option Z
}.

Record user_metrics := {
  um_metrics : list (engagement_metrics_row * sessions_row);
  um_summary : user_summary;
  um_total_metrics : Z                           (* metrics.rows.length *)
}.

(** SELECT em.id, ..., s.title as session_title FROM engagement_metrics em
    JOIN sessions s ON em.session_id = s.id WHERE em.user_id = $1
    ORDER BY em.timestamp DESC LIMIT 100 *)
Definition user_metrics_query (d : db) (userId : Z)
    : db_error + list (engagement_metrics_row * sessions_row) :=
  bind (engagement_metrics_integer "user_id") (fun user_id =>
  inr (firstn 100
         (order_by (fun p => - em_timestamp (fst p))
            (filter (fun p => user_id (fst p) =? userId)
               (JOIN (fun em s => em_session_id em =? s_id s)
                  (engagement_metrics d) (sessions d)))))).

(** SELECT COUNT( * ) as total_metrics, AVG(engagement_score) as
    avg_engagement, COUNT(DISTINCT session_id) as sessions_participated,
    MIN(timestamp) as first_metric, MAX(timestamp) as last_metric
    FROM engagement_metrics WHERE user_id = $1 *)
Definition user_summary_query (d : db) (userId : Z) : db_error + user_summary :=
  bind (engagement_metrics_integer "user_id") (fun user_id =>
  let rows := filter (fun em => user_id em =? userId) (engagement_metrics d) in
  inr {| us_total_metrics := COUNT rows;
         us_avg_engagement := AVG (map em_engagement_score rows);
         us_sessions_participated := COUNT_DISTINCT (map em_session_id rows);
         us_first_metric := MIN_Z (map em_timestamp rows);
         us_last_metric := MAX_Z (map em_timestamp rows) |}).

(** GET /api/metrics/user/:userId, [userId] being parseInt of the
    parameter; the catch answers 500. *)
Definition get_user_metrics (d : db) (userId : Z) (user : req_user)
    : response user_metrics :=
  if negb (ru_id user =? userId)
     && negb (user_role_eqb (ru_role user) teacher)
     && negb (user_role_eqb (ru_role user) admin)
  then res_error 403 "ACCESS_DENIED"
  else
    match user_metrics_query d userId with
    | inl _ => res_error 500 "USER_METRICS_FETCH_ERROR"
    | inr metrics =>
        match user_summary_query d userId with
        | inl _ => res_error 500 "USER_METRICS_FETCH_ERROR"
        | inr summary =>
            res_json {| um_metrics := metrics;
                        um_summary := summary;
                        um_total_metrics := COUNT metrics |}
        end
    end.

(** ** routes/sessions.js: GET /available *)

(** The GROUP BY columns: s.id, s.title, s.description, s.max_students,
    s.start_time, s.end_time, s.status, s.created_at, u.name. *)
Record available_row := {
  av_id : Z;
  av_title : string;
  av_description : option string;
  av_max_students : option Z;
  av_start_time : Z;
  av_end_time : option Z;
  av_status : session_status;
  av_created_at : Z;
  av_teacher_name : option string       (* NULL without a teacher row *)
}.

Definition option_string_eqb (a b : option string) : bool :=
  match a, b with
  | Some x, Some y => String.eqb x y
  | None, None => true
  | _, _ => false
  end.

Definition available_row_eqb (a b : available_row) : bool :=
  (av_id a =? av_id b) && String.eqb (av_title a) (av_title b)
  && option_string_eqb (av_description a) (av_description b)
  && option_Z_eqb (av_max_students a) (av_max_students b)
  && (av_start_time a =? av_start_time b)
  && option_Z_eqb (av_end_time a) (av_end_time b)
  && session_status_eqb (av_status a) (av_status b)
  && (av_created_at a =? av_created_at b)
  && option_string_eqb (av_teacher_name a) (av_teacher_name b).

Record available_session := {
  as_row : available_row;
  participantCount : Z;
  canJoin : bool
}.

Record available_sessions := {
  av_sessions : list available_session;
  av_total : Z;
  av_limit : Z;
  av_offset : Z
}.

(** s.status = $1, the parameter being any string. *)
Definition status_is (st : session_status) (str : string) : bool :=
  match status_of_string str with
  | Some x => session_status_eqb st x
  | None => false
  end.

Section Available.
(** The name column of users, which the rows of the model do not carry. *)
Variable u_name : users_row -> string.

Definition available_key (r : sessions_row * option users_row) : available_row :=
  {| av_id := s_id (fst r); av_title := s_title (fst r);
     av_description := s_description (fst r);
     av_max_students := s_max_students (fst r);
     av_start_time := s_start_time (fst r); av_end_time := s_end_time (fst r);
     av_status := s_status (fst r); av_created_at := s_created_at (fst r);
     av_teacher_name := option_map u_name (snd r) |}.

(** One row of the result: COUNT(su.user_id) counts the joined
    memberships, and canJoin is [participant_count < row.max_students]. *)
Definition available_of_group
    (g : available_row * list (sessions_row * option users_row * option session_users_row))
    : available_session :=
  let count := COUNT (not_null (map (fun r => option_map su_user_id (snd r)) (snd g))) in
  {| as_row := fst g; participantCount := count;
     canJoin := count <? to_number (av_max_students (fst g)) |}.

(** GET /available, with the query parameters status (default 'active'),
    limit (default 50) and offset (default 0); a negative LIMIT or OFFSET
    is an error of the statement. *)
Definition get_available (d : db) (status : option string) (limit offset : option Z)
    : response available_sessions :=
  let status := match status with Some str => str | None => "active"%string end in
  let limit := match limit with Some n => n | None => 50 end in
  let offset := match offset with Some n => n | None => 0 end in
  if (limit <? 0) || (offset <? 0)
  then res_error 500 "AVAILABLE_SESSIONS_FETCH_ERROR"
  else
    let joined :=
      LEFT_JOIN (fun r su => s_id (fst r) =? su_session_id su)
        (LEFT_JOIN (fun s u => s_teacher_id s =? u_id u) (sessions d) (users d))
        (session_users d) in
    let selected := filter (fun r => status_is (s_status (fst (fst r))) status) joined in
    let groups := group_by available_row_eqb (fun r => available_key (fst r)) selected in
    let rows := order_by (fun g => av_start_time (fst g)) groups in
    let page := firstn (Z.to_nat limit) (skipn (Z.to_nat offset) rows) in
    let sessions := map available_of_group page in
    res_json {| av_sessions := sessions; av_total := COUNT sessions;
                av_limit := limit; av_offset := offset |}.
End Available.

(** ** middleware/auth.js: the role guards; routes/users.js *)

Definition requireTeacher : req_user -> bool := requireRole [teacher; admin].
Definition requireStudent : req_user -> bool := requireRole [student; teacher; admin].
Definition requireAdmin : req_user -> bool := requireRole [admin].

(** GET /api/users/profile, behind authenticateToken; the answer is the
    user's row (name and email are columns the model does not carry). *)
Definition get_profile (d : db) (user : req_user) : response users_row :=
  match filter (fun u => u_id u =? ru_id user) (users d) with
  | [] => res_error 404 "USER_NOT_FOUND"
  | u :: _ => res_json u
  end.

(** GET /api/users/:id; [id] is parseInt(req.params.id), None for NaN.
    The number is not checked any further: one that INTEGER cannot hold
    is an error of the statement, and the catch answers 500. *)
Definition get_user_by_id (d : db) (id : option Z) (user : req_user)
    : response users_row :=
  if negb (user_role_eqb (ru_role user) admin)
  then res_error 403 "ADMIN_ACCESS_REQUIRED"
  else
    match id with
    | None => res_error 400 "INVALID_USER_ID"
    | Some userId =>
        if negb (INTEGER_in_range userId)
        then res_error 500 "USER_FETCH_ERROR"
        else
          match filter (fun u => u_id u =? userId) (users d) with
          | [] => res_error 404 "USER_NOT_FOUND"
          | u :: _ => res_json u
          end
    end.

(** ** The teacher's dashboard (components/TeacherDashboard.tsx) *)

Definition great_engagement : string :=
  "Great engagement! Students are focused and attentive.".

(** generateRecommendations, on the classMetrics state. *)
Definition generateRecommendations (classMetrics : class_overview) : list string :=
  let recommendations := [] in
  let recommendations :=
    if 20 <? confused (co_emotionDistribution classMetrics)
    then recommendations ++ [confusion_alert] else recommendations in
  let recommendations :=
    if 30 <? bored (co_emotionDistribution classMetrics)
    then recommendations ++ [boredom_alert] else recommendations in
  let recommendations :=
    if averageEngagement classMetrics <? 60
    then recommendations ++ [low_engagement_alert] else recommendations in
  let recommendations :=
    if 70 <? attentive (co_emotionDistribution classMetrics)
    then recommendations ++ [great_engagement] else recommendations in
  recommendations.

(** ** The requests of the two pages *)

(** app.use('/api/metrics', authenticateToken, metricsRoutes): the
    request passes authenticateToken at the mount point and once more at
    the route. *)
Definition behind_authentication {A} (d : db) (t : token)
    (handler : req_user -> response A * db) : response A * db :=
  match authenticate d t with
  | res_error status code => (res_error status code, d)
  | res_json _ =>
      match authenticate d t with
      | res_error status code => (res_error status code, d)
      | res_json user => handler user
      end
  end.

(** The state of classMetrics before the first answer. *)
Definition initial_classMetrics : class_overview :=
  {| totalStudents := 0; onlineStudents := 0; averageEngagement := 0;
     co_emotionDistribution :=
       {| attentive := 0; confused := 0; bored := 0; neutral := 0; happy := 0 |};
     alerts := [] |}.

(** fetchData of the dashboard, the part on class metrics:
    [fetch('.../api/metrics/class-overview')] is sent without headers,
    and classMetrics is replaced when the response is ok. *)
Definition fetchData (d : db) (now : Z) (classMetrics : class_overview) : class_overview :=
  match fst (behind_authentication d token_missing
               (fun user => (get_class_overview d now user, d))) with
  | res_json metricsData => metricsData
  | res_error _ _ => classMetrics
  end.

(** ** The student's page (components/StudentSession.tsx) *)

Record student_page := {
  currentEmotion : string;
  sp_confidence : Q;
  sp_engagementScore : Z;
  sessionDuration : Z;
  sp_alerts : list string
}.

Definition initial_student_page : student_page :=
  {| currentEmotion := "neutral"; sp_confidence := 0; sp_engagementScore := 0;
     sessionDuration := 0; sp_alerts := [] |}.

Definition confused_hint : string := "You seem confused. Consider asking a question!".
Definition bored_hint : string := "Stay engaged! Try taking notes or asking questions.".

(** [prev.slice(-2)] *)
Definition slice_last_2 {A} (prev : list A) : list A :=
  skipn (List.length prev - 2) prev.

(** updateEngagementMetrics; times are milliseconds. *)
Definition updateEngagementMetrics (page : student_page) (data : frame_result)
    (now sessionStartTime : Z) : student_page :=
  {| currentEmotion := or_string (fr_emotion data) "neutral";
     sp_confidence := if Qeq_bool (fr_confidence data) 0 then 0%Q else fr_confidence data;
     sp_engagementScore :=
       or_default (Some (fr_engagementScore data)) (sp_engagementScore page);
     sessionDuration := (now - sessionStartTime) / 1000;
     sp_alerts :=
       if String.eqb (fr_emotion data) "confused"
          && negb (Qle_bool (fr_confidence data) (7 # 10))
       then slice_last_2 (sp_alerts page) ++ [confused_hint]
       else if String.eqb (fr_emotion data) "bored"
               && negb (Qle_bool (fr_confidence data) (7 # 10))
       then slice_last_2 (sp_alerts page) ++ [bored_hint]
       else sp_alerts page |}.

(** captureAndProcessFrame once a frame has been captured: the form is
    posted without headers, and the page is updated when the response is
    ok. *)
Definition captureAndProcessFrame (page : student_page) (d : db)
    (now sessionStartTime : Z) (studentId sessionId : option Z)
    (random1 random2 random3 : Q) : student_page * db :=
  let '(response, d1) :=
    behind_authentication d token_missing
      (fun _ => post_process_frame d now true studentId sessionId
                  random1 random2 random3) in
  match response with
  | res_json data => (updateEngagementMetrics page data now sessionStartTime, d1)
  | res_error _ _ => (page, d1)
  end.

(** ** routes/sessions.js: PUT /:id with settings *)

(** session_analytics (migrate.js); the two JSONB columns are kept as
    text. *)
Record session_analytics_row := {
  sa_id : Z;
  sa_session_id : Z;
  sa_timestamp : Z;
  sa_total_students : Z;
  sa_active_students : Z;
  sa_average_engagement : Q;
  sa_emotion_distribution : string;
  sa_engagement_trend : string;
  sa_created_at : Z
}.

(** The table and its SERIAL sequence. *)
Record session_analytics_table := {
  sa_rows : list session_analytics_row;
  sa_id_seq : Z
}.

(** The unique indexes of session_analytics, each by its columns: the
    primary key alone (idx_session_analytics_session_id is a plain
    index). *)
Definition session_analytics_unique : list (list string) := [["id"%string]].

Definition same_columns (a b : list string) : bool :=
  forallb (fun c => existsb (String.eqb c) b) a
  && forallb (fun c => existsb (String.eqb c) a) b.

(** INSERT INTO session_analytics (session_id, timestamp, total_students,
    active_students, average_engagement, emotion_distribution,
    engagement_trend, created_at)
    VALUES ($1, CURRENT_TIMESTAMP, $2, 0, 0.0, $3, $4, CURRENT_TIMESTAMP)
    ON CONFLICT (session_id) DO UPDATE SET timestamp = EXCLUDED.timestamp,
    ... , created_at = EXCLUDED.created_at.
    The parameters are read first; then the statement is planned, and
    the conflict target has to be the columns of a unique index: when
    there is none the statement is refused before it touches the table. *)
Definition upsert_session_analytics (d : db) (t : session_analytics_table)
    (now sid total_students : Z) : (db_error + unit) * session_analytics_table :=
  if negb (INTEGER_in_range total_students)
  then (inl numeric_value_out_of_range, t)
  else if negb (existsb (same_columns ["session_id"%string]) session_analytics_unique)
  then (inl invalid_column_reference, t)
  else
    let row id :=
      {| sa_id := id; sa_session_id := sid; sa_timestamp := now;
         sa_total_students := total_students; sa_active_students := 0;
         sa_average_engagement := 0; sa_emotion_distribution := "{}";
         sa_engagement_trend := "[]"; sa_created_at := now |} in
    if negb (session_exists d sid)
    then (inl foreign_key_violation, {| sa_rows := sa_rows t; sa_id_seq := sa_id_seq t + 1 |})
    else if existsb (fun r => sa_session_id r =? sid) (sa_rows t)
    then (inr tt,
          {| sa_rows := map (fun r => if sa_session_id r =? sid then row (sa_id r) else r)
                            (sa_rows t);
             sa_id_seq := sa_id_seq t + 1 |})
    else (inr tt,
          {| sa_rows := sa_rows t ++ [row (sa_id_seq t)];
             sa_id_seq := sa_id_seq t + 1 |}).

(** PUT /:id, [settings] included.  The handler reads it twice:
    [if (settings)] and [settings.max_students || 50].  A falsy value
    (undefined, null, false, 0, the empty string) is [None]; a truthy one
    is given by its max_students, when it has one.  The settings are
    stored after the UPDATE, each statement being a transaction of its
    own, and before the answer is sent. *)
Definition put_session_with_settings (d : db) (t : session_analytics_table)
    (now sid : Z) (user : req_user) (body : update_body)
    (settings : option (option Z))
    : response sessions_row * db * session_analytics_table :=
  match put_session d now sid user body with
  | (res_error status code, d1) => (res_error status code, d1, t)
  | (res_json updated, d1) =>
      match settings with
      | None => (res_json updated, d1, t)
      | Some max_students =>
          match upsert_session_analytics d1 t now sid (or_default max_students 50) with
          | (inl _, t1) => (res_error 500 "SESSION_UPDATE_ERROR", d1, t1)
          | (inr _, t1) => (res_json updated, d1, t1)
          end
      end
  end.

(** * Notions the properties are stated with *)


(** The number of metric rows of the last five minutes, in sessions whose
    end_time is NULL, that carry the emotion [e]. *)
Definition count_recent (d : db) (now : Z) (e : string) : Z :=
  COUNT (filter (fun p => String.eqb (em_emotion (fst p)) e) (recent_metrics d now)).

(** The participants of a session that have not left it. *)
Definition active_participant_count (d : db) (sid : Z) : Z :=
  COUNT (filter (fun su => (su_session_id su =? sid) && is_null (su_left_at su))
           (session_users d)).

(** Two databases with the same rows in every table (their sequences may
    differ). *)
Definition same_tables (d d1 : db) : Prop :=
  users d1 = users d /\ sessions d1 = sessions d
  /\ session_users d1 = session_users d
  /\ engagement_metrics d1 = engagement_metrics d.

(** The foreign keys of the schema: every membership and every metric
    points to an existing session and an existing user, every session to
    an existing teacher. *)
Definition referential_integrity (d : db) : bool :=
  forallb (fun su => session_exists d (su_session_id su) && user_exists d (su_user_id su))
          (session_users d)
  && forallb (fun em => session_exists d (em_session_id em) && user_exists d (em_student_id em))
             (engagement_metrics d)
  && forallb (fun s => user_exists d (s_teacher_id s)) (sessions d).

(** The CHECK constraints of engagement_metrics hold of every stored row. *)
Definition metrics_in_range (d : db) : bool :=
  forallb (fun em => confidence_check (em_confidence em)
                     && engagement_score_check (em_engagement_score em))
          (engagement_metrics d).

(** What the UPDATE of PUT /:id requires of a body: no null for title or
    start_time, whose columns are NOT NULL, a max_students that fits
    INTEGER, and a status that is null or one of the three strings of the
    CHECK. *)
Definition acceptable (body : update_body) : bool :=
  negb (is_json_null (ub_title body))
  && negb (is_json_null (ub_start_time body))
  && match ub_max_students body with
     | Some (Some m) => INTEGER_in_range m
     | _ => true
     end
  && match ub_status body with
     | Some (Some str) => negb (is_null (status_of_string str))
     | _ => true
     end.

(** The session invariant of the specification: end_time is set iff the
    status is not active. *)
Definition session_invariant (s : sessions_row) : bool :=
  Bool.eqb (negb (is_null (s_end_time s)))
           (negb (session_status_eqb (s_status s) active)).

(** The status transitions the specification allows: none, active to
    ended, active to cancelled. *)
Definition allowed_transition (before after : session_status) : bool :=
  session_status_eqb before after
  || (session_status_eqb before active
      && (session_status_eqb after ended || session_status_eqb after cancelled)).

(** How a session row may differ after a step of the engine: same id,
    and the status is what it was or has become ended. *)
Definition status_moves (s s1 : sessions_row) : Prop :=
  s_id s1 = s_id s /\ (s_status s1 = s_status s \/ s_status s1 = ended).

(** A batch of metrics handed to the store, each with its time of
    arrival, and what the store answered to each. *)
Fixpoint store_all (d : db) (events : list (Z * engagement_update_data))
    : list (db_error + Z) * db :=
  match events with
  | [] => ([], d)
  | (now, ev) :: rest =>
      let '(r, d1) := storeEngagementMetric d now (sessionId ev) (studentId ev)
                        (emotion ev) (confidence ev) (engagementScore ev) in
      let '(rs, d2) := store_all d1 rest in
      (r :: rs, d2)
  end.

(** The events of a batch that the store accepted. *)
Fixpoint accepted (events : list (Z * engagement_update_data))
    (results : list (db_error + Z)) : list engagement_update_data :=
  match events, results with
  | (_, ev) :: es, inr _ :: rs => ev :: accepted es rs
  | _ :: es, inl _ :: rs => accepted es rs
  | _, _ => []
  end.

(** The engagement scores accepted for one session. *)
Definition accepted_scores (sid : Z) (events : list (Z * engagement_update_data))
    (results : list (db_error + Z)) : list Q :=
  map engagementScore (filter (fun ev => sessionId ev =? sid) (accepted events results)).

(** The operations that leave the sessions table alone or end a session
    through POST /:id/end. *)
Inductive engine_step (d : db) : db -> Prop :=
| step_join now sid user : engine_step d (snd (post_join d now sid user))
| step_join_second now sid user : engine_step d (snd (post_join_second d now sid user))
| step_leave now sid user : engine_step d (snd (post_leave d now sid user))
| step_end now sid user : engine_step d (snd (post_end d now sid user))
| step_metric now data : engine_step d (snd (on_engagement_update d now data))
| step_user_status now sid uid st : engine_step d (updateUserStatus d now sid uid st).

Inductive engine_steps (d : db) : db -> Prop :=
| steps_nil : engine_steps d d
| steps_cons d1 d2 : engine_steps d d1 -> engine_step d1 d2 -> engine_steps d d2.

(** Any of the modelled operations that write to the database. *)
Inductive api_step (d : db) : db -> Prop :=
| api_engine d1 : engine_step d d1 -> api_step d d1
| api_create now user body : api_step d (snd (post_session d now user body))
| api_update now sid user body : api_step d (snd (put_session d now sid user body))
| api_end_session now sid : api_step d (endSession d now sid).

(** Sequences of operations. *)
Inductive api_steps (d : db) : db -> Prop :=
| api_nil : api_steps d d
| api_cons d1 d2 : api_steps d d1 -> api_step d1 d2 -> api_steps d d2.

(** The operations of the program that hold an INSERT into
    engagement_metrics or write to another table: the ones above and
    POST /process-frame. *)
Inductive program_step (d : db) : db -> Prop :=
| program_api d1 : api_step d d1 -> program_step d d1
| program_frame now frame studentId sessionId random1 random2 random3 :
    program_step d
      (snd (post_process_frame d now frame studentId sessionId random1 random2 random3)).

Inductive program_steps (d : db) : db -> Prop :=
| program_nil : program_steps d d
| program_cons d1 d2 : program_steps d d1 -> program_step d1 d2 -> program_steps d d2.

(** The statements that write to a table, one at a time. *)
Inductive table_write (d : db) : db -> Prop :=
| tw_insert_session now tid title descr m st en :
    table_write d (snd (insert_session d now tid title descr m st en))
| tw_insert_session_user now sid uid r :
    table_write d (snd (insert_session_user d now sid uid r))
| tw_insert_engagement_metric now sid uid e c s :
    table_write d (snd (insert_engagement_metric d now sid uid e c s))
| tw_update_sessions sid f :
    (forall s, s_id (f s) = s_id s /\ s_teacher_id (f s) = s_teacher_id s) ->
    table_write d (update_sessions d sid f)
| tw_update_left_at now sid uid : table_write d (update_left_at d now sid uid)
| tw_update_joined_at now sid uid : table_write d (update_joined_at d now sid uid).

Inductive table_writes (d : db) : db -> Prop :=
| tw_nil : table_writes d d
| tw_cons d1 d2 : table_writes d d1 -> table_write d1 d2 -> table_writes d d2.

(** The primary keys of the three tables the handlers write to, each
    with its sequence ahead of every id in the table, and the UNIQUE
    (session_id, user_id) of session_users. *)
Definition keys_unique (d : db) : Prop :=
  (NoDup (map s_id (sessions d))
   /\ Forall (fun s => s_id s < sessions_id_seq d) (sessions d))
  /\ (NoDup (map su_id (session_users d))
      /\ Forall (fun su => su_id su < session_users_id_seq d) (session_users d))
  /\ (NoDup (map em_id (engagement_metrics d))
      /\ Forall (fun em => em_id em < engagement_metrics_id_seq d) (engagement_metrics d))
  /\ NoDup (map (fun su => (su_session_id su, su_user_id su)) (session_users d)).

(** The operations other than a PUT /:id that sets end_time to null. *)
Inductive scheduled_step (d : db) : db -> Prop :=
| scheduled_engine d1 : engine_step d d1 -> scheduled_step d d1
| scheduled_create now user body :
    scheduled_step d (snd (post_session d now user body))
| scheduled_update now sid user body :
    ub_end_time body <> Some None ->
    scheduled_step d (snd (put_session d now sid user body))
| scheduled_end_session now sid : scheduled_step d (endSession d now sid).

Inductive scheduled_steps (d : db) : db -> Prop :=
| scheduled_nil : scheduled_steps d d
| scheduled_cons d1 d2 :
    scheduled_steps d d1 -> scheduled_step d1 d2 -> scheduled_steps d d2.

(** ** Scenarios *)

Module Scenario.

Definition user (i : Z) (r : user_role) : users_row :=
  {| u_id := i; u_role := r; u_is_active := true |}.

(** One teacher (1), ten students (2 to 11), a second teacher (12). *)
Definition db0 : db :=
  {| users := user 1 teacher
              :: map (fun i => user i student) [2; 3; 4; 5; 6; 7; 8; 9; 10; 11]
              ++ [user 12 teacher];
     sessions := []; session_users := []; engagement_metrics := [];
     sessions_id_seq := 1; session_users_id_seq := 1;
     engagement_metrics_id_seq := 1 |}.

(** The same users and an admin (13). *)
Definition db_admin : db :=
  {| users := users db0 ++ [user 13 admin];
     sessions := []; session_users := []; engagement_metrics := [];
     sessions_id_seq := 1; session_users_id_seq := 1;
     engagement_metrics_id_seq := 1 |}.

Definition the_admin : req_user := {| ru_id := 13; ru_role := admin |}.
Definition the_teacher : req_user := {| ru_id := 1; ru_role := teacher |}.
Definition other_teacher : req_user := {| ru_id := 12; ru_role := teacher |}.
Definition the_student (i : Z) : req_user := {| ru_id := i; ru_role := student |}.

Definition lesson (max_students : option Z) : create_body :=
  {| cb_title := "Algebra"; cb_description := None;
     cb_max_students := max_students;
     cb_start_time := Some 0; cb_end_time := Some 3600000000 |}.

Definition set_end_time (t : option Z) : update_body :=
  {| ub_title := None; ub_description := None; ub_max_students := None;
     ub_start_time := None; ub_end_time := Some t; ub_status := None |}.

Definition set_status (st : string) : update_body :=
  {| ub_title := None; ub_description := None; ub_max_students := None;
     ub_start_time := None; ub_end_time := None; ub_status := Some (Some st) |}.

Definition metric (sid uid : Z) (e : string) (c s : Q) : engagement_update_data :=
  {| sessionId := sid; studentId := uid; emotion := e;
     confidence := c; engagementScore := s |}.

(** The teacher creates session 1 (50 places). *)
Definition created : db := snd (post_session db0 10 the_teacher (lesson None)).

(** ... and clears its end_time, which the class overview requires. *)
Definition opened : db := snd (put_session created 20 1 the_teacher (set_end_time None)).

(** The ten students join. *)
Definition class_of_10 : db :=
  fold_left (fun d i => snd (post_join d 30 1 (the_student i)))
            [2; 3; 4; 5; 6; 7; 8; 9; 10; 11] opened.

(** A metric as an INSERT that names the columns of the table stores
    it. *)
Definition seed (d : db) (now sid uid : Z) (e : string) (c s : Q) : db :=
  snd (insert_into_engagement_metrics d
         [("session_id", sql_integer sid); ("student_id", sql_integer uid);
          ("emotion", sql_text e); ("confidence", sql_numeric c);
          ("engagement_score", sql_numeric s); ("timestamp", sql_timestamp now)]%string).

(** A row of 'confused' for each of the first [n] students. *)
Definition confused_reports (n : nat) : db :=
  fold_left (fun d i => seed d 40 1 i "confused" (9 # 10) (1 # 2))
            (firstn n [2; 3; 4; 5; 6; 7; 8; 9; 10; 11]) class_of_10.

(** Twenty-one rows of 'confused', all of student 2. *)
Definition confused_by_one : db :=
  fold_left (fun d _ => seed d 40 1 2 "confused" (9 # 10) (1 # 2))
            (seq 1 21) class_of_10.

(** A row of 'attentive' with an engagement score of 0.9 for each of the
    ten students. *)
Definition attentive_reports : db :=
  fold_left (fun d i => seed d 40 1 i "attentive" (9 # 10) (9 # 10))
            [2; 3; 4; 5; 6; 7; 8; 9; 10; 11] class_of_10.

(** A session with two places: the teacher and student 2. *)
Definition small_created : db :=
  snd (post_session db0 10 the_teacher (lesson (Some 2))).
Definition small_full : db := snd (post_join small_created 30 1 (the_student 2)).
(** Student 2 leaves. *)
Definition small_after_leave : db := snd (post_leave small_full 40 1 (the_student 2)).
(** The teacher ends the session, or cancels it. *)
Definition small_ended : db := snd (post_end small_after_leave 50 1 the_teacher).
Definition small_cancelled : db :=
  snd (put_session small_after_leave 50 1 the_teacher (set_status "cancelled")).

(** Three metrics of student 2 in session 1, with the given scores. *)
Definition three_scores (a b c : Q) : list (Z * engagement_update_data) :=
  [(41, metric 1 2 "attentive" (9 # 10) a);
   (42, metric 1 2 "attentive" (9 # 10) b);
   (43, metric 1 2 "attentive" (9 # 10) c)].

(** The session with two places and three rows of student 2 in its
    table of metrics. *)
Definition small_with_metrics : db :=
  seed (seed (seed small_full 41 1 2 "attentive" (9 # 10) (4 # 5))
             42 1 2 "attentive" (9 # 10) (3 # 5))
       43 1 2 "attentive" (9 # 10) 1.

(** What the teacher's dashboard receives when [n] of the ten students
    have a row of 'confused' ... *)
Definition overview (n : Z) : class_overview :=
  {| totalStudents := 10; onlineStudents := n; averageEngagement := 1;
     co_emotionDistribution :=
       {| attentive := 0; confused := n; bored := 0; neutral := 0; happy := 0 |};
     alerts := [low_engagement_alert] |}.

(** ... when one of them has twenty-one rows of 'confused' ... *)
Definition overview_by_one : class_overview :=
  {| totalStudents := 10; onlineStudents := 1; averageEngagement := 1;
     co_emotionDistribution :=
       {| attentive := 0; confused := 21; bored := 0; neutral := 0; happy := 0 |};
     alerts := [confusion_alert; low_engagement_alert] |}.

(** ... and when all ten are attentive at 0.9. *)
Definition overview_attentive : class_overview :=
  {| totalStudents := 10; onlineStudents := 10; averageEngagement := 1;
     co_emotionDistribution :=
       {| attentive := 10; confused := 0; bored := 0; neutral := 0; happy := 0 |};
     alerts := [low_engagement_alert] |}.

End Scenario.

(** * Properties *)

(** ** Grouping and ordering *)

Lemma filter_none {A} (f : A -> bool) l :
  (forall x, In x l -> f x = false) -> filter f l = [].
Proof.
  induction l as [|x l IH]; simpl; intros H; [reflexivity|].
  rewrite (H x) by now left. apply IH. intros; apply H; now right.
Qed.

Section GroupByFacts.
Context {A K : Type} (eqb : K -> K -> bool) (key : A -> K).
Hypothesis eqb_eq : forall a b, eqb a b = true <-> a = b.

Lemma eqb_refl_true k : eqb k k = true.
Proof. now apply eqb_eq. Qed.

Lemma in_distinct_keys rows k :
  In k (distinct_keys eqb key rows) <-> exists r, In r rows /\ key r = k.
Proof.
  induction rows as [|r rest IH]; simpl.
  - split; [tauto | intros (r & [] & _)].
  - rewrite filter_In, IH. split.
    + intros [E | ((r' & Hin & Hk) & _)]; eauto.
    + intros (r' & [E | Hin] & Hk); subst.
      * now left.
      * destruct (eqb (key r') (key r)) eqn:E.
        -- left. symmetry. now apply eqb_eq.
        -- right. split; eauto.
  Qed.

Lemma NoDup_distinct_keys rows : NoDup (distinct_keys eqb key rows).
Proof.
  induction rows as [|r rest IH]; simpl; constructor.
  - rewrite filter_In, eqb_refl_true. simpl. intros [_ H]. discriminate.
  - now apply NoDup_filter.
Qed.



End GroupByFacts.

Section OrderByFacts.
Context {A : Type} (key : A -> Z).

Lemma in_insert_sorted x y l : In y (insert_sorted key x l) <-> y = x \/ In y l.
Proof.
  induction l as [|z l IH]; simpl.
  - intuition auto.
  - destruct (key x <=? key z); simpl; rewrite ?IH; intuition auto.
Qed.

Lemma in_order_by y l : In y (order_by key l) <-> In y l.
Proof.
  induction l as [|x l IH]; simpl; [tauto|].
  rewrite in_insert_sorted, IH. intuition auto.
Qed.


End OrderByFacts.

(** ** Averages and bounds *)

Lemma engagement_score_check_spec s :
  engagement_score_check s = true <-> (0 <= s <= 1)%Q.
Proof. unfold engagement_score_check. rewrite andb_true_iff, !Qle_bool_iff. tauto. Qed.

Lemma AVG_spec l :
  match AVG l with
  | None => l = []
  | Some m => l <> [] /\ (m * inject_Z (Z.of_nat (List.length l)) == Qsum l)%Q
  end.
Proof.
  destruct l as [|x l]; [reflexivity|]. unfold AVG, COUNT.
  split; [discriminate|].
  rewrite Qred_correct. field.
  change 0%Q with (inject_Z 0). rewrite inject_Z_injective. simpl List.length. lia.
Qed.

(** ** Trend buckets of the session report *)

Lemma date_trunc_minute_floor ts :
  date_trunc_minute ts = usecs_per_minute * (ts / usecs_per_minute)
  /\ date_trunc_minute ts <= ts < date_trunc_minute ts + usecs_per_minute.
Proof.
  unfold date_trunc_minute.
  assert (Hpos : 0 < usecs_per_minute) by reflexivity.
  pose proof (Z.mod_pos_bound ts usecs_per_minute Hpos).
  pose proof (Z.div_mod ts usecs_per_minute). lia.
Qed.

Lemma in_time_data_query d sid b :
  In b (time_data_query d sid) <->
  exists k, In k (distinct_keys Z.eqb (fun em => date_trunc_minute (em_timestamp em))
                    (select_metrics d sid))
    /\ b = (let g := filter (fun em => date_trunc_minute (em_timestamp em) =? k)
                       (select_metrics d sid) in
            {| time_bucket := k;
               td_avg_engagement := AVG (map em_engagement_score g);
               metric_count := COUNT g |}).
Proof.
  unfold time_data_query, group_by.
  rewrite in_order_by, map_map, in_map_iff. simpl.
  split; intros (k & H1 & H2); exists k; auto.
Qed.


(** ** Alerts of the class overview *)

Ltac case_emotion k :=
  unfold set_emotion;
  destruct (String.eqb_spec k "attentive");
  [|destruct (String.eqb_spec k "confused");
    [|destruct (String.eqb_spec k "bored");
      [|destruct (String.eqb_spec k "neutral");
        [|destruct (String.eqb_spec k "happy")]]]];
  subst; try reflexivity; try congruence.

Lemma fold_set_emotion_confused (count : string -> Z) ks e :
  confused (fold_left set_emotion (map (fun k => (k, count k)) ks) e)
  = if existsb (String.eqb "confused") ks then count "confused"%string else confused e.
Proof.
  revert e. induction ks as [|k ks IH]; intros e; [reflexivity|].
  cbn [map fold_left existsb]. rewrite IH.
  destruct (String.eqb_spec "confused" k) as [<-|Hne]; cbn [orb].
  - now destruct (existsb _ ks).
  - destruct (existsb _ ks); [reflexivity|]. case_emotion k.
Qed.

Lemma fold_set_emotion_bored (count : string -> Z) ks e :
  bored (fold_left set_emotion (map (fun k => (k, count k)) ks) e)
  = if existsb (String.eqb "bored") ks then count "bored"%string else bored e.
Proof.
  revert e. induction ks as [|k ks IH]; intros e; [reflexivity|].
  cbn [map fold_left existsb]. rewrite IH.
  destruct (String.eqb_spec "bored" k) as [<-|Hne]; cbn [orb].
  - now destruct (existsb _ ks).
  - destruct (existsb _ ks); [reflexivity|]. case_emotion k.
Qed.

Lemma emotion_counts_keys d now :
  emotion_counts d now
  = map (fun k => (k, count_recent d now k))
        (distinct_keys String.eqb (fun p => em_emotion (fst p)) (recent_metrics d now)).
Proof. unfold emotion_counts, group_by. now rewrite map_map. Qed.

Lemma count_recent_absent d now e :
  existsb (String.eqb e)
    (distinct_keys String.eqb (fun p => em_emotion (fst p)) (recent_metrics d now)) = false ->
  count_recent d now e = 0.
Proof.
  intros H. unfold count_recent. rewrite filter_none; [reflexivity|].
  intros p Hp. destruct (String.eqb_spec (em_emotion (fst p)) e) as [E|]; [|reflexivity].
  assert (Hex : existsb (String.eqb e)
    (distinct_keys String.eqb (fun p => em_emotion (fst p)) (recent_metrics d now)) = true).
  { apply existsb_exists. exists e. split; [|apply String.eqb_refl].
    apply (in_distinct_keys String.eqb _ String.eqb_eq). eauto. }
  congruence.
Qed.

Lemma emotionDistribution_confused d now :
  confused (emotionDistribution d now) = count_recent d now "confused".
Proof.
  unfold emotionDistribution. rewrite emotion_counts_keys, fold_set_emotion_confused.
  destruct (existsb _ _) eqn:E; [reflexivity|].
  symmetry. now apply count_recent_absent.
Qed.

Lemma emotionDistribution_bored d now :
  bored (emotionDistribution d now) = count_recent d now "bored".
Proof.
  unfold emotionDistribution. rewrite emotion_counts_keys, fold_set_emotion_bored.
  destruct (existsb _ _) eqn:E; [reflexivity|].
  symmetry. now apply count_recent_absent.
Qed.

Lemma js_lt_spec avg n :
  js_lt avg n = true <-> (match avg with Some q => q | None => 0 end < n)%Q.
Proof.
  unfold js_lt. rewrite negb_true_iff, <- not_true_iff_false, Qle_bool_iff.
  split; [apply Qnot_le_lt | apply Qlt_not_le].
Qed.

Lemma generate_alerts_spec e avg :
  (In confusion_alert (generate_alerts e avg) <-> 20 < confused e)
  /\ (In boredom_alert (generate_alerts e avg) <-> 30 < bored e)
  /\ (In low_engagement_alert (generate_alerts e avg) <-> js_lt avg 60 = true).
Proof.
  unfold generate_alerts.
  rewrite <- !Z.ltb_lt.
  destruct (20 <? confused e), (30 <? bored e), (js_lt avg 60); simpl;
    repeat split; intros H; try discriminate; auto;
    repeat (destruct H as [H|H]; try discriminate H); try contradiction.
Qed.

Lemma in_recent_metrics d now p :
  In p (recent_metrics d now) -> In (fst p) (engagement_metrics d).
Proof.
  unfold recent_metrics, JOIN. rewrite filter_In, in_flat_map.
  intros [(em & Hem & Hp) _]. apply in_map_iff in Hp.
  destruct Hp as (s & <- & _). exact Hem.
Qed.

(** C1, as the code has it: the confusion alert is emitted exactly when
    the number of 'confused' metric rows of the last five minutes (in
    sessions whose end_time is NULL) exceeds 20, the boredom alert exactly
    when the number of 'bored' rows exceeds 30, and the low-engagement
    alert exactly when the average engagement_score of those rows, taken
    as 0 when there are none, is below 60.  The two emotion thresholds
    are compared with counts of rows, whoever the rows are of, not with
    shares of the students. *)
Theorem class_overview_alerts_by_count (d : db) (now : Z) (user : req_user)
    (o : class_overview) :
  get_class_overview d now user = res_json o ->
  (In confusion_alert (alerts o) <-> 20 < count_recent d now "confused")
  /\ (In boredom_alert (alerts o) <-> 30 < count_recent d now "bored")
  /\ (In low_engagement_alert (alerts o) <->
       (match recent_avg_engagement d now with Some q => q | None => 0 end < 60)%Q).
Proof.
  unfold get_class_overview.
  destruct (negb (requireRole [teacher; admin] user)); [discriminate|].
  intros [= <-]. cbn [alerts].
  rewrite <- emotionDistribution_confused, <- emotionDistribution_bored, <- js_lt_spec.
  apply generate_alerts_spec.
Qed.

Lemma class_overview_alerts_by_count_witness :
  let d := Scenario.confused_by_one in
  let o := Scenario.overview_by_one in
  get_class_overview d 50 Scenario.the_teacher = res_json o
  /\ ((In confusion_alert (alerts o) <-> 20 < count_recent d 50 "confused")
      /\ (In boredom_alert (alerts o) <-> 30 < count_recent d 50 "bored")
      /\ (In low_engagement_alert (alerts o) <->
           (match recent_avg_engagement d 50 with Some q => q | None => 0 end < 60)%Q)).
Proof.
  intros d o. split.
  - vm_compute. reflexivity.
  - apply (class_overview_alerts_by_count d 50 Scenario.the_teacher o).
    vm_compute. reflexivity.
Defined.

(** C1 fails as stated, in both directions.  In a class of ten students
    with a 'confused' row for each of three of them, a share of 30%, the
    overview carries no confusion alert; and with twenty-one 'confused'
    rows that are all of one student, a share of 10%, it carries it. *)
Lemma confusion_alert_ignores_share :
  (get_class_overview (Scenario.confused_reports 3) 50 Scenario.the_teacher
   = res_json (Scenario.overview 3)
   /\ totalStudents (Scenario.overview 3) = 10
   /\ COUNT_DISTINCT (map em_student_id (engagement_metrics (Scenario.confused_reports 3)))
      = 3
   /\ map em_emotion (engagement_metrics (Scenario.confused_reports 3))
      = ["confused"; "confused"; "confused"]%string
   /\ 20 * 10 < 100 * 3
   /\ ~ In confusion_alert (alerts (Scenario.overview 3)))
  /\ (get_class_overview Scenario.confused_by_one 50 Scenario.the_teacher
      = res_json Scenario.overview_by_one
      /\ totalStudents Scenario.overview_by_one = 10
      /\ COUNT_DISTINCT (map em_student_id (engagement_metrics Scenario.confused_by_one))
         = 1
      /\ 100 * 1 <= 20 * 10
      /\ In confusion_alert (alerts Scenario.overview_by_one)).
Proof.
  repeat split; try (vm_compute; reflexivity); try (vm_compute; discriminate).
  - intros [H | []]. discriminate H.
  - now left.
Qed.

(** ** Storing metrics *)

(** The statement of the store names the column user_id, which
    engagement_metrics does not have: it is refused as it is analysed,
    whatever its values, and nothing of the database changes. *)
Lemma insert_engagement_metric_refused d now sid uid e c s :
  insert_engagement_metric d now sid uid e c s = (inl undefined_column, d).
Proof. reflexivity. Qed.

Lemma storeEngagementMetric_refused d now sid uid e c s :
  storeEngagementMetric d now sid uid e c s = (inl undefined_column, d).
Proof. reflexivity. Qed.

Lemma on_engagement_update_outcome d now data :
  on_engagement_update d now data
  = ([{| room := sessionId data; payload := data; emitted_at := now |}],
     inl undefined_column, d).
Proof. reflexivity. Qed.

Lemma store_all_refused events d :
  store_all d events = (map (fun _ => inl undefined_column) events, d).
Proof.
  induction events as [|[now ev] rest IH]; [reflexivity|].
  cbn [store_all]. rewrite storeEngagementMetric_refused, IH. reflexivity.
Qed.

Lemma accepted_of_refused events :
  accepted events (map (fun _ => inl undefined_column) events) = [].
Proof.
  induction events as [|[now ev] rest IH]; [reflexivity|]. exact IH.
Qed.

(** The summary of SessionManager names user_id as well. *)
Lemma getSessionEngagementSummary_refused d sid :
  getSessionEngagementSummary d sid = inl undefined_column.
Proof. reflexivity. Qed.

(** What the table makes of a score when a statement names its columns:
    the score is rounded to two digits, and the CHECK is applied to the
    rounded value.  80 does not fit DECIMAL(3,2); 1.004 is stored as 1;
    1.005 is rounded to 1.01 and refused by the CHECK. *)
Example scores_as_the_table_stores_them :
  let store s :=
    insert_into_engagement_metrics Scenario.small_full
      [("session_id", sql_integer 1); ("student_id", sql_integer 2);
       ("emotion", sql_text "attentive"); ("confidence", sql_numeric (9 # 10));
       ("engagement_score", sql_numeric s); ("timestamp", sql_timestamp 41)]%string in
  option_map em_engagement_score
    (match fst (store (333 # 1000)) with inr row => Some row | inl _ => None end)
  = Some (33 # 100)
  /\ option_map em_engagement_score
       (match fst (store (1004 # 1000)) with inr row => Some row | inl _ => None end)
     = Some 1%Q
  /\ fst (store (1005 # 1000)) = inl check_violation
  /\ fst (store (80 # 1)) = inl numeric_value_out_of_range
  /\ same_tables Scenario.small_full (snd (store (80 # 1))).
Proof. vm_compute. repeat split. Qed.

(** C2, as the code has it: no metric is ever accepted, and no
    average is ever reported.  Whatever the events of a batch,
    SessionManager.storeEngagementMetric rejects every one of them with
    undefined_column and leaves the database as it was, so the accepted
    events are none; and getSessionEngagementSummary, for any session,
    throws the same error instead of returning an average. *)
Theorem no_average_is_reported (d : db) (events : list (Z * engagement_update_data))
    (sid : Z) :
  fst (store_all d events) = map (fun _ => inl undefined_column) events
  /\ snd (store_all d events) = d
  /\ accepted events (fst (store_all d events)) = []
  /\ accepted_scores sid events (fst (store_all d events)) = []
  /\ getSessionEngagementSummary (snd (store_all d events)) sid = inl undefined_column.
Proof.
  rewrite store_all_refused. cbn [fst snd]. unfold accepted_scores.
  rewrite accepted_of_refused. repeat split.
Qed.

(** The example of C2: three events of one student with the scores 0.8,
    0.6 and 1, or 80, 60 and 100.  None is stored and the summary of the
    session is an error, not an average of 0.8 or 80. *)
Lemma scores_80_60_100_not_accepted :
  (let run := store_all Scenario.small_full (Scenario.three_scores (8 # 10) (6 # 10) 1) in
   fst run = [inl undefined_column; inl undefined_column; inl undefined_column]
   /\ engagement_metrics (snd run) = []
   /\ getSessionEngagementSummary (snd run) 1 = inl undefined_column)
  /\ (let run := store_all Scenario.small_full (Scenario.three_scores 80 60 100) in
      fst run = [inl undefined_column; inl undefined_column; inl undefined_column]
      /\ engagement_metrics (snd run) = []
      /\ getSessionEngagementSummary (snd run) 1 = inl undefined_column).
Proof. vm_compute. repeat split. Qed.

(** C5, as the code has it: the handler of engagement_update
    validates nothing.  Every event, within the bounds or not, is
    broadcast to the room of its session as it was sent; the store then
    rejects it with undefined_column, the error of a statement that was
    not run and the same for every event; no row is written; and the
    rejection, which nothing handles, ends the process. *)
Theorem no_metric_is_validated (d : db) (now : Z) (data : engagement_update_data) :
  fst (fst (on_engagement_update d now data))
  = [{| room := sessionId data; payload := data; emitted_at := now |}]
  /\ snd (fst (on_engagement_update d now data)) = inl undefined_column
  /\ snd (on_engagement_update d now data) = d
  /\ unhandled_rejection (on_engagement_update d now data) = true
  /\ (forall d1 now1 data1,
        snd (fst (on_engagement_update d1 now1 data1))
        = snd (fst (on_engagement_update d now data))).
Proof. repeat split. Qed.

(** The example of C5: an event with a confidence of 1.5 reaches the room
    of session 1, with its confidence of 1.5, and the store answers it
    what it answers an event with a confidence of 0.9. *)
Lemma out_of_range_metric_is_broadcast :
  let data := Scenario.metric 1 2 "attentive" (15 # 10) (1 # 2) in
  let valid := Scenario.metric 1 2 "attentive" (9 # 10) (1 # 2) in
  ~ (0 <= confidence data <= 1)%Q
  /\ map (fun e => confidence (payload e))
         (fst (fst (on_engagement_update Scenario.small_full 41 data)))
     = [15 # 10]
  /\ snd (fst (on_engagement_update Scenario.small_full 41 data)) = inl undefined_column
  /\ snd (fst (on_engagement_update Scenario.small_full 41 valid)) = inl undefined_column
  /\ unhandled_rejection (on_engagement_update Scenario.small_full 41 data) = true.
Proof.
  split; [|repeat split].
  intros [_ H]. vm_compute in H. apply H. reflexivity.
Qed.

(** ** Membership and ingestion *)

Lemma select_session_user_in d sid uid su :
  In su (select_session_user d sid uid) <->
  In su (session_users d) /\ su_session_id su = sid /\ su_user_id su = uid.
Proof.
  unfold select_session_user.
  rewrite filter_In, andb_true_iff, !Z.eqb_eq. tauto.
Qed.

Lemma referential_integrity_member d sid uid :
  referential_integrity d = true ->
  select_session_user d sid uid <> [] ->
  session_exists d sid = true /\ user_exists d uid = true.
Proof.
  unfold referential_integrity. rewrite !andb_true_iff.
  intros [[Hsu _] _] Hrow.
  destruct (select_session_user d sid uid) as [|su l] eqn:E; [congruence|].
  assert (Hin : In su (select_session_user d sid uid)) by (rewrite E; now left).
  apply select_session_user_in in Hin. destruct Hin as (Hin & <- & <-).
  rewrite forallb_forall in Hsu. apply andb_true_iff. now apply Hsu.
Qed.

Lemma post_leave_cases d now sid user :
  (select_session_user d sid (ru_id user) = []
   /\ post_leave d now sid user = (res_error 400 "USER_NOT_IN_SESSION", d))
  \/ (select_session_user d sid (ru_id user) <> []
      /\ post_leave d now sid user
         = (res_json "Successfully left session"%string,
            update_left_at d now sid (ru_id user))).
Proof.
  unfold post_leave.
  destruct (select_session_user d sid (ru_id user)); [left | right]; split;
    congruence.
Qed.

(** C4, as the code has it: ingestion does not look at the membership.
    The handler of engagement_update reads nothing of session_users:
    what it broadcasts and how the store settles are the same in any two
    databases that differ in session_users only.  So after a successful
    leave a metric of the departed student is handled as it was before
    the leave: it is broadcast to the room of the session, and nothing
    answers it NotMember. *)
Theorem metric_after_leave_is_not_checked (d d1 : db) (now now1 sid : Z)
    (user : req_user) (msg : string) (data : engagement_update_data) :
  post_leave d now sid user = (res_json msg, d1) ->
  sessionId data = sid -> studentId data = ru_id user ->
  fst (fst (on_engagement_update d1 now1 data))
  = [{| room := sid; payload := data; emitted_at := now1 |}]
  /\ fst (on_engagement_update d1 now1 data) = fst (on_engagement_update d now1 data)
  /\ (forall d2 : db,
        users d2 = users d1 -> sessions d2 = sessions d1 ->
        engagement_metrics d2 = engagement_metrics d1 ->
        fst (on_engagement_update d2 now1 data) = fst (on_engagement_update d1 now1 data)).
Proof.
  intros _ Hsid _. rewrite !on_engagement_update_outcome. cbn [fst snd].
  rewrite Hsid. split; [reflexivity|]. split; [reflexivity|].
  intros d2 _ _ _. rewrite on_engagement_update_outcome, Hsid. reflexivity.
Qed.

Lemma metric_after_leave_is_not_checked_witness :
  let data := Scenario.metric 1 2 "happy" (9 # 10) (1 # 2) in
  post_leave Scenario.small_full 40 1 (Scenario.the_student 2)
  = (res_json "Successfully left session"%string, Scenario.small_after_leave)
  /\ sessionId data = 1 /\ studentId data = ru_id (Scenario.the_student 2)
  /\ (fst (fst (on_engagement_update Scenario.small_after_leave 45 data))
      = [{| room := 1; payload := data; emitted_at := 45 |}]
      /\ fst (on_engagement_update Scenario.small_after_leave 45 data)
         = fst (on_engagement_update Scenario.small_full 45 data)
      /\ (forall d2 : db,
            users d2 = users Scenario.small_after_leave ->
            sessions d2 = sessions Scenario.small_after_leave ->
            engagement_metrics d2 = engagement_metrics Scenario.small_after_leave ->
            fst (on_engagement_update d2 45 data)
            = fst (on_engagement_update Scenario.small_after_leave 45 data))).
Proof.
  intros data.
  split; [reflexivity|]. split; [reflexivity|]. split; [reflexivity|].
  apply (metric_after_leave_is_not_checked Scenario.small_full Scenario.small_after_leave
           40 45 1 (Scenario.the_student 2) "Successfully left session" data);
    reflexivity.
Defined.

(** C4 fails as stated: student 2 leaves session 1, and the metric that
    follows is broadcast to the room of the session and passed to the
    store, with the outcome it has for the student as an active member. *)
Lemma metric_after_leave_not_rejected :
  let data := Scenario.metric 1 2 "happy" (9 # 10) (1 # 2) in
  post_leave Scenario.small_full 40 1 (Scenario.the_student 2)
  = (res_json "Successfully left session"%string, Scenario.small_after_leave)
  /\ active_participant_count Scenario.small_full 1 = 2
  /\ active_participant_count Scenario.small_after_leave 1 = 1
  /\ fst (fst (on_engagement_update Scenario.small_after_leave 45 data))
     = [{| room := 1; payload := data; emitted_at := 45 |}]
  /\ fst (on_engagement_update Scenario.small_after_leave 45 data)
     = fst (on_engagement_update Scenario.small_full 45 data).
Proof. vm_compute. repeat split. Qed.

(** ** Joining *)

Lemma filter_length_andb {A} (f g : A -> bool) l :
  (List.length (filter (fun x => f x && g x) l) <= List.length (filter f l))%nat.
Proof.
  induction l as [|x l IH]; simpl; [lia|].
  destruct (f x), (g x); simpl; lia.
Qed.

Lemma filter_andb {A} (f g : A -> bool) l :
  filter (fun x => f x && g x) l = filter g (filter f l).
Proof.
  induction l as [|x l IH]; simpl; [reflexivity|].
  destruct (f x); simpl; [destruct (g x)|]; now rewrite IH.
Qed.

Lemma filter_map_swap {A} (p : A -> bool) (f : A -> A) l :
  (forall x, p (f x) = p x) -> filter p (map f l) = map f (filter p l).
Proof.
  intros H. induction l as [|x l IH]; simpl; [reflexivity|].
  rewrite H. destruct (p x); simpl; now rewrite IH.
Qed.

Lemma active_le_rows d sid :
  active_participant_count d sid <= count_session_users d sid.
Proof.
  unfold active_participant_count, count_session_users, COUNT.
  apply Nat2Z.inj_le, filter_length_andb.
Qed.

Lemma select_active_session_filter d sid :
  select_active_session d sid
  = filter (fun s => session_status_eqb (s_status s) active) (select_session d sid).
Proof. apply filter_andb. Qed.

Lemma session_status_eqb_eq a b : session_status_eqb a b = true <-> a = b.
Proof. destruct a, b; simpl; split; congruence. Qed.

Lemma COUNT_pos {A} (l : list A) :
  (0 <? COUNT l) = match l with [] => false | _ :: _ => true end.
Proof.
  destruct l; [reflexivity|]. unfold COUNT. apply Z.ltb_lt.
  simpl List.length. lia.
Qed.

(** C3, as the code has it: the capacity test counts every membership
    row of the session, departed participants included.  Once that
    number has reached max_students (in particular once the number of
    active participants has), a join changes nothing in the database, and
    a join by a user without a row in an active session is answered
    SESSION_FULL, by both handlers of the route. *)
Theorem join_at_capacity_is_full (d : db) (now sid : Z) (user : req_user)
    (session : sessions_row) :
  select_session d sid = [session] ->
  to_number (s_max_students session) <= active_participant_count d sid
  \/ to_number (s_max_students session) <= count_session_users d sid ->
  snd (post_join d now sid user) = d
  /\ snd (post_join_second d now sid user) = d
  /\ (s_status session = active ->
      select_session_user d sid (ru_id user) = [] ->
      fst (post_join d now sid user) = res_error 400 "SESSION_FULL"
      /\ fst (post_join_second d now sid user) = res_error 400 "SESSION_FULL")
  /\ active_participant_count (snd (post_join d now sid user)) sid
     = active_participant_count d sid
  /\ active_participant_count d sid <= count_session_users d sid.
Proof.
  intros Hs Hcap.
  assert (Hfull : (count_session_users d sid >=? to_number (s_max_students session)) = true).
  { apply Z.geb_le. pose proof (active_le_rows d sid). lia. }
  assert (Hj : snd (post_join d now sid user) = d
               /\ (s_status session = active ->
                   select_session_user d sid (ru_id user) = [] ->
                   fst (post_join d now sid user) = res_error 400 "SESSION_FULL")).
  { unfold post_join. rewrite select_active_session_filter, Hs. cbn [filter].
    destruct (session_status_eqb (s_status session) active) eqn:Hact.
    - rewrite COUNT_pos, Hfull.
      destruct (select_session_user d sid (ru_id user)); split; auto; discriminate.
    - split; [reflexivity|]. intros E. apply session_status_eqb_eq in E. congruence. }
  assert (Hj2 : snd (post_join_second d now sid user) = d
               /\ (s_status session = active ->
                   select_session_user d sid (ru_id user) = [] ->
                   fst (post_join_second d now sid user) = res_error 400 "SESSION_FULL")).
  { unfold post_join_second. rewrite Hs.
    destruct (session_status_eqb (s_status session) active) eqn:Hact; cbn [negb].
    - rewrite COUNT_pos, Hfull.
      destruct (select_session_user d sid (ru_id user)); split; auto; discriminate.
    - split; [reflexivity|]. intros E. apply session_status_eqb_eq in E. congruence. }
  destruct Hj as [Hj Hj'], Hj2 as [Hj2 Hj2'].
  repeat split; auto using active_le_rows.
  now rewrite Hj.
Qed.

Lemma join_at_capacity_is_full_witness :
  let session := {| s_id := 1; s_teacher_id := 1; s_title := "Algebra";
                    s_description := Some ""%string; s_start_time := 0;
                    s_end_time := Some 3600000000; s_status := active;
                    s_max_students := Some 2; s_created_at := 10;
                    s_updated_at := 10 |} in
  let d := Scenario.small_full in
  let user := Scenario.the_student 3 in
  select_session d 1 = [session]
  /\ (to_number (s_max_students session) <= active_participant_count d 1
      \/ to_number (s_max_students session) <= count_session_users d 1)
  /\ (snd (post_join d 45 1 user) = d
      /\ snd (post_join_second d 45 1 user) = d
      /\ (s_status session = active ->
          select_session_user d 1 (ru_id user) = [] ->
          fst (post_join d 45 1 user) = res_error 400 "SESSION_FULL"
          /\ fst (post_join_second d 45 1 user) = res_error 400 "SESSION_FULL")
      /\ active_participant_count (snd (post_join d 45 1 user)) 1
         = active_participant_count d 1
      /\ active_participant_count d 1 <= count_session_users d 1).
Proof.
  intros session d user.
  assert (Hcap : to_number (s_max_students session) <= active_participant_count d 1
                 \/ to_number (s_max_students session) <= count_session_users d 1).
  { left. vm_compute. discriminate. }
  split; [reflexivity|]. split; [exact Hcap|].
  exact (join_at_capacity_is_full d 45 1 user session eq_refl Hcap).
Defined.

(** C3 fails as stated: the limit is not on active participants only.
    In a session of two places held by the teacher and by a student who
    has left, one participant is active, yet a third user is answered
    SESSION_FULL. *)
Lemma departed_participants_count_against_limit :
  active_participant_count Scenario.small_after_leave 1 = 1
  /\ map s_max_students (select_session Scenario.small_after_leave 1) = [Some 2]
  /\ map s_status (select_session Scenario.small_after_leave 1) = [active]
  /\ select_session_user Scenario.small_after_leave 1 3 = []
  /\ post_join Scenario.small_after_leave 45 1 (Scenario.the_student 3)
     = (res_error 400 "SESSION_FULL", Scenario.small_after_leave)
  /\ post_join_second Scenario.small_after_leave 45 1 (Scenario.the_student 3)
     = (res_error 400 "SESSION_FULL", Scenario.small_after_leave).
Proof. vm_compute. repeat split. Qed.

Lemma select_session_user_after_leave d now sid uid :
  select_session_user (update_left_at d now sid uid) sid uid
  = map (fun su =>
           {| su_id := su_id su; su_session_id := su_session_id su;
              su_user_id := su_user_id su; su_role := su_role su;
              su_joined_at := su_joined_at su; su_left_at := Some now |})
        (select_session_user d sid uid).
Proof.
  unfold select_session_user, update_left_at. cbn [session_users with_session_users].
  rewrite filter_map_swap.
  - induction (session_users d) as [|su l IH]; [reflexivity|].
    cbn [filter]. destruct ((su_session_id su =? sid) && (su_user_id su =? uid)) eqn:E.
    + cbn [map]. rewrite E. now f_equal.
    + exact IH.
  - intros su. now destruct ((su_session_id su =? sid) && (su_user_id su =? uid)) eqn:E.
Qed.

(** C10, as the code has it: a user who has a membership row for a
    session, a departed one included, cannot join it again.  While the
    session is active the join is answered USER_ALREADY_IN_SESSION; when
    no active session has that id it is answered SESSION_NOT_FOUND, the
    session being looked up first.  Leaving keeps the row and only sets
    left_at, and a join after it is rejected without touching the row. *)
Theorem join_with_existing_row_is_rejected (d : db) (now sid : Z) (user : req_user) :
  select_session_user d sid (ru_id user) <> [] ->
  (select_active_session d sid <> [] ->
   post_join d now sid user = (res_error 400 "USER_ALREADY_IN_SESSION", d))
  /\ (select_active_session d sid = [] ->
      post_join d now sid user = (res_error 404 "SESSION_NOT_FOUND", d))
  /\ forall now0,
       let d1 := snd (post_leave d now0 sid user) in
       fst (post_leave d now0 sid user) = res_json "Successfully left session"%string
       /\ List.length (select_session_user d1 sid (ru_id user))
          = List.length (select_session_user d sid (ru_id user))
       /\ Forall (fun su => su_left_at su = Some now0)
                 (select_session_user d1 sid (ru_id user))
       /\ (select_active_session d sid <> [] ->
           post_join d1 now sid user = (res_error 400 "USER_ALREADY_IN_SESSION", d1)).
Proof.
  intros Hrow.
  assert (Hjoin : forall d0, select_session_user d0 sid (ru_id user) <> [] ->
            select_active_session d0 sid <> [] ->
            post_join d0 now sid user = (res_error 400 "USER_ALREADY_IN_SESSION", d0)).
  { intros d0 Hr Ha. unfold post_join.
    destruct (select_active_session d0 sid); [congruence|].
    rewrite COUNT_pos. destruct (select_session_user d0 sid (ru_id user)); congruence. }
  split; [auto|]. split.
  - intros Ha. unfold post_join. now rewrite Ha.
  - intros now0.
    destruct (post_leave_cases d now0 sid user) as [[E _] | [_ E]]; [congruence|].
    rewrite E. cbn [fst snd]. rewrite select_session_user_after_leave.
    split; [reflexivity|]. split; [apply length_map|]. split.
    + apply Forall_forall. intros su Hin. apply in_map_iff in Hin.
      destruct Hin as (su0 & <- & _). reflexivity.
    + intros Ha. apply Hjoin.
      * rewrite select_session_user_after_leave.
        destruct (select_session_user d sid (ru_id user)); [congruence | discriminate].
      * exact Ha.
Qed.

Lemma join_with_existing_row_is_rejected_witness :
  let d := Scenario.small_full in
  let user := Scenario.the_student 2 in
  select_session_user d 1 (ru_id user) <> []
  /\ ((select_active_session d 1 <> [] ->
       post_join d 45 1 user = (res_error 400 "USER_ALREADY_IN_SESSION", d))
      /\ (select_active_session d 1 = [] ->
          post_join d 45 1 user = (res_error 404 "SESSION_NOT_FOUND", d))
      /\ forall now0,
           let d1 := snd (post_leave d now0 1 user) in
           fst (post_leave d now0 1 user) = res_json "Successfully left session"%string
           /\ List.length (select_session_user d1 1 (ru_id user))
              = List.length (select_session_user d 1 (ru_id user))
           /\ Forall (fun su => su_left_at su = Some now0)
                     (select_session_user d1 1 (ru_id user))
           /\ (select_active_session d 1 <> [] ->
               post_join d1 45 1 user = (res_error 400 "USER_ALREADY_IN_SESSION", d1))).
Proof.
  intros d user.
  assert (Hrow : select_session_user d 1 (ru_id user) <> []) by (vm_compute; discriminate).
  split; [exact Hrow|].
  exact (join_with_existing_row_is_rejected d 45 1 user Hrow).
Defined.

(** C10 fails as stated: student 2 has a (departed) membership row of
    session 1, the session has ended, and the join is answered
    SESSION_NOT_FOUND by the handler that serves the route (and
    SESSION_NOT_ACTIVE by the second one), not USER_ALREADY_IN_SESSION. *)
Lemma join_of_ended_session_is_not_found :
  map su_left_at (select_session_user Scenario.small_ended 1 2) = [Some 40]
  /\ map s_status (select_session Scenario.small_ended 1) = [ended]
  /\ post_join Scenario.small_ended 60 1 (Scenario.the_student 2)
     = (res_error 404 "SESSION_NOT_FOUND", Scenario.small_ended)
  /\ post_join_second Scenario.small_ended 60 1 (Scenario.the_student 2)
     = (res_error 400 "SESSION_NOT_ACTIVE", Scenario.small_ended)
  /\ fst (post_join Scenario.small_ended 60 1 (Scenario.the_student 2))
     <> res_error 400 "USER_ALREADY_IN_SESSION".
Proof. vm_compute. repeat split. discriminate. Qed.

(** ** Ending a session *)

Lemma select_session_update d sid f sid1 :
  (forall s, s_id (f s) = s_id s) ->
  select_session (update_sessions d sid f) sid1
  = map (fun s => if s_id s =? sid then f s else s) (select_session d sid1).
Proof.
  intros Hid. unfold select_session, update_sessions. cbn [sessions with_sessions].
  apply filter_map_swap. intros s. destruct (s_id s =? sid); now rewrite ?Hid.
Qed.

Lemma map_on_selected {B} d sid (f g : sessions_row -> B) :
  (forall s, s_id s = sid -> f s = g s) ->
  map f (select_session d sid) = map g (select_session d sid).
Proof.
  intros H. apply map_ext_in. intros s Hs. apply H.
  unfold select_session in Hs. apply filter_In in Hs. now apply Z.eqb_eq.
Qed.

Lemma requireRole_teacher_admin user :
  requireRole [teacher; admin] user = negb (user_role_eqb (ru_role user) student).
Proof. unfold requireRole. now destruct (ru_role user). Qed.

(** C6, as the code has it: POST /:id/end answers 403 to a caller who is
    not a teacher or admin (INSUFFICIENT_PERMISSIONS) or not the teacher of
    the session (END_PERMISSION_DENIED), answers SESSION_ALREADY_ENDED
    exactly when the status is ended, and otherwise, for an active and
    for a cancelled session alike, succeeds: the session's status becomes
    ended, its end_time the current time, and no other session changes. *)
Theorem post_end_outcomes (d : db) (now sid : Z) (user : req_user) :
  (ru_role user = student ->
   post_end d now sid user = (res_error 403 "INSUFFICIENT_PERMISSIONS", d))
  /\ (ru_role user <> student -> select_session d sid = [] ->
      post_end d now sid user = (res_error 404 "SESSION_NOT_FOUND", d))
  /\ (forall session rest,
        ru_role user <> student -> select_session d sid = session :: rest ->
        (s_teacher_id session <> ru_id user ->
         post_end d now sid user = (res_error 403 "END_PERMISSION_DENIED", d))
        /\ (s_teacher_id session = ru_id user -> s_status session = ended ->
            post_end d now sid user = (res_error 400 "SESSION_ALREADY_ENDED", d))
        /\ (s_teacher_id session = ru_id user -> s_status session <> ended ->
            fst (post_end d now sid user) = res_json "Session ended successfully"%string
            /\ select_session (snd (post_end d now sid user)) sid
               = map (ended_at now) (select_session d sid)
            /\ Forall (fun s => s_status s = ended /\ s_end_time s = Some now)
                      (select_session (snd (post_end d now sid user)) sid)
            /\ (forall sid1, sid1 <> sid ->
                  select_session (snd (post_end d now sid user)) sid1
                  = select_session d sid1))).
Proof.
  unfold post_end. rewrite requireRole_teacher_admin, negb_involutive.
  split; [|split].
  - intros ->. reflexivity.
  - intros Hrole ->. destruct (ru_role user); [reflexivity | congruence | reflexivity].
  - intros session rest Hrole Hsel. rewrite Hsel.
    replace (user_role_eqb (ru_role user) student) with false
      by (destruct (ru_role user); [reflexivity | congruence | reflexivity]).
    split; [|split].
    + intros Hne. apply Z.eqb_neq in Hne. now rewrite Hne.
    + intros -> ->. now rewrite Z.eqb_refl.
    + intros -> Hst. rewrite Z.eqb_refl. cbn [negb].
      replace (session_status_eqb (s_status session) ended) with false
        by (destruct (s_status session); [reflexivity | congruence | reflexivity | reflexivity]).
      cbn [fst snd].
      split; [reflexivity|].
      assert (E : select_session (update_sessions d sid (ended_at now)) sid
                  = map (ended_at now) (select_session d sid)).
      { rewrite select_session_update by reflexivity.
        apply map_on_selected. intros s <-. now rewrite Z.eqb_refl. }
      rewrite Hsel in E. split; [exact E|]. split.
      * rewrite E. apply Forall_forall. intros s Hs. apply in_map_iff in Hs.
        destruct Hs as (s0 & <- & _). now split.
      * intros sid1 Hne. rewrite select_session_update by reflexivity.
        rewrite <- (map_id (select_session d sid1)) at 2.
        apply map_on_selected. intros s <-.
        apply Z.eqb_neq in Hne. now rewrite Hne.
Qed.

Lemma post_end_outcomes_witness :
  let d := Scenario.small_full in
  let session := {| s_id := 1; s_teacher_id := 1; s_title := "Algebra";
                    s_description := Some ""%string; s_start_time := 0;
                    s_end_time := Some 3600000000; s_status := active;
                    s_max_students := Some 2; s_created_at := 10;
                    s_updated_at := 10 |} in
  ru_role Scenario.the_teacher <> student
  /\ select_session d 1 = [session]
  /\ s_teacher_id session = ru_id Scenario.the_teacher
  /\ s_status session <> ended
  /\ (fst (post_end d 70 1 Scenario.the_teacher)
       = res_json "Session ended successfully"%string
      /\ select_session (snd (post_end d 70 1 Scenario.the_teacher)) 1
         = map (ended_at 70) (select_session d 1)
      /\ Forall (fun s => s_status s = ended /\ s_end_time s = Some 70)
                (select_session (snd (post_end d 70 1 Scenario.the_teacher)) 1)
      /\ (forall sid1, sid1 <> 1 ->
            select_session (snd (post_end d 70 1 Scenario.the_teacher)) sid1
            = select_session d sid1)).
Proof.
  intros d session.
  assert (Hrole : ru_role Scenario.the_teacher <> student) by discriminate.
  assert (Hst : s_status session <> ended) by discriminate.
  split; [exact Hrole|]. split; [reflexivity|]. split; [reflexivity|].
  split; [exact Hst|].
  exact (proj2 (proj2 (proj2 (proj2 (post_end_outcomes d 70 1 Scenario.the_teacher))
                         session [] Hrole eq_refl))
           eq_refl Hst).
Defined.

(** C6 fails as stated: a cancelled session, whose status is not active,
    is not answered SESSION_ALREADY_ENDED; its teacher ends it and its
    status goes from cancelled to ended. *)
Lemma cancelled_session_can_be_ended :
  map s_status (select_session Scenario.small_cancelled 1) = [cancelled]
  /\ fst (post_end Scenario.small_cancelled 70 1 Scenario.the_teacher)
     = res_json "Session ended successfully"%string
  /\ map (fun s => (s_status s, s_end_time s))
         (select_session (snd (post_end Scenario.small_cancelled 70 1 Scenario.the_teacher)) 1)
     = [(ended, Some 70)]
  /\ fst (post_end Scenario.small_cancelled 70 1 Scenario.the_teacher)
     <> res_error 400 "SESSION_ALREADY_ENDED".
Proof. vm_compute. repeat split. discriminate. Qed.

(** ** The session invariant along the engine's steps *)

Lemma sessions_insert_session_user d now sid uid r :
  sessions (snd (insert_session_user d now sid uid r)) = sessions d.
Proof.
  unfold insert_session_user.
  destruct (user_role_eqb r admin); [reflexivity|].
  destruct (0 <? COUNT (select_session_user d sid uid)); [reflexivity|].
  destruct (negb (session_exists d sid && user_exists d uid)); reflexivity.
Qed.

Lemma sessions_post_join d now sid user :
  sessions (snd (post_join d now sid user)) = sessions d.
Proof.
  unfold post_join.
  destruct (select_active_session d sid) as [|session l]; [reflexivity|].
  destruct (0 <? COUNT (select_session_user d sid (ru_id user))); [reflexivity|].
  destruct (count_session_users d sid >=? to_number (s_max_students session));
    [reflexivity|].
  pose proof (sessions_insert_session_user d now sid (ru_id user) (ru_role user)) as H.
  destruct (insert_session_user d now sid (ru_id user) (ru_role user)) as [[e|row] d1];
    exact H.
Qed.

Lemma sessions_post_join_second d now sid user :
  sessions (snd (post_join_second d now sid user)) = sessions d.
Proof.
  unfold post_join_second.
  destruct (select_session d sid) as [|session l]; [reflexivity|].
  destruct (negb (session_status_eqb (s_status session) active)); [reflexivity|].
  destruct (0 <? COUNT (select_session_user d sid (ru_id user))); [reflexivity|].
  destruct (count_session_users d sid >=? to_number (s_max_students session));
    [reflexivity|].
  pose proof (sessions_insert_session_user d now sid (ru_id user) (ru_role user)) as H.
  destruct (insert_session_user d now sid (ru_id user) (ru_role user)) as [[e|row] d1];
    exact H.
Qed.

Lemma sessions_post_leave d now sid user :
  sessions (snd (post_leave d now sid user)) = sessions d.
Proof.
  unfold post_leave. destruct (select_session_user d sid (ru_id user)); reflexivity.
Qed.

Lemma sessions_on_engagement_update d now data :
  sessions (snd (on_engagement_update d now data)) = sessions d.
Proof. reflexivity. Qed.

Lemma sessions_updateUserStatus d now sid uid st :
  sessions (updateUserStatus d now sid uid st) = sessions d.
Proof. destruct st; reflexivity. Qed.

Lemma sessions_post_end d now sid user :
  sessions (snd (post_end d now sid user)) = sessions d
  \/ sessions (snd (post_end d now sid user))
     = map (fun s => if s_id s =? sid then ended_at now s else s) (sessions d).
Proof.
  unfold post_end.
  destruct (negb (requireRole [teacher; admin] user)); [now left|].
  destruct (select_session d sid) as [|session l]; [now left|].
  destruct (negb (s_teacher_id session =? ru_id user)); [now left|].
  destruct (session_status_eqb (s_status session) ended); [now left|].
  right. reflexivity.
Qed.

Lemma engine_step_sessions d d1 :
  engine_step d d1 ->
  sessions d1 = sessions d
  \/ exists now sid,
       sessions d1 = map (fun s => if s_id s =? sid then ended_at now s else s) (sessions d).
Proof.
  intros [now sid user | now sid user | now sid user | now sid user | now data
         | now sid uid st].
  - left. apply sessions_post_join.
  - left. apply sessions_post_join_second.
  - left. apply sessions_post_leave.
  - destruct (sessions_post_end d now sid user) as [E | E]; [now left|].
    right. eauto.
  - left. apply sessions_on_engagement_update.
  - left. apply sessions_updateUserStatus.
Qed.

Lemma status_moves_refl s : status_moves s s.
Proof. split; auto. Qed.

Lemma status_moves_trans s1 s2 s3 :
  status_moves s1 s2 -> status_moves s2 s3 -> status_moves s1 s3.
Proof.
  intros [I1 M1] [I2 M2]. split; [congruence|].
  destruct M2 as [M2 | M2]; [|now right].
  rewrite M2. exact M1.
Qed.

Lemma Forall2_map_r {A} (R : A -> A -> Prop) (g : A -> A) l :
  (forall x, R x (g x)) -> Forall2 R l (map g l).
Proof. intros H. induction l; simpl; constructor; auto. Qed.

Lemma Forall2_compose {A} (R : A -> A -> Prop) :
  (forall x y z, R x y -> R y z -> R x z) ->
  forall l1 l2 l3, Forall2 R l1 l2 -> Forall2 R l2 l3 -> Forall2 R l1 l3.
Proof.
  intros Htrans l1 l2 l3 H12. revert l3.
  induction H12 as [|x y l1 l2 Hxy _ IH]; intros l3 H23; inversion H23; subst;
    constructor; eauto.
Qed.

Lemma engine_step_keeps_invariant d d1 :
  engine_step d d1 ->
  Forall2 (fun s s1 => status_moves s s1
                       /\ (session_invariant s = true -> session_invariant s1 = true))
          (sessions d) (sessions d1).
Proof.
  intros Hstep. destruct (engine_step_sessions d d1 Hstep) as [-> | (now & sid & ->)].
  - rewrite <- (map_id (sessions d)) at 2.
    apply Forall2_map_r. intros s. split; [apply status_moves_refl | auto].
  - apply Forall2_map_r. intros s. destruct (s_id s =? sid).
    + split; [|reflexivity]. split; [reflexivity | now right].
    + split; [apply status_moves_refl | auto].
Qed.

(** C7, as the code has it: joining, leaving, submitting a metric,
    updating a participant's status and POST /:id/end, in any sequence,
    keep the sessions and their ids, leave the status of every session as
    it was or move it to ended, and keep the invariant that end_time is
    set iff the status is not active for every session of which it held.
    (Creating a session, PUT /:id and SessionManager.endSession are not
    among these steps.) *)
Theorem engine_steps_keep_session_invariant (d d1 : db) :
  engine_steps d d1 ->
  Forall2 (fun s s1 => status_moves s s1
                       /\ (session_invariant s = true -> session_invariant s1 = true))
          (sessions d) (sessions d1).
Proof.
  induction 1 as [|d1 d2 _ IH Hstep].
  - rewrite <- (map_id (sessions d)) at 2.
    apply Forall2_map_r. intros s. split; [apply status_moves_refl | auto].
  - refine (Forall2_compose _ _ _ _ _ IH (engine_step_keeps_invariant d1 d2 Hstep)).
    intros x y z [M1 I1] [M2 I2]. split; [|auto].
    exact (status_moves_trans x y z M1 M2).
Qed.

Lemma engine_steps_keep_session_invariant_witness :
  let d := Scenario.class_of_10 in
  let d1 := snd (post_leave d 50 1 (Scenario.the_student 2)) in
  let d2 := snd (post_end d1 60 1 Scenario.the_teacher) in
  engine_steps d d2
  /\ Forall2 (fun s s1 => status_moves s s1
                          /\ (session_invariant s = true -> session_invariant s1 = true))
             (sessions d) (sessions d2)
  /\ map (fun s => (s_status s, s_end_time s)) (sessions d) = [(active, None)]
  /\ map (fun s => (s_status s, s_end_time s)) (sessions d2) = [(ended, Some 60)].
Proof.
  intros d d1 d2.
  assert (Hsteps : engine_steps d d2).
  { apply (steps_cons d d1 d2).
    - apply (steps_cons d d d1); [apply steps_nil | apply step_leave].
    - apply step_end. }
  split; [exact Hsteps|]. split.
  - exact (engine_steps_keep_session_invariant d d2 Hsteps).
  - split; reflexivity.
Defined.

(** C7 fails as stated: three operations break the invariant or the
    order of the statuses.  Creating a session stores the scheduled
    end_time with status active; PUT /:id moves an ended session back to
    active; SessionManager.endSession sets end_time and leaves the status
    active. *)
Lemma session_invariant_is_not_preserved :
  (forallb session_invariant (sessions Scenario.db0) = true
   /\ map (fun s => (s_status s, s_end_time s)) (sessions Scenario.created)
      = [(active, Some 3600000000)]
   /\ forallb session_invariant (sessions Scenario.created) = false)
  /\ (map s_status (sessions Scenario.small_ended) = [ended]
      /\ map s_status
           (sessions (snd (put_session Scenario.small_ended 80 1 Scenario.the_teacher
                             (Scenario.set_status "active"))))
         = [active]
      /\ allowed_transition ended active = false)
  /\ (forallb session_invariant (sessions Scenario.opened) = true
      /\ map (fun s => (s_status s, s_end_time s))
           (sessions (endSession Scenario.opened 80 1))
         = [(active, Some 80)]
      /\ forallb session_invariant (sessions (endSession Scenario.opened 80 1)) = false).
Proof. vm_compute. repeat split. Qed.

(** ** The session report *)

Lemma session_exists_select d sid :
  session_exists d sid = false <-> select_session d sid = [].
Proof.
  unfold session_exists, select_session.
  induction (sessions d) as [|s l IH]; simpl; [tauto|].
  destruct (s_id s =? sid); simpl; [split; discriminate | exact IH].
Qed.

(** C8, as the code has it: the report of a session that does not exist
    is never compiled, but the answer is SESSION_ACCESS_DENIED (403): the
    access check on session_users comes before the session lookup, and
    under the schema's foreign keys nobody has a membership row for a
    missing session.  SESSION_NOT_FOUND (404) is answered only to a caller
    with a membership row that points to no session. *)
Theorem report_of_missing_session_is_denied (d : db) (now sid : Z) (user : req_user) :
  session_exists d sid = false ->
  (referential_integrity d = true ->
   get_session_report d now sid user = res_error 403 "SESSION_ACCESS_DENIED")
  /\ (select_session_user d sid (ru_id user) = [] ->
      get_session_report d now sid user = res_error 403 "SESSION_ACCESS_DENIED")
  /\ (select_session_user d sid (ru_id user) <> [] ->
      get_session_report d now sid user = res_error 404 "SESSION_NOT_FOUND").
Proof.
  intros Hmissing.
  assert (Hdenied : select_session_user d sid (ru_id user) = [] ->
            get_session_report d now sid user = res_error 403 "SESSION_ACCESS_DENIED").
  { intros E. unfold get_session_report. now rewrite E. }
  split; [|split; [exact Hdenied|]].
  - intros Hri. apply Hdenied.
    destruct (select_session_user d sid (ru_id user)) eqn:E; [reflexivity|].
    destruct (referential_integrity_member d sid (ru_id user) Hri) as [Hs _];
      congruence.
  - intros Hrow. unfold get_session_report.
    destruct (select_session_user d sid (ru_id user)); [congruence|].
    apply session_exists_select in Hmissing. now rewrite Hmissing.
Qed.

Lemma report_of_missing_session_is_denied_witness :
  let d := Scenario.small_full in
  session_exists d 99 = false
  /\ referential_integrity d = true
  /\ ((referential_integrity d = true ->
       get_session_report d 70 99 Scenario.the_teacher
       = res_error 403 "SESSION_ACCESS_DENIED")
      /\ (select_session_user d 99 (ru_id Scenario.the_teacher) = [] ->
          get_session_report d 70 99 Scenario.the_teacher
          = res_error 403 "SESSION_ACCESS_DENIED")
      /\ (select_session_user d 99 (ru_id Scenario.the_teacher) <> [] ->
          get_session_report d 70 99 Scenario.the_teacher
          = res_error 404 "SESSION_NOT_FOUND")).
Proof.
  intros d. split; [reflexivity|]. split; [reflexivity|].
  apply (report_of_missing_session_is_denied d 70 99 Scenario.the_teacher).
  reflexivity.
Defined.

(** C8 fails as stated: session 99 does not exist and the report request
    is answered SESSION_ACCESS_DENIED, not SESSION_NOT_FOUND. *)
Lemma report_of_missing_session_is_not_404 :
  session_exists Scenario.small_full 99 = false
  /\ get_session_report Scenario.small_full 70 99 Scenario.the_teacher
     = res_error 403 "SESSION_ACCESS_DENIED"
  /\ get_session_report Scenario.small_full 70 99 Scenario.the_teacher
     <> res_error 404 "SESSION_NOT_FOUND".
Proof. vm_compute. repeat split. discriminate. Qed.

(** ** Worked scenarios *)

(** The teacher's own membership row counts against max_students: in a
    session of two places the first student gets in, the second does not. *)
Example teacher_occupies_a_place :
  fst (post_join Scenario.small_created 30 1 (Scenario.the_student 2))
  = res_json "Successfully joined session"%string
  /\ fst (post_join Scenario.small_full 31 1 (Scenario.the_student 3))
     = res_error 400 "SESSION_FULL".
Proof. split; reflexivity. Qed.

(** A session as POST / creates it keeps its scheduled end_time, so the
    class overview, which reads sessions with a NULL end_time, sees no
    student of it; with no metric to average it still raises the
    low-engagement alert. *)
Example overview_of_a_created_session :
  get_class_overview Scenario.created 50 Scenario.the_teacher
  = res_json
      {| totalStudents := 0; onlineStudents := 0; averageEngagement := 0;
         co_emotionDistribution :=
           {| attentive := 0; confused := 0; bored := 0; neutral := 0; happy := 0 |};
         alerts := [low_engagement_alert] |}.
Proof. reflexivity. Qed.

(** A teacher who does not own the session cannot end it. *)
Example other_teacher_cannot_end :
  post_end Scenario.small_full 70 1 Scenario.other_teacher
  = (res_error 403 "END_PERMISSION_DENIED", Scenario.small_full).
Proof. reflexivity. Qed.

(** ** Invariants of the store

    The foreign keys and the CHECK constraints of engagement_metrics hold
    in the empty database and are kept by every modelled operation, so
    they hold in every state the handlers can reach. *)

Lemma referential_integrity_spec d :
  referential_integrity d = true <->
  (forall su, In su (session_users d) ->
     session_exists d (su_session_id su) && user_exists d (su_user_id su) = true)
  /\ (forall em, In em (engagement_metrics d) ->
        session_exists d (em_session_id em) && user_exists d (em_student_id em) = true)
  /\ (forall s, In s (sessions d) -> user_exists d (s_teacher_id s) = true).
Proof.
  unfold referential_integrity. rewrite !andb_true_iff, !forallb_forall. tauto.
Qed.

Lemma integrity_with_session_users d l seq :
  (forall su, In su l ->
     session_exists d (su_session_id su) && user_exists d (su_user_id su) = true) ->
  referential_integrity d = true ->
  referential_integrity (with_session_users d l seq) = true.
Proof.
  rewrite !referential_integrity_spec. intros Hl (_ & Hem & Hs).
  repeat split; assumption.
Qed.

Lemma integrity_with_sessions d l seq :
  (forall sid, session_exists d sid = true -> existsb (fun s => s_id s =? sid) l = true) ->
  (forall s, In s l -> user_exists d (s_teacher_id s) = true) ->
  referential_integrity d = true ->
  referential_integrity (with_sessions d l seq) = true.
Proof.
  rewrite !referential_integrity_spec. intros Hex Hl (Hsu & Hem & _).
  unfold session_exists at 1 2. cbn [sessions with_sessions session_users
    engagement_metrics]. fold (user_exists d).
  repeat split; try assumption.
  - intros su Hin. apply Hsu in Hin. apply andb_true_iff in Hin.
    apply andb_true_iff. split; [apply Hex|]; apply Hin.
  - intros em Hin. apply Hem in Hin. apply andb_true_iff in Hin.
    apply andb_true_iff. split; [apply Hex|]; apply Hin.
Qed.

Lemma integrity_members d su :
  referential_integrity d = true -> In su (session_users d) ->
  session_exists d (su_session_id su) && user_exists d (su_user_id su) = true.
Proof. intros H. apply referential_integrity_spec in H. apply (proj1 H). Qed.

Lemma integrity_teachers d s :
  referential_integrity d = true -> In s (sessions d) ->
  user_exists d (s_teacher_id s) = true.
Proof. intros H. apply referential_integrity_spec in H. apply (proj2 (proj2 H)). Qed.

Lemma insert_session_user_keeps d now sid uid r :
  (referential_integrity d = true ->
   referential_integrity (snd (insert_session_user d now sid uid r)) = true)
  /\ metrics_in_range (snd (insert_session_user d now sid uid r)) = metrics_in_range d.
Proof.
  unfold insert_session_user.
  destruct (user_role_eqb r admin);
    [|destruct (0 <? COUNT (select_session_user d sid uid));
      [|destruct (negb (session_exists d sid && user_exists d uid)) eqn:Hfk]];
    cbn [snd]; (split; [|reflexivity]); intros Hri;
    apply integrity_with_session_users; auto using integrity_members.
  intros su Hin. apply in_app_or in Hin. destruct Hin as [Hin | [<- | []]].
  - now apply integrity_members.
  - now apply negb_false_iff in Hfk.
Qed.

Lemma insert_engagement_metric_keeps d now sid uid e c s :
  (referential_integrity d = true ->
   referential_integrity (snd (insert_engagement_metric d now sid uid e c s)) = true)
  /\ (metrics_in_range d = true ->
      metrics_in_range (snd (insert_engagement_metric d now sid uid e c s)) = true).
Proof. rewrite insert_engagement_metric_refused. cbn [snd]. auto. Qed.

Lemma insert_session_keeps d now tid title descr m st en :
  (referential_integrity d = true ->
   referential_integrity (snd (insert_session d now tid title descr m st en)) = true)
  /\ metrics_in_range (snd (insert_session d now tid title descr m st en))
     = metrics_in_range d.
Proof.
  unfold insert_session.
  destruct (negb (user_exists d tid)) eqn:Hfk; cbn [snd];
    (split; [|reflexivity]); intros Hri; apply integrity_with_sessions;
    auto using integrity_teachers.
  - intros sid H. unfold session_exists in H. rewrite existsb_app, H. reflexivity.
  - intros s Hin. apply in_app_or in Hin. destruct Hin as [Hin | [<- | []]].
    + now apply integrity_teachers.
    + now apply negb_false_iff in Hfk.
Qed.

Lemma existsb_map_same {A} (p : A -> bool) (g : A -> A) l :
  (forall x, p (g x) = p x) -> existsb p (map g l) = existsb p l.
Proof.
  intros H. induction l as [|x l IH]; simpl; [reflexivity|]. now rewrite H, IH.
Qed.

Lemma update_sessions_keeps d sid f :
  (forall s, s_id (f s) = s_id s /\ s_teacher_id (f s) = s_teacher_id s) ->
  (referential_integrity d = true ->
   referential_integrity (update_sessions d sid f) = true)
  /\ metrics_in_range (update_sessions d sid f) = metrics_in_range d.
Proof.
  intros Hf. split; [|reflexivity]. intros Hri. apply integrity_with_sessions; auto.
  - intros sid1 H. unfold session_exists in H. rewrite existsb_map_same; [exact H|].
    intros s. destruct (s_id s =? sid); [|reflexivity]. now rewrite (proj1 (Hf s)).
  - intros s Hin. apply in_map_iff in Hin. destruct Hin as (s0 & <- & Hin).
    destruct (s_id s0 =? sid); [rewrite (proj2 (Hf s0))|]; now apply integrity_teachers.
Qed.

Lemma update_session_users_keeps d (g : session_users_row -> session_users_row) seq :
  (forall su, su_session_id (g su) = su_session_id su
              /\ su_user_id (g su) = su_user_id su) ->
  referential_integrity d = true ->
  referential_integrity (with_session_users d (map g (session_users d)) seq) = true.
Proof.
  intros Hg Hri. apply integrity_with_session_users; [|exact Hri].
  intros su Hin. apply in_map_iff in Hin. destruct Hin as (su0 & <- & Hin).
  destruct (Hg su0) as [-> ->]. now apply integrity_members.
Qed.

Lemma update_left_at_keeps d now sid uid :
  (referential_integrity d = true ->
   referential_integrity (update_left_at d now sid uid) = true)
  /\ metrics_in_range (update_left_at d now sid uid) = metrics_in_range d.
Proof.
  split; [|reflexivity]. apply update_session_users_keeps.
  intros su. now destruct ((su_session_id su =? sid) && (su_user_id su =? uid)).
Qed.

Lemma update_joined_at_keeps d now sid uid :
  (referential_integrity d = true ->
   referential_integrity (update_joined_at d now sid uid) = true)
  /\ metrics_in_range (update_joined_at d now sid uid) = metrics_in_range d.
Proof.
  split; [|reflexivity]. apply update_session_users_keeps.
  intros su. now destruct ((su_session_id su =? sid) && (su_user_id su =? uid)).
Qed.

Ltac keeps_by_insert H :=
  let H1 := fresh in
  let H2 := fresh in
  destruct H as [H1 H2];
  match goal with
  | |- context [insert_session_user ?d ?now ?sid ?uid ?r] =>
      destruct (insert_session_user d now sid uid r) as [[?|?] ?]
  end;
  cbn [snd] in *; (split; [exact H1 | now rewrite H2]).

Lemma post_join_keeps d now sid user :
  (referential_integrity d = true ->
   referential_integrity (snd (post_join d now sid user)) = true)
  /\ (metrics_in_range d = true -> metrics_in_range (snd (post_join d now sid user)) = true).
Proof.
  unfold post_join.
  destruct (select_active_session d sid) as [|session l]; [now split|].
  destruct (0 <? COUNT (select_session_user d sid (ru_id user))); [now split|].
  destruct (count_session_users d sid >=? to_number (s_max_students session));
    [now split|].
  pose proof (insert_session_user_keeps d now sid (ru_id user) (ru_role user)) as H.
  keeps_by_insert H.
Qed.

Lemma post_join_second_keeps d now sid user :
  (referential_integrity d = true ->
   referential_integrity (snd (post_join_second d now sid user)) = true)
  /\ (metrics_in_range d = true ->
      metrics_in_range (snd (post_join_second d now sid user)) = true).
Proof.
  unfold post_join_second.
  destruct (select_session d sid) as [|session l]; [now split|].
  destruct (negb (session_status_eqb (s_status session) active)); [now split|].
  destruct (0 <? COUNT (select_session_user d sid (ru_id user))); [now split|].
  destruct (count_session_users d sid >=? to_number (s_max_students session));
    [now split|].
  pose proof (insert_session_user_keeps d now sid (ru_id user) (ru_role user)) as H.
  keeps_by_insert H.
Qed.

Lemma post_leave_keeps d now sid user :
  (referential_integrity d = true ->
   referential_integrity (snd (post_leave d now sid user)) = true)
  /\ (metrics_in_range d = true -> metrics_in_range (snd (post_leave d now sid user)) = true).
Proof.
  unfold post_leave.
  destruct (select_session_user d sid (ru_id user)); [now split|].
  cbn [snd]. destruct (update_left_at_keeps d now sid (ru_id user)) as [H1 H2].
  split; [exact H1 | now rewrite H2].
Qed.

Lemma post_end_keeps d now sid user :
  (referential_integrity d = true ->
   referential_integrity (snd (post_end d now sid user)) = true)
  /\ (metrics_in_range d = true -> metrics_in_range (snd (post_end d now sid user)) = true).
Proof.
  unfold post_end.
  destruct (negb (requireRole [teacher; admin] user)); [now split|].
  destruct (select_session d sid) as [|session l]; [now split|].
  destruct (negb (s_teacher_id session =? ru_id user)); [now split|].
  destruct (session_status_eqb (s_status session) ended); [now split|].
  cbn [snd]. split; [|auto]. apply update_sessions_keeps. now split.
Qed.

Lemma endSession_keeps d now sid :
  (referential_integrity d = true -> referential_integrity (endSession d now sid) = true)
  /\ (metrics_in_range d = true -> metrics_in_range (endSession d now sid) = true).
Proof.
  unfold endSession. split; [|auto]. apply update_sessions_keeps. now split.
Qed.

Lemma updated_or_same_keys body now s :
  s_id (updated_or_same body now s) = s_id s
  /\ s_teacher_id (updated_or_same body now s) = s_teacher_id s.
Proof.
  unfold updated_or_same, updated_session, bind.
  destruct (new_not_null (ub_title body) (s_title s)); [now split|].
  destruct (new_not_null (ub_start_time body) (s_start_time s)); [now split|].
  destruct (new_max_students (ub_max_students body) (s_max_students s)); [now split|].
  destruct (new_status (ub_status body) (s_status s)); now split.
Qed.

(** PUT /:id leaves the database as it was or runs its UPDATE. *)
Lemma put_session_shape d now sid user body :
  snd (put_session d now sid user body) = d
  \/ snd (put_session d now sid user body)
     = update_sessions d sid (updated_or_same body now).
Proof.
  unfold put_session.
  destruct (negb (requireRole [teacher; admin] user)); [now left|].
  destruct (select_session d sid) as [|session l]; [now left|].
  destruct (negb (s_teacher_id session =? ru_id user)); [now left|].
  match goal with
  | |- context [if ?c then (res_error 400 "NO_UPDATE_FIELDS", d) else _] => destruct c
  end; [now left|].
  destruct (updated_session body now session); [now left|].
  cbv zeta.
  destruct (select_session (update_sessions d sid (updated_or_same body now)) sid);
    now right.
Qed.

Lemma put_session_keeps d now sid user body :
  (referential_integrity d = true ->
   referential_integrity (snd (put_session d now sid user body)) = true)
  /\ (metrics_in_range d = true ->
      metrics_in_range (snd (put_session d now sid user body)) = true).
Proof.
  destruct (put_session_shape d now sid user body) as [-> | ->]; [now split|].
  destruct (update_sessions_keeps d sid (updated_or_same body now)
              (updated_or_same_keys body now)) as [H1 H2].
  split; [exact H1 | now rewrite H2].
Qed.

Lemma on_engagement_update_keeps d now data :
  (referential_integrity d = true ->
   referential_integrity (snd (on_engagement_update d now data)) = true)
  /\ (metrics_in_range d = true ->
      metrics_in_range (snd (on_engagement_update d now data)) = true).
Proof.
  unfold on_engagement_update, storeEngagementMetric.
  pose proof (insert_engagement_metric_keeps d now (sessionId data) (studentId data)
                (emotion data) (confidence data) (engagementScore data)) as H.
  destruct (insert_engagement_metric d now (sessionId data) (studentId data)
              (emotion data) (confidence data) (engagementScore data)) as [[e|row] d1];
    exact H.
Qed.

Lemma updateUserStatus_keeps d now sid uid st :
  (referential_integrity d = true ->
   referential_integrity (updateUserStatus d now sid uid st) = true)
  /\ (metrics_in_range d = true ->
      metrics_in_range (updateUserStatus d now sid uid st) = true).
Proof.
  destruct st; cbn [updateUserStatus]; [| |now split].
  - destruct (update_left_at_keeps d now sid uid) as [H1 H2].
    split; [exact H1 | now rewrite H2].
  - destruct (update_joined_at_keeps d now sid uid) as [H1 H2].
    split; [exact H1 | now rewrite H2].
Qed.

Lemma post_session_keeps d now user body :
  (referential_integrity d = true ->
   referential_integrity (snd (post_session d now user body)) = true)
  /\ (metrics_in_range d = true ->
      metrics_in_range (snd (post_session d now user body)) = true).
Proof.
  unfold post_session.
  destruct (negb (requireRole [teacher; admin] user)); [now split|].
  destruct (cb_title body) as [|a title]; [now split|].
  destruct (cb_start_time body) as [start_time|]; [|now split].
  destruct (cb_end_time body) as [end_time|]; [|now split].
  destruct (end_time <=? start_time); [now split|].
  match goal with
  | |- context [insert_session d now ?t ?ti ?de ?m ?st ?en] =>
      pose proof (insert_session_keeps d now t ti de m st en) as H;
      destruct (insert_session d now t ti de m st en) as [[e|session] d1]
  end; cbn [snd] in *; destruct H as [H1 H2]; [split; [exact H1 | now rewrite H2]|].
  pose proof (insert_session_user_keeps d1 now (s_id session) (ru_id user) teacher) as H.
  destruct (insert_session_user d1 now (s_id session) (ru_id user) teacher)
    as [[e|row] d2]; cbn [snd] in *; destruct H as [H3 H4];
    (split; [auto | intros; rewrite H4, H2; auto]).
Qed.

(** Every operation keeps the foreign keys and the CHECK constraints. *)
Lemma api_step_keeps_constraints d d1 :
  api_step d d1 ->
  (referential_integrity d = true -> referential_integrity d1 = true)
  /\ (metrics_in_range d = true -> metrics_in_range d1 = true).
Proof.
  intros [d2 [now sid user | now sid user | now sid user | now sid user | now data
              | now sid uid st]
         | now user body | now sid user body | now sid].
  - apply post_join_keeps.
  - apply post_join_second_keeps.
  - apply post_leave_keeps.
  - apply post_end_keeps.
  - apply on_engagement_update_keeps.
  - apply updateUserStatus_keeps.
  - apply post_session_keeps.
  - apply put_session_keeps.
  - apply endSession_keeps.
Qed.


(** * Further properties *)

(** ** Keys and constraints in reachable states *)

Lemma table_writes_one d d1 : table_write d d1 -> table_writes d d1.
Proof. intros H. eapply tw_cons; [apply tw_nil | exact H]. Qed.

Lemma post_join_writes d now sid user : table_writes d (snd (post_join d now sid user)).
Proof.
  unfold post_join.
  destruct (select_active_session d sid) as [|session l]; [apply tw_nil|].
  destruct (0 <? COUNT (select_session_user d sid (ru_id user))); [apply tw_nil|].
  destruct (count_session_users d sid >=? to_number (s_max_students session));
    [apply tw_nil|].
  pose proof (tw_insert_session_user d now sid (ru_id user) (ru_role user)) as H.
  destruct (insert_session_user d now sid (ru_id user) (ru_role user)) as [[e|row] d1];
    apply table_writes_one, H.
Qed.

Lemma post_join_second_writes d now sid user :
  table_writes d (snd (post_join_second d now sid user)).
Proof.
  unfold post_join_second.
  destruct (select_session d sid) as [|session l]; [apply tw_nil|].
  destruct (negb (session_status_eqb (s_status session) active)); [apply tw_nil|].
  destruct (0 <? COUNT (select_session_user d sid (ru_id user))); [apply tw_nil|].
  destruct (count_session_users d sid >=? to_number (s_max_students session));
    [apply tw_nil|].
  pose proof (tw_insert_session_user d now sid (ru_id user) (ru_role user)) as H.
  destruct (insert_session_user d now sid (ru_id user) (ru_role user)) as [[e|row] d1];
    apply table_writes_one, H.
Qed.

Lemma post_leave_writes d now sid user : table_writes d (snd (post_leave d now sid user)).
Proof.
  unfold post_leave. destruct (select_session_user d sid (ru_id user));
    [apply tw_nil | apply table_writes_one, tw_update_left_at].
Qed.

Lemma post_end_writes d now sid user : table_writes d (snd (post_end d now sid user)).
Proof.
  unfold post_end.
  destruct (negb (requireRole [teacher; admin] user)); [apply tw_nil|].
  destruct (select_session d sid) as [|session l]; [apply tw_nil|].
  destruct (negb (s_teacher_id session =? ru_id user)); [apply tw_nil|].
  destruct (session_status_eqb (s_status session) ended); [apply tw_nil|].
  apply table_writes_one, tw_update_sessions. now split.
Qed.

Lemma put_session_writes d now sid user body :
  table_writes d (snd (put_session d now sid user body)).
Proof.
  destruct (put_session_shape d now sid user body) as [-> | ->]; [apply tw_nil|].
  apply table_writes_one, tw_update_sessions, updated_or_same_keys.
Qed.

Lemma post_session_writes d now user body :
  table_writes d (snd (post_session d now user body)).
Proof.
  unfold post_session.
  destruct (negb (requireRole [teacher; admin] user)); [apply tw_nil|].
  destruct (cb_title body) as [|a title]; [apply tw_nil|].
  destruct (cb_start_time body) as [start_time|]; [|apply tw_nil].
  destruct (cb_end_time body) as [end_time|]; [|apply tw_nil].
  destruct (end_time <=? start_time); [apply tw_nil|].
  match goal with
  | |- context [insert_session d now ?t ?ti ?de ?m ?st ?en] =>
      pose proof (tw_insert_session d now t ti de m st en) as H;
      destruct (insert_session d now t ti de m st en) as [[e|session] d1]
  end; cbn [snd] in *; [apply table_writes_one, H|].
  pose proof (tw_insert_session_user d1 now (s_id session) (ru_id user) teacher) as H1.
  destruct (insert_session_user d1 now (s_id session) (ru_id user) teacher)
    as [[e|row] d2]; cbn [snd] in *;
    (eapply tw_cons; [apply table_writes_one, H | exact H1]).
Qed.

Lemma on_engagement_update_writes d now data :
  table_writes d (snd (on_engagement_update d now data)).
Proof.
  unfold on_engagement_update, storeEngagementMetric.
  pose proof (tw_insert_engagement_metric d now (sessionId data) (studentId data)
                (emotion data) (confidence data) (engagementScore data)) as H.
  destruct (insert_engagement_metric d now (sessionId data) (studentId data)
              (emotion data) (confidence data) (engagementScore data)) as [[e|row] d1];
    apply table_writes_one, H.
Qed.

Lemma api_step_writes d d1 : api_step d d1 -> table_writes d d1.
Proof.
  intros [d2 [now sid user | now sid user | now sid user | now sid user | now data
              | now sid uid st]
         | now user body | now sid user body | now sid].
  - apply post_join_writes.
  - apply post_join_second_writes.
  - apply post_leave_writes.
  - apply post_end_writes.
  - apply on_engagement_update_writes.
  - destruct st; cbn [updateUserStatus];
      [apply table_writes_one, tw_update_left_at
      | apply table_writes_one, tw_update_joined_at | apply tw_nil].
  - apply post_session_writes.
  - apply put_session_writes.
  - apply table_writes_one, tw_update_sessions. now split.
Qed.

Lemma fresh_id_kept {A} (key : A -> Z) l seq :
  NoDup (map key l) /\ Forall (fun x => key x < seq) l ->
  NoDup (map key l) /\ Forall (fun x => key x < seq + 1) l.
Proof.
  intros [Hnd Hlt]. split; [exact Hnd|].
  eapply Forall_impl; [|exact Hlt]. intros x Hx. cbn beta in Hx. lia.
Qed.

Lemma NoDup_snoc {A} (l : list A) x : ~ In x l -> NoDup l -> NoDup (l ++ [x]).
Proof.
  intros Hx Hl. induction Hl as [|y l Hy _ IH]; cbn [app].
  - constructor; [intros [] | constructor].
  - constructor.
    + rewrite in_app_iff. intros [H | [<- | []]]; [now apply Hy | apply Hx; now left].
    + apply IH. intros H. apply Hx. now right.
Qed.

Lemma fresh_id_append {A} (key : A -> Z) l row seq :
  key row = seq ->
  NoDup (map key l) /\ Forall (fun x => key x < seq) l ->
  NoDup (map key (l ++ [row])) /\ Forall (fun x => key x < seq + 1) (l ++ [row]).
Proof.
  intros Hrow [Hnd Hlt]. split.
  - rewrite map_app. cbn [map]. apply NoDup_snoc; [|exact Hnd].
    rewrite in_map_iff. intros (x & Hx & Hin).
    rewrite Forall_forall in Hlt. apply Hlt in Hin. lia.
  - apply Forall_app. split.
    + eapply Forall_impl; [|exact Hlt]. intros x Hx. cbn beta in Hx. lia.
    + constructor; [lia | constructor].
Qed.

Lemma map_key_unchanged {A B} (key : A -> B) (g : A -> A) l :
  (forall x, key (g x) = key x) -> map key (map g l) = map key l.
Proof. intros H. rewrite map_map. apply map_ext. exact H. Qed.

Lemma Forall_map_unchanged {A} (key : A -> Z) (g : A -> A) l seq :
  (forall x, key (g x) = key x) ->
  Forall (fun x => key x < seq) l -> Forall (fun x => key x < seq) (map g l).
Proof.
  intros H Hl. apply Forall_forall. intros y Hy. apply in_map_iff in Hy.
  destruct Hy as (x & <- & Hin). rewrite H. rewrite Forall_forall in Hl. now apply Hl.
Qed.

Ltac split_keys := split; [|split; [|split]].

Lemma table_write_keeps_keys d d1 :
  table_write d d1 -> keys_unique d -> keys_unique d1.
Proof.
  unfold keys_unique.
  intros [now tid title descr m st en | now sid uid r | now sid uid e c s
         | sid f Hf | now sid uid | now sid uid] (Hs & Hsu & Hem & Hpair).
  - unfold insert_session. destruct (negb (user_exists d tid)); cbn [snd];
      cbn [sessions session_users engagement_metrics sessions_id_seq
           session_users_id_seq engagement_metrics_id_seq with_sessions];
      split_keys; try assumption;
      [apply (fresh_id_kept s_id); exact Hs | apply (fresh_id_append s_id); auto].
  - unfold insert_session_user.
    destruct (user_role_eqb r admin);
      [|destruct (0 <? COUNT (select_session_user d sid uid)) eqn:Hdup;
        [|destruct (negb (session_exists d sid && user_exists d uid))]];
      cbn [snd sessions session_users engagement_metrics sessions_id_seq
           session_users_id_seq engagement_metrics_id_seq with_session_users];
      split_keys; try assumption;
      try (apply (fresh_id_kept su_id); exact Hsu);
      try (apply (fresh_id_append su_id); auto; fail).
    rewrite COUNT_pos in Hdup.
    rewrite map_app. cbn [map su_session_id su_user_id].
    apply NoDup_snoc; [|exact Hpair].
    rewrite in_map_iff. intros (su & Hk & Hin).
    injection Hk as Hsid Huid.
    assert (Hsel : In su (select_session_user d sid uid))
      by (apply select_session_user_in; auto).
    destruct (select_session_user d sid uid); [destruct Hsel | discriminate].
  - unfold insert_engagement_metric.
    destruct (negb (confidence_check c && engagement_score_check s));
      [|destruct (negb (session_exists d sid && user_exists d uid))];
      cbn [snd sessions session_users engagement_metrics sessions_id_seq
           session_users_id_seq engagement_metrics_id_seq with_engagement_metrics];
      split_keys; try assumption;
      try (apply (fresh_id_kept em_id); exact Hem);
      apply (fresh_id_append em_id); auto.
  - unfold update_sessions.
    cbn [sessions session_users engagement_metrics sessions_id_seq
         session_users_id_seq engagement_metrics_id_seq with_sessions].
    assert (Hid : forall x, s_id (if s_id x =? sid then f x else x) = s_id x)
      by (intros x; destruct (s_id x =? sid); [apply Hf | reflexivity]).
    split_keys; try assumption. split.
    + rewrite (map_key_unchanged s_id); [apply Hs | exact Hid].
    + apply (Forall_map_unchanged s_id); [exact Hid | apply Hs].
  - unfold update_left_at.
    cbn [sessions session_users engagement_metrics sessions_id_seq
         session_users_id_seq engagement_metrics_id_seq with_session_users].
    split_keys; try assumption; [split|].
    + rewrite (map_key_unchanged su_id); [apply Hsu|].
      intros x. now destruct ((su_session_id x =? sid) && (su_user_id x =? uid)).
    + apply (Forall_map_unchanged su_id); [|apply Hsu].
      intros x. now destruct ((su_session_id x =? sid) && (su_user_id x =? uid)).
    + rewrite (map_key_unchanged (fun su => (su_session_id su, su_user_id su)));
        [exact Hpair|].
      intros x. now destruct ((su_session_id x =? sid) && (su_user_id x =? uid)).
  - unfold update_joined_at.
    cbn [sessions session_users engagement_metrics sessions_id_seq
         session_users_id_seq engagement_metrics_id_seq with_session_users].
    split_keys; try assumption; [split|].
    + rewrite (map_key_unchanged su_id); [apply Hsu|].
      intros x. now destruct ((su_session_id x =? sid) && (su_user_id x =? uid)).
    + apply (Forall_map_unchanged su_id); [|apply Hsu].
      intros x. now destruct ((su_session_id x =? sid) && (su_user_id x =? uid)).
    + rewrite (map_key_unchanged (fun su => (su_session_id su, su_user_id su)));
        [exact Hpair|].
      intros x. now destruct ((su_session_id x =? sid) && (su_user_id x =? uid)).
Qed.

Lemma table_writes_keep_keys d d1 :
  table_writes d d1 -> keys_unique d -> keys_unique d1.
Proof.
  induction 1 as [|d1 d2 _ IH Hw]; intros Hk; [exact Hk|].
  exact (table_write_keeps_keys d1 d2 Hw (IH Hk)).
Qed.

Lemma unique_key_one_match {A} (key : A -> Z) l k :
  NoDup (map key l) -> (List.length (filter (fun x => (key x =? k)%Z) l) <= 1)%nat.
Proof.
  induction l as [|x l IH]; cbn [map filter]; intros Hnd; [cbn; lia|].
  inversion Hnd as [|? ? Hnotin Hnd1]; subst.
  destruct (key x =? k) eqn:E; [|now apply IH].
  apply Z.eqb_eq in E. rewrite filter_none; [cbn; lia|].
  intros y Hy. apply Z.eqb_neq. intros Hk. apply Hnotin.
  apply in_map_iff. exists y. split; [congruence | exact Hy].
Qed.

Lemma unique_pair_one_match d sid uid :
  NoDup (map (fun su => (su_session_id su, su_user_id su)) (session_users d)) ->
  (List.length (select_session_user d sid uid) <= 1)%nat.
Proof.
  unfold select_session_user.
  induction (session_users d) as [|x l IH]; cbn [map filter]; intros Hnd; [cbn; lia|].
  inversion Hnd as [|? ? Hnotin Hnd1]; subst.
  destruct ((su_session_id x =? sid) && (su_user_id x =? uid)) eqn:E; [|now apply IH].
  apply andb_true_iff in E. destruct E as [E1 E2].
  apply Z.eqb_eq in E1, E2. rewrite filter_none; [cbn; lia|].
  intros y Hy. apply not_true_iff_false. intros Hk.
  apply andb_true_iff in Hk. destruct Hk as [K1 K2]. apply Z.eqb_eq in K1, K2.
  apply Hnotin. apply in_map_iff. exists y. split; [congruence | exact Hy].
Qed.

(** X1: in every state reached from a consistent database (for one, a
    database without sessions) by any sequence of the modelled
    operations, ids are unique in sessions, session_users and
    engagement_metrics, no user has two membership rows of one session,
    the foreign keys hold and every stored metric is within the CHECK
    bounds; so a lookup by session id, or by session and user, returns at
    most one row. *)
Theorem reachable_states_are_consistent (d0 d : db) :
  api_steps d0 d ->
  keys_unique d0 -> referential_integrity d0 = true -> metrics_in_range d0 = true ->
  keys_unique d
  /\ referential_integrity d = true
  /\ metrics_in_range d = true
  /\ (forall sid, (List.length (select_session d sid) <= 1)%nat)
  /\ (forall sid uid, (List.length (select_session_user d sid uid) <= 1)%nat).
Proof.
  intros Hsteps Hk Hri Hck.
  assert (H : keys_unique d /\ referential_integrity d = true
              /\ metrics_in_range d = true).
  { induction Hsteps as [|d1 d2 _ IH Hstep]; [auto|].
    destruct IH as (Hk1 & Hri1 & Hck1).
    destruct (api_step_keeps_constraints d1 d2 Hstep) as [H1 H2].
    split; [|auto].
    exact (table_writes_keep_keys d1 d2 (api_step_writes d1 d2 Hstep) Hk1). }
  destruct H as (Hkd & Hrid & Hckd).
  repeat (split; [assumption|]). split.
  - intros sid. apply (unique_key_one_match s_id), Hkd.
  - intros sid uid. apply unique_pair_one_match, Hkd.
Qed.

Lemma reachable_states_are_consistent_witness :
  let d0 := Scenario.db0 in
  let d := Scenario.small_after_leave in
  api_steps d0 d
  /\ keys_unique d0 /\ referential_integrity d0 = true /\ metrics_in_range d0 = true
  /\ (keys_unique d
      /\ referential_integrity d = true
      /\ metrics_in_range d = true
      /\ (forall sid, (List.length (select_session d sid) <= 1)%nat)
      /\ (forall sid uid, (List.length (select_session_user d sid uid) <= 1)%nat)).
Proof.
  intros d0 d.
  assert (Hsteps : api_steps d0 d).
  { apply (api_cons d0 Scenario.small_full).
    - apply (api_cons d0 Scenario.small_created).
      + apply (api_cons d0 d0); [apply api_nil|].
        apply (api_create d0 10 Scenario.the_teacher (Scenario.lesson (Some 2))).
      + apply api_engine.
        apply (step_join Scenario.small_created 30 1 (Scenario.the_student 2)).
    - apply api_engine.
      apply (step_leave Scenario.small_full 40 1 (Scenario.the_student 2)). }
  assert (Hk : keys_unique d0).
  { repeat split; constructor. }
  split; [exact Hsteps|]. split; [exact Hk|]. split; [reflexivity|].
  split; [reflexivity|].
  exact (reachable_states_are_consistent d0 d Hsteps Hk eq_refl eq_refl).
Defined.

(** ** Creating a session *)

Lemma no_member_of_next_session d uid :
  keys_unique d -> referential_integrity d = true ->
  filter (fun su => su_session_id su =? sessions_id_seq d) (session_users d) = []
  /\ select_session_user d (sessions_id_seq d) uid = [].
Proof.
  intros ((_ & Hlt) & _) Hri.
  assert (H : forall su, In su (session_users d) ->
                         (su_session_id su =? sessions_id_seq d) = false).
  { intros su Hin. apply Z.eqb_neq. intros E.
    pose proof (integrity_members d su Hri Hin) as Hex.
    apply andb_true_iff, proj1 in Hex. unfold session_exists in Hex.
    apply existsb_exists in Hex. destruct Hex as (s0 & Hs0 & Hid).
    apply Z.eqb_eq in Hid. rewrite Forall_forall in Hlt. apply Hlt in Hs0. lia. }
  split.
  - now apply filter_none.
  - apply filter_none. intros su Hin. now rewrite (H su Hin).
Qed.

(** X2: POST / either creates exactly one session and one membership, or
    changes nothing.  For an authenticated teacher or admin with a title,
    a start and a later end, it appends a session that is active, keeps
    the scheduled end_time, has 50 places unless the body gives a non-zero
    number, and is owned by the caller, and it adds the caller as its
    only participant with role teacher.  A student, a missing title,
    start or end, or an end not after the start, is answered an error
    and leaves the database as it was. *)
Theorem post_session_outcome (d : db) (now : Z) (user : req_user) (body : create_body) :
  keys_unique d -> referential_integrity d = true -> user_exists d (ru_id user) = true ->
  (forall st en,
     ru_role user <> student -> cb_title body <> EmptyString ->
     cb_start_time body = Some st -> cb_end_time body = Some en -> st < en ->
     let session :=
       {| s_id := sessions_id_seq d; s_teacher_id := ru_id user;
          s_title := cb_title body;
          s_description := Some (match cb_description body with
                                 | Some x => x | None => EmptyString end);
          s_start_time := st; s_end_time := Some en; s_status := active;
          s_max_students := Some (or_default (cb_max_students body) 50);
          s_created_at := now; s_updated_at := now |} in
     exists d1,
       post_session d now user body = (res_json session, d1)
       /\ sessions d1 = sessions d ++ [session]
       /\ session_users d1
          = session_users d
            ++ [{| su_id := session_users_id_seq d; su_session_id := s_id session;
                   su_user_id := ru_id user; su_role := teacher;
                   su_joined_at := now; su_left_at := None |}]
       /\ engagement_metrics d1 = engagement_metrics d
       /\ count_session_users d1 (s_id session) = 1
       /\ isUserInSession d1 (s_id session) (ru_id user) = true)
  /\ (ru_role user = student \/ cb_title body = EmptyString
      \/ cb_start_time body = None \/ cb_end_time body = None
      \/ (exists st en, cb_start_time body = Some st /\ cb_end_time body = Some en
                        /\ en <= st) ->
      snd (post_session d now user body) = d
      /\ exists status code, fst (post_session d now user body) = res_error status code).
Proof.
  intros Hk Hri Hu. split.
  - intros st en Hrole Htitle Hst Hen Hlt session.
    destruct (no_member_of_next_session d (ru_id user) Hk Hri) as [Hnone Hnorow].
    unfold post_session.
    rewrite requireRole_teacher_admin, negb_involutive.
    replace (user_role_eqb (ru_role user) student) with false
      by (destruct (ru_role user); [reflexivity | congruence | reflexivity]).
    subst session.
    destruct (cb_title body) as [|a t] eqn:Et; [congruence|].
    rewrite Hst, Hen. eexists.
    replace (en <=? st) with false by (symmetry; apply Z.leb_gt; exact Hlt).
    unfold insert_session. rewrite Hu. cbn [negb s_id].
    match goal with
    | |- context [insert_session_user ?d1 _ _ _ _] => set (dd := d1)
    end.
    assert (H1 : select_session_user dd (sessions_id_seq d) (ru_id user) = [])
      by exact Hnorow.
    assert (H2 : session_exists dd (sessions_id_seq d) = true).
    { unfold session_exists, dd. cbn [sessions with_sessions].
      rewrite existsb_app. cbn [existsb s_id]. rewrite Z.eqb_refl.
      now rewrite orb_true_r. }
    assert (H3 : user_exists dd (ru_id user) = true) by exact Hu.
    unfold insert_session_user. cbn [user_role_eqb].
    rewrite H1, H2, H3. cbn [COUNT List.length Z.of_nat Z.ltb Z.compare andb negb].
    subst dd. split; [reflexivity|].
    cbn [sessions session_users engagement_metrics with_session_users with_sessions
         session_users_id_seq].
    repeat (split; [reflexivity|]).
    unfold isUserInSession, count_session_users, select_session_user.
    cbn [session_users with_session_users with_sessions].
    rewrite !filter_app. fold (select_session_user d (sessions_id_seq d) (ru_id user)).
    rewrite Hnone, Hnorow. cbn [filter su_session_id su_user_id app].
    rewrite !Z.eqb_refl. cbn [andb]. split; reflexivity.
  - intros Hbad. unfold post_session.
    rewrite requireRole_teacher_admin, negb_involutive.
    assert (Herr : forall status code,
              snd (@res_error sessions_row status code, d) = d
              /\ exists status1 code1,
                   fst (@res_error sessions_row status code, d) = res_error status1 code1)
      by (intros; split; [reflexivity | eexists; eexists; reflexivity]).
    destruct (user_role_eqb (ru_role user) student) eqn:Er; [apply Herr|].
    assert (Hrole : ru_role user <> student)
      by (intros E; rewrite E in Er; cbn in Er; discriminate Er).
    destruct (cb_title body) as [|a t]; [apply Herr|].
    destruct (cb_start_time body) as [st|]; [|apply Herr].
    destruct (cb_end_time body) as [en|]; [|apply Herr].
    destruct Hbad as [H | [H | [H | [H | (st0 & en0 & Hs & He & Hle)]]]];
      try congruence; try discriminate.
    injection Hs as <-. injection He as <-.
    replace (en <=? st) with true by (symmetry; apply Z.leb_le; exact Hle).
    apply Herr.
Qed.

Lemma post_session_outcome_witness :
  let d := Scenario.db0 in
  let user := Scenario.the_teacher in
  let body := Scenario.lesson None in
  keys_unique d /\ referential_integrity d = true /\ user_exists d (ru_id user) = true
  /\ ru_role user <> student /\ cb_title body <> EmptyString
  /\ cb_start_time body = Some 0 /\ cb_end_time body = Some 3600000000
  /\ 0 < 3600000000
  /\ (let session :=
        {| s_id := sessions_id_seq d; s_teacher_id := ru_id user;
           s_title := cb_title body;
           s_description := Some (match cb_description body with
                                  | Some x => x | None => EmptyString end);
           s_start_time := 0; s_end_time := Some 3600000000; s_status := active;
           s_max_students := Some (or_default (cb_max_students body) 50);
           s_created_at := 10; s_updated_at := 10 |} in
      exists d1,
        post_session d 10 user body = (res_json session, d1)
        /\ sessions d1 = sessions d ++ [session]
        /\ session_users d1
           = session_users d
             ++ [{| su_id := session_users_id_seq d; su_session_id := s_id session;
                    su_user_id := ru_id user; su_role := teacher;
                    su_joined_at := 10; su_left_at := None |}]
        /\ engagement_metrics d1 = engagement_metrics d
        /\ count_session_users d1 (s_id session) = 1
        /\ isUserInSession d1 (s_id session) (ru_id user) = true).
Proof.
  intros d user body.
  assert (Hk : keys_unique d) by (repeat split; constructor).
  assert (Hrole : ru_role user <> student) by discriminate.
  assert (Htitle : cb_title body <> EmptyString) by discriminate.
  assert (Hlt : 0 < 3600000000) by reflexivity.
  repeat (split; [first [exact Hk | exact Hrole | exact Htitle | exact Hlt | reflexivity]|]).
  exact (proj1 (post_session_outcome d 10 user body Hk eq_refl eq_refl)
           0 3600000000 Hrole Htitle eq_refl eq_refl Hlt).
Defined.

(** ** Joining and leaving *)

Lemma active_session_exists d sid session rest :
  select_active_session d sid = session :: rest -> session_exists d sid = true.
Proof.
  intros E. unfold session_exists. apply existsb_exists. exists session.
  assert (Hin : In session (select_active_session d sid)) by (rewrite E; now left).
  unfold select_active_session in Hin. apply filter_In in Hin.
  destruct Hin as [Hin Hc]. apply andb_true_iff in Hc. tauto.
Qed.

Lemma count_after_append d sid row seq :
  su_session_id row = sid ->
  count_session_users (with_session_users d (session_users d ++ [row]) seq) sid
  = count_session_users d sid + 1
  /\ (su_left_at row = None ->
      active_participant_count (with_session_users d (session_users d ++ [row]) seq) sid
      = active_participant_count d sid + 1).
Proof.
  intros <-. unfold count_session_users, active_participant_count, COUNT.
  cbn [session_users with_session_users]. rewrite !filter_app, !length_app.
  cbn [filter]. rewrite Z.eqb_refl. split.
  - cbn [List.length]. lia.
  - intros ->. cbn [andb is_null List.length]. lia.
Qed.

(** X3: POST /:id/join succeeds exactly when the session is active, the
    caller has no membership row of it (not even a departed one), the
    number of its membership rows is below max_students and the caller's
    role is not admin.  A successful join adds one row for the caller,
    with the caller's role and no left_at, and nothing else: the session's
    row count and active participant count both grow by one. *)
Theorem post_join_succeeds_iff (d : db) (now sid : Z) (user : req_user) :
  user_exists d (ru_id user) = true ->
  ((exists msg, fst (post_join d now sid user) = res_json msg) <->
   (exists session rest,
      select_active_session d sid = session :: rest
      /\ select_session_user d sid (ru_id user) = []
      /\ count_session_users d sid < to_number (s_max_students session)
      /\ ru_role user <> admin))
  /\ (forall msg, fst (post_join d now sid user) = res_json msg ->
      let d1 := snd (post_join d now sid user) in
      session_users d1
      = session_users d
        ++ [{| su_id := session_users_id_seq d; su_session_id := sid;
               su_user_id := ru_id user; su_role := ru_role user;
               su_joined_at := now; su_left_at := None |}]
      /\ sessions d1 = sessions d
      /\ engagement_metrics d1 = engagement_metrics d
      /\ count_session_users d1 sid = count_session_users d sid + 1
      /\ active_participant_count d1 sid = active_participant_count d sid + 1).
Proof.
  intros Hu. unfold post_join.
  destruct (select_active_session d sid) as [|session rest] eqn:Hact.
  { split; [split|]; cbn [fst].
    - intros [msg H]. discriminate.
    - intros (s0 & r0 & H & _). discriminate.
    - intros msg H. discriminate. }
  pose proof (active_session_exists d sid session rest Hact) as Hex.
  rewrite COUNT_pos.
  destruct (select_session_user d sid (ru_id user)) as [|su l] eqn:Hrow.
  2:{ split; [split|]; cbn [fst].
      - intros [msg H]. discriminate.
      - intros (s0 & r0 & _ & H & _). discriminate.
      - intros msg H. discriminate. }
  destruct (count_session_users d sid >=? to_number (s_max_students session)) eqn:Hcap.
  { apply Z.geb_le in Hcap. split; [split|]; cbn [fst].
    - intros [msg H]. discriminate.
    - intros (s0 & r0 & E & _ & Hlt & _). injection E as <- <-. lia.
    - intros msg H. discriminate. }
  unfold insert_session_user. rewrite Hrow, Hex, Hu.
  cbn [COUNT List.length Z.of_nat Z.ltb Z.compare andb negb].
  destruct (user_role_eqb (ru_role user) admin) eqn:Hadm.
  { split; [split|]; cbn [fst].
    - intros [msg H]. discriminate.
    - intros (s0 & r0 & _ & _ & _ & Hne). destruct (ru_role user); try discriminate.
      congruence.
    - intros msg H. discriminate. }
  cbn [fst snd]. split; [split|].
  - intros _. exists session, rest. repeat split; auto.
    + rewrite Z.geb_leb in Hcap. apply Z.leb_gt in Hcap. exact Hcap.
    + intros E. rewrite E in Hadm. discriminate.
  - intros _. eauto.
  - intros msg _. cbn zeta.
    destruct (count_after_append d sid
                {| su_id := session_users_id_seq d; su_session_id := sid;
                   su_user_id := ru_id user; su_role := ru_role user;
                   su_joined_at := now; su_left_at := None |}
                (session_users_id_seq d + 1) eq_refl) as [Hc Ha].
    repeat split; auto.
Qed.

Lemma post_join_succeeds_iff_witness :
  let d := Scenario.small_created in
  let user := Scenario.the_student 2 in
  user_exists d (ru_id user) = true
  /\ (((exists msg, fst (post_join d 30 1 user) = res_json msg) <->
       (exists session rest,
          select_active_session d 1 = session :: rest
          /\ select_session_user d 1 (ru_id user) = []
          /\ count_session_users d 1 < to_number (s_max_students session)
          /\ ru_role user <> admin))
      /\ (forall msg, fst (post_join d 30 1 user) = res_json msg ->
          let d1 := snd (post_join d 30 1 user) in
          session_users d1
          = session_users d
            ++ [{| su_id := session_users_id_seq d; su_session_id := 1;
                   su_user_id := ru_id user; su_role := ru_role user;
                   su_joined_at := 30; su_left_at := None |}]
          /\ sessions d1 = sessions d
          /\ engagement_metrics d1 = engagement_metrics d
          /\ count_session_users d1 1 = count_session_users d 1 + 1
          /\ active_participant_count d1 1 = active_participant_count d 1 + 1))
  /\ fst (post_join d 30 1 user) = res_json "Successfully joined session"%string.
Proof.
  intros d user. split; [reflexivity|]. split.
  - exact (post_join_succeeds_iff d 30 1 user eq_refl).
  - reflexivity.
Defined.

(** X4: an admin cannot join a session.  Where a teacher or student
    would be admitted, the INSERT of an admin violates the CHECK on
    session_users.role, the route answers 500 SESSION_JOIN_ERROR and no
    table has changed. *)
Theorem admin_cannot_join (d : db) (now sid : Z) (user : req_user)
    (session : sessions_row) (rest : list sessions_row) :
  ru_role user = admin ->
  select_active_session d sid = session :: rest ->
  select_session_user d sid (ru_id user) = [] ->
  count_session_users d sid < to_number (s_max_students session) ->
  fst (post_join d now sid user) = res_error 500 "SESSION_JOIN_ERROR"
  /\ same_tables d (snd (post_join d now sid user)).
Proof.
  intros Hadm Hact Hrow Hcap. unfold post_join. rewrite Hact, COUNT_pos, Hrow.
  replace (count_session_users d sid >=? to_number (s_max_students session)) with false
    by (symmetry; rewrite Z.geb_leb; apply Z.leb_gt; exact Hcap).
  unfold insert_session_user. rewrite Hadm. cbn [user_role_eqb fst snd].
  repeat split.
Qed.

Lemma admin_cannot_join_witness :
  let d := Scenario.small_created in
  let user := {| ru_id := 12; ru_role := admin |} in
  let session := {| s_id := 1; s_teacher_id := 1; s_title := "Algebra";
                    s_description := Some ""%string; s_start_time := 0;
                    s_end_time := Some 3600000000; s_status := active;
                    s_max_students := Some 2; s_created_at := 10;
                    s_updated_at := 10 |} in
  ru_role user = admin
  /\ select_active_session d 1 = [session]
  /\ select_session_user d 1 (ru_id user) = []
  /\ count_session_users d 1 < to_number (s_max_students session)
  /\ (fst (post_join d 30 1 user) = res_error 500 "SESSION_JOIN_ERROR"
      /\ same_tables d (snd (post_join d 30 1 user))).
Proof.
  intros d user session.
  assert (Hcap : count_session_users d 1 < to_number (s_max_students session))
    by reflexivity.
  split; [reflexivity|]. split; [reflexivity|]. split; [reflexivity|].
  split; [exact Hcap|].
  exact (admin_cannot_join d 30 1 user session [] eq_refl eq_refl eq_refl Hcap).
Defined.

Lemma count_session_users_after_leave d now sid uid sid1 :
  count_session_users (update_left_at d now sid uid) sid1 = count_session_users d sid1.
Proof.
  unfold count_session_users, update_left_at, COUNT.
  cbn [session_users with_session_users].
  rewrite filter_map_swap, length_map; [reflexivity|].
  intros su. now destruct ((su_session_id su =? sid) && (su_user_id su =? uid)).
Qed.

Lemma left_at_after_leave d now sid uid su :
  In su (select_session_user (update_left_at d now sid uid) sid uid) ->
  su_left_at su = Some now.
Proof.
  rewrite select_session_user_after_leave, in_map_iff.
  intros (su0 & <- & _). reflexivity.
Qed.

Lemma member_after_leave d now sid uid :
  select_session_user d sid uid <> [] ->
  select_session_user (update_left_at d now sid uid) sid uid <> [].
Proof.
  rewrite select_session_user_after_leave.
  destruct (select_session_user d sid uid); [congruence | discriminate].
Qed.

(** The statements of the session report and of the session metrics that
    name user_id are refused, so a member of an existing session is
    answered 500 by both routes. *)
Lemma get_session_report_outcome d now sid user :
  get_session_report d now sid user
  = match select_session_user d sid (ru_id user) with
    | [] => res_error 403 "SESSION_ACCESS_DENIED"
    | _ :: _ =>
        match select_session d sid with
        | [] => res_error 404 "SESSION_NOT_FOUND"
        | _ :: _ => res_error 500 "REPORT_GENERATION_ERROR"
        end
    end.
Proof.
  unfold get_session_report.
  destruct (select_session_user d sid (ru_id user)); [reflexivity|].
  destruct (select_session d sid); reflexivity.
Qed.

Lemma get_session_metrics_outcome d sid user :
  get_session_metrics d sid user
  = match select_session_user d sid (ru_id user) with
    | [] => res_error 403 "SESSION_ACCESS_DENIED"
    | _ :: _ => res_error 500 "METRICS_FETCH_ERROR"
    end.
Proof.
  unfold get_session_metrics.
  destruct (select_session_user d sid (ru_id user)); reflexivity.
Qed.

(** X5: leaving a session takes nothing away but the active state.  After
    a successful POST /:id/leave the row is still there, with left_at set
    to the time of the request, and the number of rows of every session
    is what it was; the departed member still passes isUserInSession and
    the access checks of the session report and of the session metrics,
    neither of which answers SESSION_ACCESS_DENIED; and a second leave
    succeeds as well, overwriting left_at with the later time. *)
Theorem departed_member_keeps_access (d : db) (now sid : Z) (user : req_user) :
  select_session_user d sid (ru_id user) <> [] ->
  let d1 := snd (post_leave d now sid user) in
  fst (post_leave d now sid user) = res_json "Successfully left session"%string
  /\ (forall su, In su (select_session_user d1 sid (ru_id user)) ->
      su_left_at su = Some now)
  /\ (forall sid1, count_session_users d1 sid1 = count_session_users d sid1)
  /\ isUserInSession d1 sid (ru_id user) = true
  /\ (forall now1,
        get_session_report d1 now1 sid user <> res_error 403 "SESSION_ACCESS_DENIED")
  /\ get_session_metrics d1 sid user <> res_error 403 "SESSION_ACCESS_DENIED"
  /\ (forall now2,
        fst (post_leave d1 now2 sid user) = res_json "Successfully left session"%string
        /\ forall su,
             In su (select_session_user (snd (post_leave d1 now2 sid user)) sid (ru_id user)) ->
             su_left_at su = Some now2).
Proof.
  intros Hrow.
  destruct (post_leave_cases d now sid user) as [[E _] | [_ E]]; [congruence|].
  cbv zeta. rewrite E. cbn [fst snd].
  set (d1 := update_left_at d now sid (ru_id user)).
  pose proof (member_after_leave d now sid (ru_id user) Hrow) as Hrow1.
  fold d1 in Hrow1.
  split; [reflexivity|]. split; [apply left_at_after_leave|].
  split; [apply count_session_users_after_leave|].
  split.
  { unfold isUserInSession. rewrite COUNT_pos.
    destruct (select_session_user d1 sid (ru_id user)); congruence. }
  split.
  { intros now1. rewrite get_session_report_outcome.
    destruct (select_session_user d1 sid (ru_id user)); [congruence|].
    destruct (select_session d1 sid); discriminate. }
  split.
  { rewrite get_session_metrics_outcome.
    destruct (select_session_user d1 sid (ru_id user)); [congruence | discriminate]. }
  intros now2.
  destruct (post_leave_cases d1 now2 sid user) as [[E2 _] | [_ E2]]; [congruence|].
  rewrite E2. cbn [fst snd]. split; [reflexivity|]. apply left_at_after_leave.
Qed.

Lemma departed_member_keeps_access_witness :
  let d := Scenario.small_full in
  let user := Scenario.the_student 2 in
  select_session_user d 1 (ru_id user) <> []
  /\ (let d1 := snd (post_leave d 40 1 user) in
      fst (post_leave d 40 1 user) = res_json "Successfully left session"%string
      /\ (forall su, In su (select_session_user d1 1 (ru_id user)) ->
          su_left_at su = Some 40)
      /\ (forall sid1, count_session_users d1 sid1 = count_session_users d sid1)
      /\ isUserInSession d1 1 (ru_id user) = true
      /\ (forall now1,
            get_session_report d1 now1 1 user <> res_error 403 "SESSION_ACCESS_DENIED")
      /\ get_session_metrics d1 1 user <> res_error 403 "SESSION_ACCESS_DENIED"
      /\ (forall now2,
            fst (post_leave d1 now2 1 user) = res_json "Successfully left session"%string
            /\ forall su,
                 In su (select_session_user (snd (post_leave d1 now2 1 user)) 1 (ru_id user)) ->
                 su_left_at su = Some now2)).
Proof.
  intros d user.
  assert (Hrow : select_session_user d 1 (ru_id user) <> []) by (vm_compute; discriminate).
  split; [exact Hrow|].
  exact (departed_member_keeps_access d 40 1 user Hrow).
Defined.

(** ** After the end of a session *)

Lemma select_session_after_end d now sid :
  select_session (update_sessions d sid (ended_at now)) sid
  = map (ended_at now) (select_session d sid).
Proof.
  rewrite select_session_update by reflexivity.
  apply map_on_selected. intros s <-. now rewrite Z.eqb_refl.
Qed.

Lemma no_active_session_after_end d now sid :
  select_active_session (update_sessions d sid (ended_at now)) sid = [].
Proof.
  rewrite select_active_session_filter, select_session_after_end.
  induction (select_session d sid) as [|s l IH]; [reflexivity|exact IH].
Qed.

(** X6: what POST /:id/end closes and what it leaves open.  After a
    successful end of a session, every join of it, by anyone at any time,
    is answered SESSION_NOT_FOUND (SESSION_NOT_ACTIVE by the handler
    registered second) and changes nothing, and ending it once more is
    answered SESSION_ALREADY_ENDED.  The memberships are not touched: no
    left_at is written, so the session's active participant count is
    what it was.  And the socket handler does not look at the status: an
    engagement_update for the ended session is still broadcast to its
    room. *)
Theorem ended_session_is_closed_to_joins (d : db) (now sid : Z) (user : req_user) :
  fst (post_end d now sid user) = res_json "Session ended successfully"%string ->
  let d1 := snd (post_end d now sid user) in
  (forall now1 user1,
     post_join d1 now1 sid user1 = (res_error 404 "SESSION_NOT_FOUND", d1))
  /\ (forall now1 user1,
        post_join_second d1 now1 sid user1 = (res_error 400 "SESSION_NOT_ACTIVE", d1))
  /\ (forall now1,
        post_end d1 now1 sid user = (res_error 400 "SESSION_ALREADY_ENDED", d1))
  /\ session_users d1 = session_users d
  /\ (forall sid1, active_participant_count d1 sid1 = active_participant_count d sid1)
  /\ (forall now1 data,
        sessionId data = sid ->
        fst (fst (on_engagement_update d1 now1 data))
        = [{| room := sid; payload := data; emitted_at := now1 |}]).
Proof.
  unfold post_end at 1 2.
  destruct (negb (requireRole [teacher; admin] user)) eqn:Hrole;
    [cbn [fst]; discriminate|].
  destruct (select_session d sid) as [|session l] eqn:Hsel;
    [cbn [fst]; discriminate|].
  destruct (negb (s_teacher_id session =? ru_id user)) eqn:Hteacher;
    [cbn [fst]; discriminate|].
  destruct (session_status_eqb (s_status session) ended) eqn:Hst;
    [cbn [fst]; discriminate|].
  cbn [fst snd]. intros _. cbv zeta.
  set (d1 := update_sessions d sid (ended_at now)).
  assert (Hsel1 : select_session d1 sid = ended_at now session :: map (ended_at now) l).
  { unfold d1. now rewrite select_session_after_end, Hsel. }
  split; [|split; [|split; [|split; [|split]]]].
  - intros now1 user1. unfold post_join, d1.
    now rewrite no_active_session_after_end.
  - intros now1 user1. unfold post_join_second. now rewrite Hsel1.
  - intros now1. unfold post_end. rewrite Hrole, Hsel1.
    cbn [ended_at s_teacher_id s_status]. now rewrite Hteacher.
  - reflexivity.
  - reflexivity.
  - intros now1 data <-. reflexivity.
Qed.

Lemma ended_session_is_closed_to_joins_witness :
  let d := Scenario.small_after_leave in
  let user := Scenario.the_teacher in
  fst (post_end d 50 1 user) = res_json "Session ended successfully"%string
  /\ (let d1 := snd (post_end d 50 1 user) in
      (forall now1 user1,
         post_join d1 now1 1 user1 = (res_error 404 "SESSION_NOT_FOUND", d1))
      /\ (forall now1 user1,
            post_join_second d1 now1 1 user1 = (res_error 400 "SESSION_NOT_ACTIVE", d1))
      /\ (forall now1,
            post_end d1 now1 1 user = (res_error 400 "SESSION_ALREADY_ENDED", d1))
      /\ session_users d1 = session_users d
      /\ (forall sid1, active_participant_count d1 sid1 = active_participant_count d sid1)
      /\ (forall now1 data,
            sessionId data = 1 ->
            fst (fst (on_engagement_update d1 now1 data))
            = [{| room := 1; payload := data; emitted_at := now1 |}])).
Proof.
  intros d user. split; [reflexivity|].
  exact (ended_session_is_closed_to_joins d 50 1 user eq_refl).
Defined.

(** ** Updating a session *)

Lemma updated_session_accepted body now s :
  acceptable body = true ->
  updated_session body now s
  = inr {| s_id := s_id s; s_teacher_id := s_teacher_id s;
           s_title := or_old_value (ub_title body) (s_title s);
           s_description := or_old (ub_description body) (s_description s);
           s_start_time := or_old_value (ub_start_time body) (s_start_time s);
           s_end_time := or_old (ub_end_time body) (s_end_time s);
           s_status := match ub_status body with
                       | Some (Some str) => or_old (status_of_string str) (s_status s)
                       | Some None => no_status
                       | None => s_status s
                       end;
           s_max_students := or_old (ub_max_students body) (s_max_students s);
           s_created_at := s_created_at s; s_updated_at := now |}.
Proof.
  unfold acceptable, updated_session, bind, new_not_null, new_max_students, new_status.
  destruct (ub_title body) as [[t|]|]; cbn [is_json_null negb andb]; try discriminate;
    destruct (ub_start_time body) as [[st|]|]; cbn [is_json_null negb andb];
    try discriminate;
    (destruct (ub_max_students body) as [[m|]|];
     [destruct (INTEGER_in_range m); cbn [andb]; try discriminate| |]);
    (destruct (ub_status body) as [[str|]|];
     [destruct (status_of_string str); cbn [is_null negb]; try discriminate| |]);
    intros _; reflexivity.
Qed.

Lemma updated_session_refused body now s :
  acceptable body = false -> exists e, updated_session body now s = inl e.
Proof.
  unfold acceptable, updated_session, bind, new_not_null, new_max_students, new_status.
  destruct (ub_title body) as [[t|]|]; cbn [is_json_null negb andb]; eauto;
    destruct (ub_start_time body) as [[st|]|]; cbn [is_json_null negb andb]; eauto;
    (destruct (ub_max_students body) as [[m|]|];
     [destruct (INTEGER_in_range m); cbn [andb]; eauto| |]);
    (destruct (ub_status body) as [[str|]|];
     [destruct (status_of_string str); cbn [is_null negb]; eauto| |]);
    discriminate.
Qed.

Lemma put_session_error_unchanged d now sid user body status code :
  fst (put_session d now sid user body) = res_error status code ->
  snd (put_session d now sid user body) = d.
Proof.
  unfold put_session.
  destruct (negb (requireRole [teacher; admin] user)); [reflexivity|].
  destruct (select_session d sid) as [|session l] eqn:Hsel; [reflexivity|].
  destruct (negb (s_teacher_id session =? ru_id user)); [reflexivity|].
  match goal with
  | |- context [if ?c then (res_error 400 "NO_UPDATE_FIELDS", d) else _] => destruct c
  end; [reflexivity|].
  destruct (updated_session body now session); [reflexivity|].
  cbv zeta.
  rewrite select_session_update by (intros s0; apply updated_or_same_keys).
  rewrite Hsel. cbn [map fst snd]. intros H. discriminate H.
Qed.

(** X7: PUT /:id.  For the session's teacher and a body with at least
    one field, the update succeeds exactly when the table accepts the
    body: title and start_time are not null, max_students fits INTEGER
    and status is null or one of the three strings of the CHECK.  Then
    the answer is the session's row with exactly the fields of the body
    replaced (a null description, max_students, end_time or status is
    written as NULL), updated_at set to the time of the request, and id,
    teacher_id and created_at as they were; the sessions with another
    id, the memberships and the metrics are not touched.  Otherwise the
    answer is 500 SESSION_UPDATE_ERROR and nothing is written.  Nothing
    of what POST / requires of a new session is required here: an empty
    title, or an end_time that is not after the start_time, is written
    as given. *)
Theorem put_session_outcome (d : db) (now sid : Z) (user : req_user)
    (body : update_body) (session : sessions_row) (l : list sessions_row) :
  select_session d sid = session :: l ->
  s_teacher_id session = ru_id user ->
  ru_role user <> student ->
  is_null (ub_title body) && is_null (ub_description body)
  && is_null (ub_max_students body) && is_null (ub_start_time body)
  && is_null (ub_end_time body) && is_null (ub_status body) = false ->
  (acceptable body = true ->
   exists r,
     fst (put_session d now sid user body) = res_json r
     /\ s_id r = sid /\ s_teacher_id r = s_teacher_id session
     /\ s_created_at r = s_created_at session /\ s_updated_at r = now
     /\ s_title r = or_old_value (ub_title body) (s_title session)
     /\ s_description r = or_old (ub_description body) (s_description session)
     /\ s_max_students r = or_old (ub_max_students body) (s_max_students session)
     /\ s_start_time r = or_old_value (ub_start_time body) (s_start_time session)
     /\ s_end_time r = or_old (ub_end_time body) (s_end_time session)
     /\ s_status r
        = match ub_status body with
          | Some (Some str) => or_old (status_of_string str) (s_status session)
          | Some None => no_status
          | None => s_status session
          end
     /\ In r (sessions (snd (put_session d now sid user body)))
     /\ (forall s, In s (sessions d) -> s_id s <> sid ->
         In s (sessions (snd (put_session d now sid user body))))
     /\ session_users (snd (put_session d now sid user body)) = session_users d
     /\ engagement_metrics (snd (put_session d now sid user body))
        = engagement_metrics d)
  /\ (acceptable body = false ->
      put_session d now sid user body = (res_error 500 "SESSION_UPDATE_ERROR", d)).
Proof.
  intros Hsel Hteacher Hrole Hfields.
  assert (Hid : s_id session = sid).
  { assert (Hin : In session (select_session d sid)) by (rewrite Hsel; now left).
    unfold select_session in Hin. apply filter_In in Hin. now apply Z.eqb_eq. }
  unfold put_session.
  rewrite requireRole_teacher_admin, negb_involutive.
  replace (user_role_eqb (ru_role user) student) with false
    by (destruct (ru_role user) eqn:E; cbn; congruence).
  rewrite Hsel, Hteacher, Z.eqb_refl, Hfields. cbn [negb].
  split.
  - intros Hacc. rewrite (updated_session_accepted body now session Hacc). cbv zeta.
    rewrite select_session_update by (intros s0; apply updated_or_same_keys).
    rewrite Hsel. cbn [map]. rewrite Hid, Z.eqb_refl. cbn [fst snd].
    unfold updated_or_same at 1.
    rewrite (updated_session_accepted body now session Hacc).
    eexists. split; [reflexivity|].
    cbn [s_id s_teacher_id s_created_at s_updated_at s_title s_description
         s_max_students s_start_time s_end_time s_status].
    repeat (split; [first [reflexivity | exact Hid | exact Hteacher]|]).
    split; [|split; [|split; reflexivity]].
    + unfold update_sessions. cbn [sessions with_sessions].
      apply in_map_iff. exists session.
      unfold updated_or_same. rewrite (updated_session_accepted body now session Hacc).
      rewrite Hid, Z.eqb_refl.
      split; [reflexivity|].
      assert (Hin : In session (select_session d sid)) by (rewrite Hsel; now left).
      unfold select_session in Hin. now apply filter_In in Hin.
    + intros s Hs Hne. unfold update_sessions. cbn [sessions with_sessions].
      apply in_map_iff. exists s. split; [|exact Hs].
      destruct (s_id s =? sid) eqn:E; [apply Z.eqb_eq in E; congruence | reflexivity].
  - intros Hacc.
    destruct (updated_session_refused body now session Hacc) as [e ->]. reflexivity.
Qed.

Lemma put_session_outcome_witness :
  let d := Scenario.small_full in
  let user := Scenario.the_teacher in
  let session := {| s_id := 1; s_teacher_id := 1; s_title := "Algebra";
                    s_description := Some ""%string; s_start_time := 0;
                    s_end_time := Some 3600000000; s_status := active;
                    s_max_students := Some 2; s_created_at := 10;
                    s_updated_at := 10 |} in
  let body := {| ub_title := Some (Some ""%string); ub_description := Some None;
                 ub_max_students := None; ub_start_time := Some (Some 100);
                 ub_end_time := Some (Some 50); ub_status := Some None |} in
  let no_title := {| ub_title := Some None; ub_description := None;
                     ub_max_students := None; ub_start_time := None;
                     ub_end_time := None; ub_status := None |} in
  select_session d 1 = [session]
  /\ fst (post_session d 60 user
            {| cb_title := ""; cb_description := None; cb_max_students := None;
               cb_start_time := Some 100; cb_end_time := Some 50 |})
     = res_error 400 "MISSING_REQUIRED_FIELDS"
  /\ fst (put_session d 60 1 user body)
     = res_json {| s_id := 1; s_teacher_id := 1; s_title := "";
                   s_description := None; s_start_time := 100;
                   s_end_time := Some 50; s_status := no_status;
                   s_max_students := Some 2; s_created_at := 10;
                   s_updated_at := 60 |}
  /\ put_session d 60 1 user no_title = (res_error 500 "SESSION_UPDATE_ERROR", d)
  /\ ((acceptable body = true ->
       exists r,
         fst (put_session d 60 1 user body) = res_json r
         /\ s_id r = 1 /\ s_teacher_id r = s_teacher_id session
         /\ s_created_at r = s_created_at session /\ s_updated_at r = 60
         /\ s_title r = or_old_value (ub_title body) (s_title session)
         /\ s_description r = or_old (ub_description body) (s_description session)
         /\ s_max_students r = or_old (ub_max_students body) (s_max_students session)
         /\ s_start_time r = or_old_value (ub_start_time body) (s_start_time session)
         /\ s_end_time r = or_old (ub_end_time body) (s_end_time session)
         /\ s_status r
            = match ub_status body with
              | Some (Some str) => or_old (status_of_string str) (s_status session)
              | Some None => no_status
              | None => s_status session
              end
         /\ In r (sessions (snd (put_session d 60 1 user body)))
         /\ (forall s, In s (sessions d) -> s_id s <> 1 ->
             In s (sessions (snd (put_session d 60 1 user body))))
         /\ session_users (snd (put_session d 60 1 user body)) = session_users d
         /\ engagement_metrics (snd (put_session d 60 1 user body))
            = engagement_metrics d)
      /\ (acceptable body = false ->
          put_session d 60 1 user body = (res_error 500 "SESSION_UPDATE_ERROR", d))).
Proof.
  intros d user session body no_title.
  split; [reflexivity|]. split; [reflexivity|]. split; [reflexivity|].
  split; [reflexivity|].
  apply (put_session_outcome d 60 1 user body session []).
  - reflexivity.
  - reflexivity.
  - discriminate.
  - reflexivity.
Defined.

(** ** Error answers *)

Lemma same_tables_refl d : same_tables d d.
Proof. repeat split. Qed.

Lemma insert_session_user_error d now sid uid r e d1 :
  insert_session_user d now sid uid r = (inl e, d1) -> same_tables d d1.
Proof.
  unfold insert_session_user.
  destruct (user_role_eqb r admin); [intros [= _ <-]; repeat split|].
  destruct (0 <? COUNT (select_session_user d sid uid)); [intros [= _ <-]; repeat split|].
  destruct (negb (session_exists d sid && user_exists d uid));
    [intros [= _ <-]; repeat split | discriminate].
Qed.

(** X8: no handler of routes/sessions.js answers an error after a
    write.  Whenever POST /:id/join (either handler), POST /:id/leave,
    POST /:id/end or PUT /:id answers an error, every table is as it was
    before the request; and so it is for POST / in a database whose keys
    are unique and whose foreign keys hold, where the membership of the
    teacher cannot fail once the session has been inserted. *)
Theorem error_answers_change_no_table (d : db) (now sid : Z) (user : req_user) :
  (forall status code,
     fst (post_join d now sid user) = res_error status code ->
     same_tables d (snd (post_join d now sid user)))
  /\ (forall status code,
        fst (post_join_second d now sid user) = res_error status code ->
        same_tables d (snd (post_join_second d now sid user)))
  /\ (forall status code,
        fst (post_leave d now sid user) = res_error status code ->
        snd (post_leave d now sid user) = d)
  /\ (forall status code,
        fst (post_end d now sid user) = res_error status code ->
        snd (post_end d now sid user) = d)
  /\ (forall body status code,
        fst (put_session d now sid user body) = res_error status code ->
        snd (put_session d now sid user body) = d)
  /\ (keys_unique d -> referential_integrity d = true ->
      forall body status code,
        fst (post_session d now user body) = res_error status code ->
        same_tables d (snd (post_session d now user body))).
Proof.
  split; [|split; [|split; [|split; [|split]]]].
  - intros status code. unfold post_join.
    destruct (select_active_session d sid) as [|session l];
      [intros _; apply same_tables_refl|].
    destruct (0 <? COUNT (select_session_user d sid (ru_id user)));
      [intros _; apply same_tables_refl|].
    destruct (count_session_users d sid >=? to_number (s_max_students session));
      [intros _; apply same_tables_refl|].
    destruct (insert_session_user d now sid (ru_id user) (ru_role user))
      as [[e|row] d1] eqn:E; cbn [fst snd]; [|discriminate].
    intros _. exact (insert_session_user_error _ _ _ _ _ _ _ E).
  - intros status code. unfold post_join_second.
    destruct (select_session d sid) as [|session l];
      [intros _; apply same_tables_refl|].
    destruct (negb (session_status_eqb (s_status session) active));
      [intros _; apply same_tables_refl|].
    destruct (0 <? COUNT (select_session_user d sid (ru_id user)));
      [intros _; apply same_tables_refl|].
    destruct (count_session_users d sid >=? to_number (s_max_students session));
      [intros _; apply same_tables_refl|].
    destruct (insert_session_user d now sid (ru_id user) (ru_role user))
      as [[e|row] d1] eqn:E; cbn [fst snd]; [|discriminate].
    intros _. exact (insert_session_user_error _ _ _ _ _ _ _ E).
  - intros status code. unfold post_leave.
    destruct (select_session_user d sid (ru_id user)); [reflexivity | discriminate].
  - intros status code. unfold post_end.
    destruct (negb (requireRole [teacher; admin] user)); [reflexivity|].
    destruct (select_session d sid) as [|session l]; [reflexivity|].
    destruct (negb (s_teacher_id session =? ru_id user)); [reflexivity|].
    destruct (session_status_eqb (s_status session) ended); [reflexivity | discriminate].
  - intros body status code. apply put_session_error_unchanged.
  - intros Hk Hri body status code. unfold post_session.
    destruct (negb (requireRole [teacher; admin] user));
      [intros _; apply same_tables_refl|].
    destruct (cb_title body) as [|a t]; [intros _; apply same_tables_refl|].
    destruct (cb_start_time body) as [st|]; [|intros _; apply same_tables_refl].
    destruct (cb_end_time body) as [en|]; [|intros _; apply same_tables_refl].
    destruct (en <=? st); [intros _; apply same_tables_refl|].
    unfold insert_session.
    destruct (user_exists d (ru_id user)) eqn:Hu; cbn [negb];
      [|intros _; repeat split].
    cbn [s_id].
    destruct (no_member_of_next_session d (ru_id user) Hk Hri) as [_ Hnorow].
    match goal with
    | |- context [insert_session_user ?d1 _ _ _ _] => set (dd := d1)
    end.
    assert (H1 : select_session_user dd (sessions_id_seq d) (ru_id user) = [])
      by exact Hnorow.
    assert (H2 : session_exists dd (sessions_id_seq d) = true).
    { unfold session_exists, dd. cbn [sessions with_sessions].
      rewrite existsb_app. cbn [existsb s_id]. rewrite Z.eqb_refl.
      now rewrite orb_true_r. }
    assert (H3 : user_exists dd (ru_id user) = true) by exact Hu.
    unfold insert_session_user. cbn [user_role_eqb].
    rewrite H1, H2, H3. cbn [COUNT List.length Z.of_nat Z.ltb Z.compare andb negb fst].
    discriminate.
Qed.

(** ** Authentication *)

Lemma unique_user_rows d userId :
  NoDup (map u_id (users d)) ->
  (List.length (filter (fun u => (u_id u =? userId)%Z) (users d)) <= 1)%nat.
Proof. intros H. now apply unique_key_one_match. Qed.

Lemma active_of_unique_user d userId :
  NoDup (map u_id (users d)) ->
  filter (fun u => (u_id u =? userId) && u_is_active u) (users d)
  = match filter (fun u => u_id u =? userId) (users d) with
    | user :: _ => if u_is_active user then [user] else []
    | [] => []
    end.
Proof.
  intros Hnd. pose proof (unique_user_rows d userId Hnd) as Hle.
  rewrite filter_andb.
  destruct (filter (fun u => u_id u =? userId) (users d)) as [|user [|u2 l]];
    [reflexivity | | cbn [List.length] in Hle; lia].
  cbn [filter]. now destruct (u_is_active user).
Qed.

(** X9: the three authenticators admit the same users.  optionalAuth sets
    req.user exactly when authenticateToken lets the request pass, and to
    the same user; where user ids are unique (the table's primary key),
    socketAuth accepts a handshake exactly when authenticateToken accepts
    the token, with the same id and role.  Whoever is admitted is an
    active row of the users table whose id is the token's userId. *)
Theorem authenticators_agree (d : db) (t : token) (user : req_user) :
  NoDup (map u_id (users d)) ->
  (optionalAuth d t = Some user <-> authenticate d t = res_json user)
  /\ (socketAuth d t = inr user <-> authenticate d t = res_json user)
  /\ (authenticate d t = res_json user ->
      t = token_for (ru_id user)
      /\ In {| u_id := ru_id user; u_role := ru_role user; u_is_active := true |}
            (users d)).
Proof.
  intros Hnd. destruct t as [ | | | |userId]; cbn [optionalAuth socketAuth authenticate];
    try (split; [split; discriminate | split; [split; discriminate | discriminate]]).
  unfold authenticateToken. rewrite active_of_unique_user by exact Hnd.
  destruct (filter (fun u => u_id u =? userId) (users d)) as [|u l] eqn:E.
  { split; [split; discriminate | split; [split; discriminate | discriminate]]. }
  assert (Hin : In u (users d) /\ u_id u = userId).
  { assert (H : In u (filter (fun u => u_id u =? userId) (users d)))
      by (rewrite E; now left).
    apply filter_In in H. now rewrite Z.eqb_eq in H. }
  destruct (u_is_active u) eqn:Ea; cbn [negb].
  - split; [|split].
    + split; intros [= <-]; reflexivity.
    + split; intros [= <-]; reflexivity.
    + intros [= <-]. cbn [ru_id ru_role]. destruct Hin as [Hin Hid].
      split; [now rewrite Hid|]. destruct u as [i r a]. cbn in *. now subst.
  - split; [split; discriminate | split; [split; discriminate | discriminate]].
Qed.

Lemma authenticators_agree_witness :
  let d := Scenario.db0 in
  let user := Scenario.the_student 2 in
  NoDup (map u_id (users d))
  /\ ((optionalAuth d (token_for 2) = Some user
       <-> authenticate d (token_for 2) = res_json user)
      /\ (socketAuth d (token_for 2) = inr user
          <-> authenticate d (token_for 2) = res_json user)
      /\ (authenticate d (token_for 2) = res_json user ->
          token_for 2 = token_for (ru_id user)
          /\ In {| u_id := ru_id user; u_role := ru_role user; u_is_active := true |}
                (users d))).
Proof.
  intros d user.
  assert (Hnd : NoDup (map u_id (users d))).
  { cbn. repeat (constructor; [cbn; intuition discriminate|]). constructor. }
  split; [exact Hnd|].
  exact (authenticators_agree d (token_for 2) user Hnd).
Defined.

(** ** The error handler *)

Ltac by_error_name err :=
  destruct (String.eqb_spec (err_name err) "ValidationError");
  [|destruct (String.eqb_spec (err_name err) "UnauthorizedError");
    [|destruct (String.eqb_spec (err_name err) "ForbiddenError");
      [|destruct (String.eqb_spec (err_name err) "NotFoundError");
        [|destruct (String.eqb_spec (err_name err) "ConflictError");
          [|destruct (String.eqb_spec (err_name err) "RateLimitError")]]]]].

Lemma or_string_not_empty s fallback :
  fallback <> EmptyString -> or_string s fallback <> EmptyString.
Proof. destruct s; cbn; [auto | discriminate]. Qed.

Lemma or_default_not_0 x fallback : fallback <> 0 -> or_default x fallback <> 0.
Proof.
  unfold or_default. destruct x as [z|]; [|auto].
  destruct (z =? 0) eqn:E; [auto | intros _; now apply Z.eqb_neq].
Qed.

(** X10: what errorHandler sends.  In production an answer with status
    500 never carries the error's own message or code.  The stack is
    sent in development only.  For the six named kinds of error the
    status, message and code are fixed by the name alone.  For any other
    error the status is the error's statusCode, or 500 when it has none,
    and unless production masks a 500 the message and code of the error
    are sent as they are, with the defaults for missing ones.  The
    status is never 0 and neither error nor code is ever empty. *)
Theorem errorHandler_outcomes (env : node_env) (err : js_error) :
  let r := errorHandler env err in
  let named := ["ValidationError"; "UnauthorizedError"; "ForbiddenError";
                "NotFoundError"; "ConflictError"; "RateLimitError"]%string in
  (env = production -> er_statusCode r = 500 ->
   er_error r = "Internal Server Error"%string /\ er_code r = "INTERNAL_ERROR"%string)
  /\ (er_stack_exposed r = true <-> env = development)
  /\ (In (err_name err) named ->
      forall err2, err_name err2 = err_name err ->
                   errorHandler env err2 = r)
  /\ (~ In (err_name err) named ->
      er_statusCode r = or_default (err_statusCode err) 500
      /\ (env <> production \/ er_statusCode r <> 500 ->
          er_error r = or_string (err_message err) "Internal Server Error"
          /\ er_code r = or_string (err_code err) "INTERNAL_ERROR"))
  /\ er_statusCode r <> 0 /\ er_error r <> EmptyString /\ er_code r <> EmptyString.
Proof.
  cbv zeta. split; [|split; [|split; [|split]]].
  - intros -> H. unfold errorHandler in *.
    by_error_name err; cbn [er_statusCode er_error er_code] in *;
      try discriminate H.
    destruct (or_default (err_statusCode err) 500 =? 500) eqn:E;
      cbn [er_statusCode er_error er_code] in *; [now split|].
    apply Z.eqb_neq in E. contradiction.
  - unfold errorHandler.
    by_error_name err; destruct env;
      repeat match goal with
             | |- context [if ?c then _ else _] => destruct c
             end;
      cbn [er_stack_exposed]; split; congruence.
  - intros Hin err2 Hname. unfold errorHandler. rewrite Hname.
    by_error_name err; try reflexivity.
    cbn [In] in Hin. intuition congruence.
  - intros Hnot. unfold errorHandler.
    by_error_name err;
      try (exfalso; apply Hnot; cbn [In]; intuition congruence).
    destruct env; cbn [er_statusCode er_error er_code].
    + destruct (or_default (err_statusCode err) 500 =? 500) eqn:E;
        cbn [er_statusCode er_error er_code].
      * split; [reflexivity|]. apply Z.eqb_eq in E.
        intros [H | H]; [congruence | contradiction].
      * split; [reflexivity | now split].
    + split; [reflexivity | now split].
    + split; [reflexivity | now split].
  - unfold errorHandler.
    assert (H1 := or_default_not_0 (err_statusCode err) 500).
    assert (H2 := or_string_not_empty (err_message err) "Internal Server Error").
    assert (H3 := or_string_not_empty (err_code err) "INTERNAL_ERROR").
    by_error_name err; destruct env;
      repeat match goal with
             | |- context [if ?c then _ else _] => destruct c
             end;
      cbn [er_statusCode er_error er_code];
      (split; [|split]); first [discriminate | apply H1; discriminate
                               | apply H2; discriminate | apply H3; discriminate].
Qed.

(** ** Frames *)

(** The engagement score that POST /process-frame generates, an integer
    from 60 to 99, is outside the bounds of its column. *)
Lemma mock_score_out_of_range (random : Q) :
  (0 <= random)%Q ->
  engagement_score_check (inject_Z (Qfloor (60 + random * 40))) = false.
Proof.
  intros H. unfold engagement_score_check.
  assert (H60 : 60 <= Qfloor (60 + random * 40)).
  { change 60 with (Qfloor (inject_Z 60)) at 1. apply Qfloor_resp_le.
    rewrite <- (Qplus_0_r (inject_Z 60)) at 1.
    apply Qplus_le_compat; [apply Qle_refl|].
    apply Qmult_le_0_compat; [exact H | discriminate]. }
  apply andb_false_iff. right.
  destruct (Qle_bool (inject_Z (Qfloor (60 + random * 40))) 1) eqn:E; [|reflexivity].
  apply Qle_bool_iff in E. change 1%Q with (inject_Z 1) in E.
  rewrite <- Zle_Qle in E. lia.
Qed.

(** X11: POST /process-frame never returns a detection result and never
    records a metric.  Its INSERT names the column user_id, which
    engagement_metrics does not have, and is refused (with the column,
    the generated engagement score, an integer from 60 to 99, would be
    refused by a column that accepts values from 0 to 1 only): whatever
    Math.random() yields, a request with a frame, a studentId and a
    sessionId is answered 500 FRAME_PROCESSING_ERROR, any other request
    400, and every table is what it was. *)
Theorem process_frame_never_stores (d : db) (now : Z) (frame : bool)
    (studentId sessionId : option Z) (random1 random2 random3 : Q) :
  (0 <= random3)%Q ->
  fst (post_process_frame d now frame studentId sessionId random1 random2 random3)
  = (if negb frame then res_error 400 "NO_FRAME_DATA"
     else if is_null studentId || is_null sessionId
          then res_error 400 "MISSING_PARAMETERS"
          else res_error 500 "FRAME_PROCESSING_ERROR")
  /\ same_tables d
       (snd (post_process_frame d now frame studentId sessionId random1 random2 random3)).
Proof.
  intros H. unfold post_process_frame.
  destruct frame; cbn [negb]; [|split; [reflexivity | apply same_tables_refl]].
  destruct studentId as [studentId|], sessionId as [sessionId|]; cbn [is_null orb];
    rewrite ?insert_engagement_metric_refused;
    (split; [reflexivity | apply same_tables_refl]).
Qed.

Lemma process_frame_never_stores_witness :
  (0 <= 1 # 2)%Q
  /\ (fst (post_process_frame Scenario.small_full 60 true (Some 2) (Some 1)
             (1 # 10) (1 # 2) (1 # 2))
      = (if negb true then res_error 400 "NO_FRAME_DATA"
         else if is_null (Some 2) || is_null (Some 1)
              then res_error 400 "MISSING_PARAMETERS"
              else res_error 500 "FRAME_PROCESSING_ERROR")
      /\ same_tables Scenario.small_full
           (snd (post_process_frame Scenario.small_full 60 true (Some 2) (Some 1)
                   (1 # 10) (1 # 2) (1 # 2)))).
Proof.
  assert (H : (0 <= 1 # 2)%Q) by discriminate.
  split; [exact H|].
  exact (process_frame_never_stores Scenario.small_full 60 true (Some 2) (Some 1)
           (1 # 10) (1 # 2) (1 # 2) H).
Defined.

(** ** The table of metrics *)

Lemma table_write_keeps_metrics d d1 :
  table_write d d1 ->
  engagement_metrics d1 = engagement_metrics d
  /\ engagement_metrics_id_seq d1 = engagement_metrics_id_seq d.
Proof.
  intros [now tid title descr m st en | now sid uid r | now sid uid e c s
         | sid f Hf | now sid uid | now sid uid].
  - unfold insert_session. destruct (negb (user_exists d tid)); now split.
  - unfold insert_session_user.
    destruct (user_role_eqb r admin); [now split|].
    destruct (0 <? COUNT (select_session_user d sid uid)); [now split|].
    destruct (negb (session_exists d sid && user_exists d uid)); now split.
  - rewrite insert_engagement_metric_refused. now split.
  - now split.
  - now split.
  - now split.
Qed.

Lemma table_writes_keep_metrics d d1 :
  table_writes d d1 ->
  engagement_metrics d1 = engagement_metrics d
  /\ engagement_metrics_id_seq d1 = engagement_metrics_id_seq d.
Proof.
  induction 1 as [|d1 d2 _ [IH1 IH2] Hw]; [now split|].
  destruct (table_write_keeps_metrics d1 d2 Hw) as [H1 H2]. split; congruence.
Qed.

Lemma post_process_frame_keeps_metrics d now frame studentId sessionId
    random1 random2 random3 :
  snd (post_process_frame d now frame studentId sessionId random1 random2 random3) = d.
Proof.
  unfold post_process_frame. destruct frame; [|reflexivity].
  destruct studentId, sessionId; reflexivity.
Qed.

Lemma program_step_keeps_metrics d d1 :
  program_step d d1 ->
  engagement_metrics d1 = engagement_metrics d
  /\ engagement_metrics_id_seq d1 = engagement_metrics_id_seq d.
Proof.
  intros [d2 Hstep | now frame studentId sessionId random1 random2 random3].
  - exact (table_writes_keep_metrics d d2 (api_step_writes d d2 Hstep)).
  - rewrite post_process_frame_keeps_metrics. now split.
Qed.

(** X12: no operation of the program writes engagement_metrics.  The two
    statements that insert into it, the one of
    SessionManager.storeEngagementMetric and the one of
    POST /process-frame, name the column user_id, which the table does
    not have, and are refused whatever their values; every other
    statement writes to sessions or to session_users.  So along any
    sequence of operations, frames and engagement updates included, the
    rows of engagement_metrics and its sequence stay what they were at
    the start, and a database that starts without metrics never has
    one: every session's metrics and time_data stay empty. *)
Theorem metrics_table_is_never_written (d0 d : db) :
  program_steps d0 d ->
  engagement_metrics d = engagement_metrics d0
  /\ engagement_metrics_id_seq d = engagement_metrics_id_seq d0
  /\ (engagement_metrics d0 = [] ->
      forall sid, select_metrics d sid = [] /\ time_data_query d sid = []).
Proof.
  intros Hsteps.
  assert (H : engagement_metrics d = engagement_metrics d0
              /\ engagement_metrics_id_seq d = engagement_metrics_id_seq d0).
  { induction Hsteps as [|d1 d2 _ [IH1 IH2] Hstep]; [now split|].
    destruct (program_step_keeps_metrics d1 d2 Hstep) as [H1 H2].
    split; congruence. }
  destruct H as [H1 H2]. split; [exact H1|]. split; [exact H2|].
  intros Hempty sid.
  assert (Hsel : select_metrics d sid = []).
  { unfold select_metrics. rewrite H1, Hempty. reflexivity. }
  split; [exact Hsel|]. unfold time_data_query. rewrite Hsel. reflexivity.
Qed.

Lemma metrics_table_is_never_written_witness :
  let d0 := Scenario.db0 in
  let d1 := Scenario.small_full in
  let d2 := snd (on_engagement_update d1 41
                   (Scenario.metric 1 2 "attentive" (9 # 10) (4 # 5))) in
  let d := snd (post_process_frame d2 42 true (Some 2) (Some 1) (1 # 2) (1 # 2) (1 # 2)) in
  program_steps d0 d
  /\ (engagement_metrics d = engagement_metrics d0
      /\ engagement_metrics_id_seq d = engagement_metrics_id_seq d0
      /\ (engagement_metrics d0 = [] ->
          forall sid, select_metrics d sid = [] /\ time_data_query d sid = [])).
Proof.
  intros d0 d1 d2 d.
  assert (Hsteps : program_steps d0 d).
  { apply (program_cons d0 d2 d).
    - apply (program_cons d0 d1 d2).
      + apply (program_cons d0 Scenario.small_created d1).
        * apply (program_cons d0 d0 Scenario.small_created); [apply program_nil|].
          apply program_api.
          apply (api_create d0 10 Scenario.the_teacher (Scenario.lesson (Some 2))).
        * apply program_api, api_engine.
          apply (step_join Scenario.small_created 30 1 (Scenario.the_student 2)).
      + apply program_api, api_engine.
        apply (step_metric d1 41 (Scenario.metric 1 2 "attentive" (9 # 10) (4 # 5))).
    - apply (program_frame d2 42 true (Some 2) (Some 1) (1 # 2) (1 # 2) (1 # 2)). }
  split; [exact Hsteps|].
  exact (metrics_table_is_never_written d0 d Hsteps).
Defined.

(** ** The session report, by student and by minute *)

Lemma Qsum_cons x l : Qsum (x :: l) = (x + Qsum l)%Q.
Proof. reflexivity. Qed.

Section GroupSums.
Context {A K : Type} (eqb : K -> K -> bool) (key : A -> K).
Hypothesis eqb_eq : forall a b, eqb a b = true <-> a = b.

Lemma group_not_empty rows k :
  In k (distinct_keys eqb key rows) ->
  filter (fun r => eqb (key r) k) rows <> [].
Proof.
  intros Hk. apply (in_distinct_keys eqb key eqb_eq) in Hk.
  destruct Hk as (r & Hin & Hkey). intros E.
  assert (H : In r (filter (fun r => eqb (key r) k) rows)).
  { apply filter_In. split; [exact Hin | now apply eqb_eq]. }
  rewrite E in H. exact H.
Qed.
End GroupSums.

Section OrderBySorted.
Context {A : Type} (key : A -> Z).

Lemma insert_sorted_strict x l :
  StronglySorted (fun a b => key a < key b) l ->
  ~ In (key x) (map key l) ->
  StronglySorted (fun a b => key a < key b) (insert_sorted key x l).
Proof.
  induction 1 as [|y r Hr IH Hy]; intros Hnot; cbn [insert_sorted].
  - repeat constructor.
  - cbn [map In] in Hnot.
    destruct (key x <=? key y) eqn:E.
    + apply Z.leb_le in E.
      assert (Hlt : key x < key y) by lia.
      constructor; [now constructor|].
      constructor; [exact Hlt|].
      rewrite Forall_forall in *. intros z Hz. specialize (Hy z Hz). lia.
    + apply Z.leb_gt in E. constructor.
      * apply IH. tauto.
      * rewrite Forall_forall in *. intros z Hz.
        apply in_insert_sorted in Hz. destruct Hz as [-> | Hz]; [exact E | now apply Hy].
Qed.

(** ORDER BY a column without duplicates gives strictly increasing
    values. *)
Lemma order_by_strict l :
  NoDup (map key l) ->
  StronglySorted (fun a b => key a < key b) (order_by key l).
Proof.
  induction l as [|x l IH]; cbn [map order_by fold_right]; intros Hnd.
  - constructor.
  - inversion Hnd as [|? ? Hnotin Hnd1]; subst.
    apply insert_sorted_strict; [now apply IH|].
    intros Hin. apply Hnotin.
    apply in_map_iff in Hin. destruct Hin as (y & Hk & Hy).
    apply in_order_by in Hy. apply in_map_iff. eauto.
Qed.

Lemma length_insert_sorted x l :
  List.length (insert_sorted key x l) = S (List.length l).
Proof.
  induction l as [|z l IH]; cbn [insert_sorted]; [reflexivity|].
  destruct (key x <=? key z); cbn [List.length]; [reflexivity | now rewrite IH].
Qed.

Lemma length_order_by l : List.length (order_by key l) = List.length l.
Proof.
  induction l as [|x l IH]; [reflexivity|].
  cbn [order_by fold_right]. fold (order_by key l).
  now rewrite length_insert_sorted, IH.
Qed.
End OrderBySorted.

Lemma StronglySorted_map {A} (key : A -> Z) l :
  StronglySorted (fun a b => key a < key b) l -> StronglySorted Z.lt (map key l).
Proof.
  induction 1 as [|x l Hl IH Hx]; cbn [map]; constructor; [exact IH|].
  rewrite Forall_forall in *. intros k Hk.
  apply in_map_iff in Hk. destruct Hk as (y & <- & Hy). now apply Hx.
Qed.

Lemma time_data_buckets d sid :
  map time_bucket
    (map (fun g =>
            {| time_bucket := fst g;
               td_avg_engagement := AVG (map em_engagement_score (snd g));
               metric_count := COUNT (snd g) |})
         (group_by Z.eqb (fun em => date_trunc_minute (em_timestamp em))
            (select_metrics d sid)))
  = distinct_keys Z.eqb (fun em => date_trunc_minute (em_timestamp em))
      (select_metrics d sid).
Proof.
  unfold group_by. rewrite !map_map. cbn [time_bucket fst]. apply map_id.
Qed.

(** X13: time_data of the session report lists the minutes in strictly
    increasing order, so no minute appears twice.  Each bucket starts on
    a full minute, holds at least one metric and has an average; there
    is no bucket for a minute without metrics. *)
Theorem time_data_is_strictly_ordered (d : db) (sid : Z) :
  StronglySorted Z.lt (map time_bucket (time_data_query d sid))
  /\ NoDup (map time_bucket (time_data_query d sid))
  /\ (forall b, In b (time_data_query d sid) ->
      time_bucket b mod usecs_per_minute = 0
      /\ 1 <= metric_count b
      /\ exists avg, td_avg_engagement b = Some avg).
Proof.
  assert (Hs : StronglySorted Z.lt (map time_bucket (time_data_query d sid))).
  { apply StronglySorted_map. unfold time_data_query. apply order_by_strict.
    rewrite time_data_buckets.
    apply (NoDup_distinct_keys Z.eqb _ Z.eqb_eq). }
  split; [exact Hs|]. split.
  - clear -Hs. induction Hs as [|k l Hl IH Hk]; constructor; [|exact IH].
    intros Hin. rewrite Forall_forall in Hk. specialize (Hk k Hin). lia.
  - intros b Hb. apply in_time_data_query in Hb. destruct Hb as (k & Hk & ->).
    cbv zeta. cbn [time_bucket metric_count td_avg_engagement].
    pose proof (group_not_empty Z.eqb _ Z.eqb_eq _ _ Hk) as Hne.
    apply (in_distinct_keys Z.eqb _ Z.eqb_eq) in Hk.
    destruct Hk as (em & _ & <-).
    split; [|split].
    + destruct (date_trunc_minute_floor (em_timestamp em)) as [-> _].
      rewrite Z.mul_comm. apply Z.mod_mul. discriminate.
    + destruct (filter _ (select_metrics d sid)) as [|x g]; [congruence|].
      unfold COUNT. cbn [List.length]. lia.
    + destruct (filter _ (select_metrics d sid)) as [|x g]; [congruence|].
      cbn [map AVG]. eexists. reflexivity.
Qed.

(** X14: the session report is never compiled.  After the access check
    and the lookup of the session, the second statement of the report,
    the engagement summary, groups by user_id, a column that
    engagement_metrics does not have (the overall statistics name it as
    well): the statement is refused and the handler's catch answers.
    So GET /api/reports/session/:sessionId answers
    SESSION_ACCESS_DENIED to a caller without a membership row,
    SESSION_NOT_FOUND to a caller with a row for a session that does not
    exist, and 500 REPORT_GENERATION_ERROR to every member of an
    existing session, whatever the tables hold; no caller gets a
    report. *)
Theorem session_report_is_never_compiled (d : db) (now sid : Z) (user : req_user) :
  engagement_summary_query d sid = inl undefined_column
  /\ overall_stats_query d sid = inl undefined_column
  /\ (select_session_user d sid (ru_id user) = [] ->
      get_session_report d now sid user = res_error 403 "SESSION_ACCESS_DENIED")
  /\ (select_session_user d sid (ru_id user) <> [] -> session_exists d sid = false ->
      get_session_report d now sid user = res_error 404 "SESSION_NOT_FOUND")
  /\ (select_session_user d sid (ru_id user) <> [] -> session_exists d sid = true ->
      get_session_report d now sid user = res_error 500 "REPORT_GENERATION_ERROR")
  /\ (forall r, get_session_report d now sid user <> res_json r).
Proof.
  split; [reflexivity|]. split; [reflexivity|].
  rewrite get_session_report_outcome.
  destruct (select_session_user d sid (ru_id user)) as [|su l].
  - repeat split; congruence.
  - destruct (select_session d sid) as [|s l0] eqn:Es.
    + apply session_exists_select in Es. repeat split; congruence.
    + assert (Hex : session_exists d sid <> false).
      { intros H. apply session_exists_select in H. congruence. }
      repeat split; congruence.
Qed.

(** X15: the two routes of routes/metrics.js that read a student's
    metrics answer no one.  GET /api/metrics/session/:sessionId joins on
    em.user_id in its first statement, GET /api/metrics/user/:userId
    filters on em.user_id in both of its statements, and
    engagement_metrics has no such column.  So the first route answers
    SESSION_ACCESS_DENIED to a caller without a membership row and 500
    METRICS_FETCH_ERROR to every other; the second answers ACCESS_DENIED
    to a student who asks for another user and 500
    USER_METRICS_FETCH_ERROR to every other. *)
Theorem metrics_routes_answer_no_one (d : db) (sid userId : Z) (user : req_user) :
  session_metrics_query d sid = inl undefined_column
  /\ user_metrics_query d userId = inl undefined_column
  /\ user_summary_query d userId = inl undefined_column
  /\ (select_session_user d sid (ru_id user) = [] ->
      get_session_metrics d sid user = res_error 403 "SESSION_ACCESS_DENIED")
  /\ (select_session_user d sid (ru_id user) <> [] ->
      get_session_metrics d sid user = res_error 500 "METRICS_FETCH_ERROR")
  /\ (ru_id user <> userId /\ ru_role user = student ->
      get_user_metrics d userId user = res_error 403 "ACCESS_DENIED")
  /\ (ru_id user = userId \/ ru_role user <> student ->
      get_user_metrics d userId user = res_error 500 "USER_METRICS_FETCH_ERROR")
  /\ (forall m, get_session_metrics d sid user <> res_json m)
  /\ (forall m, get_user_metrics d userId user <> res_json m).
Proof.
  split; [reflexivity|]. split; [reflexivity|]. split; [reflexivity|].
  rewrite get_session_metrics_outcome.
  assert (Hum : get_user_metrics d userId user
                = if negb (ru_id user =? userId)
                     && negb (user_role_eqb (ru_role user) teacher)
                     && negb (user_role_eqb (ru_role user) admin)
                  then res_error 403 "ACCESS_DENIED"
                  else res_error 500 "USER_METRICS_FETCH_ERROR").
  { unfold get_user_metrics.
    destruct (negb (ru_id user =? userId) && negb (user_role_eqb (ru_role user) teacher)
              && negb (user_role_eqb (ru_role user) admin)); reflexivity. }
  rewrite Hum.
  split; [|split; [|split; [|split; [|split]]]].
  - intros ->. reflexivity.
  - destruct (select_session_user d sid (ru_id user)); [congruence | reflexivity].
  - intros [Hne Hrole]. apply Z.eqb_neq in Hne. now rewrite Hne, Hrole.
  - intros [-> | Hrole]; [now rewrite Z.eqb_refl|].
    destruct (ru_role user); cbn; rewrite ?andb_false_r; try reflexivity.
    congruence.
  - intros m. destruct (select_session_user d sid (ru_id user)); discriminate.
  - intros m.
    destruct (negb (ru_id user =? userId) && negb (user_role_eqb (ru_role user) teacher)
              && negb (user_role_eqb (ru_role user) admin)); discriminate.
Qed.

Lemma Qsum_between (a b : Q) l :
  (forall x, In x l -> (a <= x <= b)%Q) ->
  (a * inject_Z (Z.of_nat (List.length l)) <= Qsum l)%Q
  /\ (Qsum l <= b * inject_Z (Z.of_nat (List.length l)))%Q.
Proof.
  induction l as [|x l IH]; intros H.
  - cbn [List.length Qsum fold_right Z.of_nat]. rewrite !Qmult_0_r.
    split; apply Qle_refl.
  - destruct IH as [IH1 IH2]; [intros; apply H; now right|].
    destruct (H x (or_introl eq_refl)) as [Hx1 Hx2].
    rewrite Qsum_cons. cbn [List.length]. rewrite Nat2Z.inj_succ. unfold Z.succ.
    rewrite inject_Z_plus. split.
    + setoid_replace (a * (inject_Z (Z.of_nat (List.length l)) + inject_Z 1))%Q
        with (a + a * inject_Z (Z.of_nat (List.length l)))%Q by ring.
      now apply Qplus_le_compat.
    + setoid_replace (b * (inject_Z (Z.of_nat (List.length l)) + inject_Z 1))%Q
        with (b + b * inject_Z (Z.of_nat (List.length l)))%Q by ring.
      now apply Qplus_le_compat.
Qed.

Lemma AVG_between (a b : Q) l m :
  (forall x, In x l -> (a <= x <= b)%Q) -> AVG l = Some m -> (a <= m <= b)%Q.
Proof.
  intros Hl E. pose proof (AVG_spec l) as H. rewrite E in H.
  destruct H as [Hne Hm].
  assert (Hpos : (0 < inject_Z (Z.of_nat (List.length l)))%Q).
  { change 0%Q with (inject_Z 0). rewrite <- Zlt_Qlt.
    destruct l; [congruence | cbn [List.length]; lia]. }
  destruct (Qsum_between a b l Hl) as [H1 H2].
  split; apply (Qmult_le_r _ _ _ Hpos); now rewrite Hm.
Qed.

(** ** The class overview and the dashboard *)

Lemma fold_set_emotion_attentive (count : string -> Z) ks e :
  attentive (fold_left set_emotion (map (fun k => (k, count k)) ks) e)
  = if existsb (String.eqb "attentive") ks then count "attentive"%string else attentive e.
Proof.
  revert e. induction ks as [|k ks IH]; intros e; [reflexivity|].
  cbn [map fold_left existsb]. rewrite IH.
  destruct (String.eqb_spec "attentive" k) as [<-|Hne]; cbn [orb].
  - now destruct (existsb _ ks).
  - destruct (existsb _ ks); [reflexivity|]. case_emotion k.
Qed.

Lemma emotionDistribution_attentive d now :
  attentive (emotionDistribution d now) = count_recent d now "attentive".
Proof.
  unfold emotionDistribution. rewrite emotion_counts_keys, fold_set_emotion_attentive.
  destruct (existsb _ _) eqn:E; [reflexivity|].
  symmetry. now apply count_recent_absent.
Qed.

Lemma fold_set_emotion_neutral (count : string -> Z) ks e :
  neutral (fold_left set_emotion (map (fun k => (k, count k)) ks) e)
  = if existsb (String.eqb "neutral") ks then count "neutral"%string else neutral e.
Proof.
  revert e. induction ks as [|k ks IH]; intros e; [reflexivity|].
  cbn [map fold_left existsb]. rewrite IH.
  destruct (String.eqb_spec "neutral" k) as [<-|Hne]; cbn [orb].
  - now destruct (existsb _ ks).
  - destruct (existsb _ ks); [reflexivity|]. case_emotion k.
Qed.

Lemma emotionDistribution_neutral d now :
  neutral (emotionDistribution d now) = count_recent d now "neutral".
Proof.
  unfold emotionDistribution. rewrite emotion_counts_keys, fold_set_emotion_neutral.
  destruct (existsb _ _) eqn:E; [reflexivity|].
  symmetry. now apply count_recent_absent.
Qed.

Lemma fold_set_emotion_happy (count : string -> Z) ks e :
  happy (fold_left set_emotion (map (fun k => (k, count k)) ks) e)
  = if existsb (String.eqb "happy") ks then count "happy"%string else happy e.
Proof.
  revert e. induction ks as [|k ks IH]; intros e; [reflexivity|].
  cbn [map fold_left existsb]. rewrite IH.
  destruct (String.eqb_spec "happy" k) as [<-|Hne]; cbn [orb].
  - now destruct (existsb _ ks).
  - destruct (existsb _ ks); [reflexivity|]. case_emotion k.
Qed.

Lemma emotionDistribution_happy d now :
  happy (emotionDistribution d now) = count_recent d now "happy".
Proof.
  unfold emotionDistribution. rewrite emotion_counts_keys, fold_set_emotion_happy.
  destruct (existsb _ _) eqn:E; [reflexivity|].
  symmetry. now apply count_recent_absent.
Qed.

Lemma overview_emotions_disjoint d now :
  count_recent d now "attentive" + count_recent d now "confused"
  + count_recent d now "bored" + count_recent d now "neutral"
  + count_recent d now "happy"
  = COUNT (filter (fun p => existsb (String.eqb (em_emotion (fst p))) mockEmotions)
             (recent_metrics d now)).
Proof.
  unfold count_recent, COUNT, mockEmotions.
  induction (recent_metrics d now) as [|x g IH]; [reflexivity|].
  cbn [filter existsb] in *.
  destruct (String.eqb_spec (em_emotion (fst x)) "attentive") as [E1|E1];
    destruct (String.eqb_spec (em_emotion (fst x)) "confused") as [E2|E2];
    destruct (String.eqb_spec (em_emotion (fst x)) "bored") as [E3|E3];
    destruct (String.eqb_spec (em_emotion (fst x)) "neutral") as [E4|E4];
    destruct (String.eqb_spec (em_emotion (fst x)) "happy") as [E5|E5];
    try (exfalso; congruence);
    cbn [orb List.length]; lia.
Qed.

Lemma recent_avg_in_range d now m :
  metrics_in_range d = true -> recent_avg_engagement d now = Some m -> (0 <= m <= 1)%Q.
Proof.
  intros Hck E. unfold recent_avg_engagement in E.
  apply (AVG_between 0%Q 1%Q _ m) in E; [exact E|].
  intros x Hx. apply in_map_iff in Hx.
  destruct Hx as (p & <- & Hp). apply in_recent_metrics in Hp.
  unfold metrics_in_range in Hck. rewrite forallb_forall in Hck.
  apply Hck, andb_true_iff, proj2, engagement_score_check_spec in Hp.
  exact Hp.
Qed.

Lemma round_of_unit_interval (q : Q) :
  (0 <= q <= 1)%Q -> Qfloor (q + (1 # 2)) = 0 \/ Qfloor (q + (1 # 2)) = 1.
Proof.
  intros [H0 H1].
  assert (Hlo : 0 <= Qfloor (q + (1 # 2))).
  { change 0 with (Qfloor (1 # 2)). apply Qfloor_resp_le.
    rewrite <- (Qplus_0_l (1 # 2)) at 1.
    apply Qplus_le_compat; [exact H0 | apply Qle_refl]. }
  assert (Hhi : Qfloor (q + (1 # 2)) <= 1).
  { change 1 with (Qfloor (1 + (1 # 2))) at 2. apply Qfloor_resp_le.
    apply Qplus_le_compat; [exact H1 | apply Qle_refl]. }
  lia.
Qed.

(** X16: the numbers of the class overview and what the dashboard makes
    of them.  Each of the five fields of emotionDistribution is the
    number of recent metric rows with that emotion; rows with any other
    emotion are counted in none of them, so the five add up to at most
    the number of recent rows.  Where the stored scores respect the
    column's CHECK, averageEngagement, the rounded average of scores
    between 0 and 1, is 0 or 1; the dashboard's generateRecommendations,
    which tests it against 60, then gives exactly the server's alerts,
    followed by the praise when more than 70 recent rows are
    attentive, the low-engagement recommendation always included. *)
Theorem class_overview_numbers (d : db) (now : Z) (user : req_user)
    (o : class_overview) :
  get_class_overview d now user = res_json o ->
  attentive (co_emotionDistribution o) = count_recent d now "attentive"
  /\ confused (co_emotionDistribution o) = count_recent d now "confused"
  /\ bored (co_emotionDistribution o) = count_recent d now "bored"
  /\ neutral (co_emotionDistribution o) = count_recent d now "neutral"
  /\ happy (co_emotionDistribution o) = count_recent d now "happy"
  /\ attentive (co_emotionDistribution o) + confused (co_emotionDistribution o)
     + bored (co_emotionDistribution o) + neutral (co_emotionDistribution o)
     + happy (co_emotionDistribution o)
     = COUNT (filter (fun p => existsb (String.eqb (em_emotion (fst p))) mockEmotions)
                (recent_metrics d now))
  /\ attentive (co_emotionDistribution o) + confused (co_emotionDistribution o)
     + bored (co_emotionDistribution o) + neutral (co_emotionDistribution o)
     + happy (co_emotionDistribution o) <= COUNT (recent_metrics d now)
  /\ (metrics_in_range d = true ->
      (averageEngagement o = 0 \/ averageEngagement o = 1)
      /\ generateRecommendations o
         = alerts o
           ++ (if 70 <? count_recent d now "attentive" then [great_engagement] else [])
      /\ In low_engagement_alert (generateRecommendations o)).
Proof.
  unfold get_class_overview.
  destruct (negb (requireRole [teacher; admin] user)); [discriminate|].
  intros [= <-]. cbn [co_emotionDistribution averageEngagement alerts].
  rewrite emotionDistribution_attentive, emotionDistribution_confused,
    emotionDistribution_bored, emotionDistribution_neutral, emotionDistribution_happy.
  repeat (split; [reflexivity|]).
  split; [apply overview_emotions_disjoint|].
  split; [rewrite overview_emotions_disjoint; unfold COUNT;
          apply Nat2Z.inj_le, filter_length_le|].
  intros Hck.
  assert (Havg : round_or_0 (recent_avg_engagement d now) = 0
                 \/ round_or_0 (recent_avg_engagement d now) = 1).
  { unfold round_or_0. destruct (recent_avg_engagement d now) as [m|] eqn:E; [|now left].
    apply round_of_unit_interval. now apply (recent_avg_in_range d now). }
  assert (Hjs : js_lt (recent_avg_engagement d now) 60 = true).
  { apply js_lt_spec. destruct (recent_avg_engagement d now) as [m|] eqn:E; [|reflexivity].
    apply Qle_lt_trans with (y := 1%Q); [|reflexivity].
    now apply (recent_avg_in_range d now). }
  assert (Hlt : (round_or_0 (recent_avg_engagement d now) <? 60) = true)
    by (apply Z.ltb_lt; lia).
  split; [exact Havg|].
  assert (Hrec : generateRecommendations
                   {| totalStudents :=
                        COUNT_DISTINCT (map (fun p => su_user_id (fst p))
                                          (open_session_students d));
                      onlineStudents :=
                        COUNT_DISTINCT (map (fun p => em_student_id (fst p))
                                          (recent_metrics d now));
                      averageEngagement := round_or_0 (recent_avg_engagement d now);
                      co_emotionDistribution := emotionDistribution d now;
                      alerts := generate_alerts (emotionDistribution d now)
                                  (recent_avg_engagement d now) |}
                 = generate_alerts (emotionDistribution d now) (recent_avg_engagement d now)
                   ++ (if 70 <? count_recent d now "attentive"
                       then [great_engagement] else [])).
  { unfold generateRecommendations, generate_alerts.
    cbn [co_emotionDistribution averageEngagement]. rewrite Hlt, Hjs.
    rewrite emotionDistribution_attentive.
    destruct (70 <? count_recent d now "attentive"); [reflexivity|].
    now rewrite app_nil_r. }
  split; [exact Hrec|].
  rewrite Hrec. apply in_or_app. left.
  now apply generate_alerts_spec.
Qed.

Lemma class_overview_numbers_witness :
  let d := Scenario.attentive_reports in
  let o := Scenario.overview_attentive in
  get_class_overview d 50 Scenario.the_teacher = res_json o
  /\ (attentive (co_emotionDistribution o) = count_recent d 50 "attentive"
      /\ confused (co_emotionDistribution o) = count_recent d 50 "confused"
      /\ bored (co_emotionDistribution o) = count_recent d 50 "bored"
      /\ neutral (co_emotionDistribution o) = count_recent d 50 "neutral"
      /\ happy (co_emotionDistribution o) = count_recent d 50 "happy"
      /\ attentive (co_emotionDistribution o) + confused (co_emotionDistribution o)
         + bored (co_emotionDistribution o) + neutral (co_emotionDistribution o)
         + happy (co_emotionDistribution o)
         = COUNT (filter (fun p => existsb (String.eqb (em_emotion (fst p))) mockEmotions)
                    (recent_metrics d 50))
      /\ attentive (co_emotionDistribution o) + confused (co_emotionDistribution o)
         + bored (co_emotionDistribution o) + neutral (co_emotionDistribution o)
         + happy (co_emotionDistribution o) <= COUNT (recent_metrics d 50)
      /\ (metrics_in_range d = true ->
          (averageEngagement o = 0 \/ averageEngagement o = 1)
          /\ generateRecommendations o
             = alerts o
               ++ (if 70 <? count_recent d 50 "attentive" then [great_engagement] else [])
          /\ In low_engagement_alert (generateRecommendations o))).
Proof.
  intros d o.
  assert (H : get_class_overview d 50 Scenario.the_teacher = res_json o)
    by (vm_compute; reflexivity).
  split; [exact H|].
  exact (class_overview_numbers d 50 Scenario.the_teacher o H).
Defined.

(** ** Joins *)

Lemma filter_flat_map {A B} (p : B -> bool) (f : A -> list B) l :
  filter p (flat_map f l) = flat_map (fun x => filter p (f x)) l.
Proof.
  induction l as [|x l IH]; [reflexivity|].
  cbn [flat_map]. now rewrite filter_app, IH.
Qed.

Lemma filter_all {A} (p : A -> bool) l :
  (forall x, In x l -> p x = true) -> filter p l = l.
Proof.
  induction l as [|x l IH]; intros H; [reflexivity|].
  cbn [filter]. rewrite (H x) by now left. f_equal. apply IH.
  intros y Hy. apply H. now right.
Qed.

(** A WHERE clause on the columns of the left table can be applied
    before the LEFT JOIN. *)
Lemma filter_LEFT_JOIN {A B} (on : A -> B -> bool) (p : A -> bool) a b :
  filter (fun r => p (fst r)) (LEFT_JOIN on a b) = LEFT_JOIN on (filter p a) b.
Proof.
  unfold LEFT_JOIN. induction a as [|x a IH]; [reflexivity|].
  cbn [flat_map filter]. rewrite filter_app, IH.
  destruct (p x) eqn:Ep; cbn [flat_map].
  - f_equal. apply filter_all. intros r Hr.
    destruct (filter (on x) b) as [|y m].
    + destruct Hr as [<- | []]. exact Ep.
    + apply in_map_iff in Hr. destruct Hr as (z & <- & _). exact Ep.
  - rewrite filter_none; [reflexivity|]. intros r Hr.
    destruct (filter (on x) b) as [|y m].
    + destruct Hr as [<- | []]. exact Ep.
    + apply in_map_iff in Hr. destruct Hr as (z & <- & _). exact Ep.
Qed.

(** With exactly one matching row on the right for every row on the
    left, a JOIN has one row per row on the left. *)
Lemma JOIN_one_match {A B} (on : A -> B -> bool) (p : A -> bool) a b :
  (forall x, In x a -> List.length (filter (on x) b) = 1%nat) ->
  List.length (filter (fun r => p (fst r)) (JOIN on a b)) = List.length (filter p a).
Proof.
  unfold JOIN. induction a as [|x a IH]; intros H; [reflexivity|].
  cbn [flat_map filter]. rewrite filter_app, length_app, IH
    by (intros; apply H; now right).
  specialize (H x (or_introl eq_refl)).
  destruct (filter (on x) b) as [|y [|z m]]; try discriminate H.
  cbn [map filter fst]. destruct (p x); reflexivity.
Qed.

Lemma length_flat_map_const {A B} (E : list B) (l : list A) :
  List.length (flat_map (fun _ => E) l) = (List.length l * List.length E)%nat.
Proof.
  induction l as [|x l IH]; [reflexivity|].
  cbn [flat_map List.length]. rewrite length_app, IH. lia.
Qed.

Section SingleGroup.
Context {A K : Type} (eqb : K -> K -> bool) (key : A -> K).

(** GROUP BY over rows that all have the same key gives one group. *)
Lemma group_by_single rows k :
  eqb k k = true -> rows <> [] -> (forall r, In r rows -> key r = k) ->
  group_by eqb key rows = [(k, rows)].
Proof.
  intros Hrefl Hne Hall.
  assert (Hd : distinct_keys eqb key rows = [k]).
  { induction rows as [|r rest IH]; [congruence|].
    cbn [distinct_keys]. rewrite (Hall r) by now left.
    destruct rest as [|r1 rest1]; [reflexivity|].
    rewrite IH by (discriminate || (intros; apply Hall; now right)).
    cbn [filter]. now rewrite Hrefl. }
  unfold group_by. rewrite Hd. cbn [map]. f_equal. f_equal.
  apply filter_all. intros r Hr. now rewrite (Hall r Hr).
Qed.
End SingleGroup.

Lemma flat_map_ext_in {A B} (f g : A -> list B) l :
  (forall x, In x l -> f x = g x) -> flat_map f l = flat_map g l.
Proof.
  induction l as [|x l IH]; intros H; [reflexivity|].
  cbn [flat_map]. rewrite (H x) by now left. f_equal. apply IH.
  intros y Hy. apply H. now right.
Qed.

Lemma in_not_null {A} (l : list (option A)) x : In x (not_null l) <-> In (Some x) l.
Proof.
  induction l as [|[y|] l IH]; cbn [not_null In].
  - tauto.
  - rewrite IH. split; (intros [H | H]; [left; congruence | now right]).
  - rewrite IH. split; [now right | intros [H | H]; [discriminate | exact H]].
Qed.

Lemma not_null_app {A} (l1 l2 : list (option A)) :
  not_null (l1 ++ l2) = not_null l1 ++ not_null l2.
Proof.
  induction l1 as [|[y|] l1 IH]; cbn [app not_null]; [reflexivity | | exact IH].
  now rewrite IH.
Qed.

Lemma not_null_map_Some {A} (l : list A) : not_null (map Some l) = l.
Proof. induction l as [|x l IH]; cbn [map not_null]; [reflexivity | now rewrite IH]. Qed.

(** COUNT(DISTINCT col) is the size of any duplicate-free list of the
    column's values. *)
Lemma COUNT_DISTINCT_same_set X Y :
  NoDup Y -> (forall z, In z X <-> In z Y) -> COUNT_DISTINCT X = COUNT Y.
Proof.
  intros Hnd Hiff. unfold COUNT_DISTINCT, COUNT. f_equal.
  assert (Hd : NoDup (distinct_keys Z.eqb (fun z => z) X))
    by apply (NoDup_distinct_keys Z.eqb _ Z.eqb_eq).
  assert (Hin : forall z, In z (distinct_keys Z.eqb (fun z => z) X) <-> In z Y).
  { intros z. rewrite (in_distinct_keys Z.eqb _ Z.eqb_eq), <- Hiff.
    split; [intros (r & Hr & <-); exact Hr | eauto]. }
  apply Nat.le_antisymm; apply NoDup_incl_length; auto; intros z Hz; now apply Hin.
Qed.

Lemma members_have_distinct_users d sid :
  NoDup (map (fun su => (su_session_id su, su_user_id su)) (session_users d)) ->
  NoDup (map su_user_id (filter (fun su => su_session_id su =? sid) (session_users d))).
Proof.
  induction (session_users d) as [|x l IH]; cbn [map filter]; intros Hnd;
    [constructor|].
  inversion Hnd as [|? ? Hnotin Hnd1]; subst.
  destruct (su_session_id x =? sid) eqn:E; [|now apply IH].
  apply Z.eqb_eq in E. cbn [map]. constructor; [|now apply IH].
  intros Hin. apply Hnotin. apply in_map_iff in Hin.
  destruct Hin as (y & Hu & Hy). apply filter_In in Hy. destruct Hy as [Hy Hs].
  apply Z.eqb_eq in Hs. apply in_map_iff. exists y. split; [congruence | exact Hy].
Qed.

Lemma summary_key_eqb_refl k : summary_key_eqb k k = true.
Proof.
  destruct k as [[[[i t] te] c] e]. unfold summary_key_eqb.
  rewrite !Z.eqb_refl, String.eqb_refl. destruct e as [z|]; cbn [andb option_Z_eqb];
    [apply Z.eqb_refl | reflexivity].
Qed.

(** What the summary query of GET /api/metrics/session/:sessionId
    computes when exactly one session has the id: with M the session's
    membership rows and E its metric rows, the joined rows pair every
    member (or one NULL member) with every metric. *)
Lemma session_summary_query_single d sid s :
  select_session d sid = [s] ->
  let M := filter (fun su => su_session_id su =? sid) (session_users d) in
  let E := select_metrics d sid in
  exists B : list (sessions_row * option session_users_row),
    List.length B = Nat.max 1 (List.length M)
    /\ (forall su, In (s, Some su) B <-> In su M)
    /\ (forall r, In r B -> fst r = s)
    /\ exists joined : list (sessions_row * option session_users_row
                            * option engagement_metrics_row),
         (forall r, In r joined -> In (fst r) B)
         /\ (forall r1, In r1 B -> exists r, In r joined /\ fst r = r1)
         /\ not_null (map snd joined) = flat_map (fun _ => E) B
         /\ session_summary_query d sid
            = [{| ss_key := summary_key s;
                  ss_participant_count :=
                    COUNT_DISTINCT
                      (map su_user_id (not_null (map (fun r => snd (fst r)) joined)));
                  ss_avg_engagement :=
                    AVG (map em_engagement_score (not_null (map snd joined)));
                  ss_total_metrics := COUNT (not_null (map snd joined)) |}].
Proof.
  intros Hsel M E.
  assert (Hid : s_id s = sid).
  { assert (Hin : In s (select_session d sid)) by (rewrite Hsel; now left).
    unfold select_session in Hin. apply filter_In in Hin. now apply Z.eqb_eq. }
  set (B := match M with
            | [] => [(s, @None session_users_row)]
            | y :: m => map (fun z => (s, Some z)) (y :: m)
            end).
  set (blk := fun r : sessions_row * option session_users_row =>
                match E with
                | [] => [(r, @None engagement_metrics_row)]
                | y :: m => map (fun z => (r, Some z)) (y :: m)
                end).
  assert (HB : LEFT_JOIN (fun s su => s_id s =? su_session_id su)
                 (select_session d sid) (session_users d) = B).
  { rewrite Hsel. unfold LEFT_JOIN. cbn [flat_map]. rewrite app_nil_r.
    replace (filter (fun su => s_id s =? su_session_id su) (session_users d)) with M;
      [reflexivity|].
    unfold M. apply filter_ext. intros su. rewrite Hid. apply Z.eqb_sym. }
  assert (HBs : forall r, In r B -> fst r = s).
  { intros r Hr. unfold B in Hr. destruct M as [|y m].
    - destruct Hr as [<- | []]. reflexivity.
    - apply in_map_iff in Hr. destruct Hr as (z & <- & _). reflexivity. }
  assert (Hjoined :
    filter (fun r => s_id (fst (fst r)) =? sid)
      (LEFT_JOIN (fun r em => s_id (fst r) =? em_session_id em)
         (LEFT_JOIN (fun s su => s_id s =? su_session_id su) (sessions d) (session_users d))
         (engagement_metrics d))
    = flat_map blk B).
  { rewrite (filter_LEFT_JOIN (fun r em => s_id (fst r) =? em_session_id em)
               (fun r : sessions_row * option session_users_row => s_id (fst r) =? sid)).
    rewrite (filter_LEFT_JOIN (fun s su => s_id s =? su_session_id su)
               (fun s => s_id s =? sid)).
    change (filter (fun s => s_id s =? sid) (sessions d)) with (select_session d sid).
    rewrite HB. unfold LEFT_JOIN. apply flat_map_ext_in. intros r Hr.
    replace (filter (fun em => s_id (fst r) =? em_session_id em) (engagement_metrics d))
      with E; [reflexivity|].
    unfold E, select_metrics. apply filter_ext. intros em.
    rewrite (HBs r Hr), Hid. apply Z.eqb_sym. }
  exists B. split; [|split; [|split; [exact HBs|]]].
  - unfold B. destruct M as [|y m]; [reflexivity|].
    rewrite length_map. cbn [List.length]. lia.
  - intros su. unfold B. destruct M as [|y m].
    + split; [intros [H | []]; discriminate H | intros []].
    + rewrite in_map_iff. split.
      * intros (z & [= <-] & Hz). exact Hz.
      * intros Hsu. eauto.
  - exists (flat_map blk B).
    assert (Hfst : forall r, In r (flat_map blk B) -> In (fst r) B).
    { intros r Hr. apply in_flat_map in Hr. destruct Hr as (r1 & Hr1 & Hr).
      unfold blk in Hr. destruct E as [|y m].
      - destruct Hr as [<- | []]. exact Hr1.
      - apply in_map_iff in Hr. destruct Hr as (z & <- & _). exact Hr1. }
    split; [exact Hfst|]. split; [|split].
    + intros r1 Hr1. unfold blk. destruct E as [|y m] eqn:EE.
      * exists (r1, None). split; [|reflexivity].
        apply in_flat_map. exists r1. split; [exact Hr1 | now left].
      * exists (r1, Some y). split; [|reflexivity].
        apply in_flat_map. exists r1. split; [exact Hr1 | now left].
    + clear. induction B as [|r B IH]; [reflexivity|].
      cbn [flat_map]. rewrite map_app, not_null_app, IH. f_equal.
      unfold blk. destruct E as [|y m]; [reflexivity|].
      rewrite map_map. cbn [snd]. apply not_null_map_Some.
    + unfold session_summary_query. rewrite Hjoined.
      rewrite (group_by_single summary_key_eqb
                 (fun r : sessions_row * option session_users_row
                          * option engagement_metrics_row => summary_key (fst (fst r)))
                 (flat_map blk B) (summary_key s)).
      * reflexivity.
      * apply summary_key_eqb_refl.
      * unfold B. destruct M as [|y m]; cbn [map flat_map];
          unfold blk; destruct E; discriminate.
      * intros r Hr. now rewrite (HBs _ (Hfst r Hr)).
Qed.

Lemma one_user_per_id d uid :
  NoDup (map u_id (users d)) -> user_exists d uid = true ->
  List.length (filter (fun u => (uid =? u_id u)%Z) (users d)) = 1%nat.
Proof.
  intros Hnd Hex.
  rewrite (filter_ext _ (fun u => (u_id u =? uid)%Z)) by (intros; apply Z.eqb_sym).
  pose proof (unique_key_one_match u_id (users d) uid Hnd) as Hle.
  unfold user_exists in Hex. apply existsb_exists in Hex.
  destruct Hex as (u & Hu & Hk).
  assert (Hin : In u (filter (fun u => (u_id u =? uid)%Z) (users d)))
    by (apply filter_In; now split).
  destruct (filter (fun u => (u_id u =? uid)%Z) (users d)) as [|a [|b l]];
    [destruct Hin | reflexivity | cbn [List.length] in Hle; lia].
Qed.

(** X17: the session summary of GET /api/metrics/session/:sessionId
    counts every metric once for each member.  The statement (the
    second of the route, all of whose columns exist; the route's first
    statement is refused, so the route does not get to it) joins the
    session with its memberships and with its metrics at once.  For an
    existing session with at least one membership row, in a database
    with unique keys, it returns one row, whose participant_count is the
    number of the session's membership rows, departed members included,
    and whose total_metrics is that number times the number of the
    session's metrics: the number of metrics only for a session with one
    member. *)
Theorem session_summary_counts_metrics_per_member (d : db) (sid : Z) :
  keys_unique d -> session_exists d sid = true -> 1 <= count_session_users d sid ->
  exists row,
    session_summary_query d sid = [row]
    /\ ss_participant_count row = count_session_users d sid
    /\ ss_total_metrics row = count_session_users d sid * COUNT (select_metrics d sid).
Proof.
  intros Hk Hex Hone.
  assert (Hsel : exists s, select_session d sid = [s]).
  { destruct Hk as ((Hnds & _) & _).
    pose proof (unique_key_one_match s_id (sessions d) sid Hnds) as Hle.
    fold (select_session d sid) in Hle.
    destruct (select_session d sid) as [|s [|s2 l]] eqn:Es.
    - apply session_exists_select in Es. congruence.
    - eauto.
    - cbn [List.length] in Hle. lia. }
  destruct Hsel as (s & Hsel).
  destruct (session_summary_query_single d sid s Hsel)
    as (B & HlenB & HBM & HBs & joined & Hfst & Hcov & Hnn & ->).
  set (M := filter (fun su => su_session_id su =? sid) (session_users d)) in *.
  assert (HM : (1 <= List.length M)%nat).
  { unfold count_session_users, COUNT in Hone. fold M in Hone. lia. }
  assert (HB : List.length B = List.length M) by lia.
  eexists. split; [reflexivity|].
  cbn [ss_participant_count ss_total_metrics].
  split.
  - rewrite (COUNT_DISTINCT_same_set _ (map su_user_id M)).
    + unfold count_session_users, COUNT. fold M. now rewrite length_map.
    + apply members_have_distinct_users. apply Hk.
    + intros uid. rewrite !in_map_iff. split.
      * intros (su & <- & Hsu). exists su. split; [reflexivity|].
        apply in_not_null, in_map_iff in Hsu. destruct Hsu as (r & Hr & Hin).
        apply HBM. pose proof (Hfst r Hin) as HrB.
        pose proof (HBs _ HrB) as Hs.
        destruct r as [[s1 o] e]. cbn [fst snd] in *. now subst.
      * intros (su & <- & Hsu). exists su. split; [reflexivity|].
        apply in_not_null, in_map_iff. apply HBM in Hsu.
        destruct (Hcov _ Hsu) as (r & Hr & Hf). exists r. split; [|exact Hr].
        now rewrite Hf.
  - rewrite Hnn. unfold count_session_users, COUNT. fold M.
    rewrite length_flat_map_const, HB. lia.
Qed.

Lemma session_summary_counts_metrics_per_member_witness :
  let d := Scenario.small_with_metrics in
  let row := {| ss_key := (1, "Algebra"%string, 1, 10, Some 3600000000);
                ss_participant_count := 2;
                ss_avg_engagement := Some (4 # 5);
                ss_total_metrics := 6 |} in
  keys_unique d /\ session_exists d 1 = true /\ 1 <= count_session_users d 1
  /\ session_summary_query d 1 = [row]
  /\ COUNT (select_metrics d 1) = 3
  /\ exists row,
       session_summary_query d 1 = [row]
       /\ ss_participant_count row = count_session_users d 1
       /\ ss_total_metrics row = count_session_users d 1 * COUNT (select_metrics d 1).
Proof.
  intros d row.
  assert (Hk : keys_unique d).
  { unfold keys_unique. vm_compute.
    split; [|split; [|split]]; try split;
      repeat (constructor; [first [reflexivity | cbn [In]; intuition discriminate]|]);
      constructor. }
  assert (Hone : 1 <= count_session_users d 1) by (vm_compute; discriminate).
  split; [exact Hk|]. split; [reflexivity|]. split; [exact Hone|].
  split; [reflexivity|]. split; [reflexivity|].
  exact (session_summary_counts_metrics_per_member d 1 Hk eq_refl Hone).
Defined.

(** ** Participants and listings *)

Section OrderByLe.
Context {A : Type} (key : A -> Z).

Lemma insert_sorted_le x l :
  StronglySorted (fun a b => key a <= key b) l ->
  StronglySorted (fun a b => key a <= key b) (insert_sorted key x l).
Proof.
  induction 1 as [|y r Hr IH Hy]; cbn [insert_sorted].
  - repeat constructor.
  - destruct (key x <=? key y) eqn:E.
    + apply Z.leb_le in E. constructor; [now constructor|].
      constructor; [exact E|].
      rewrite Forall_forall in *. intros z Hz. specialize (Hy z Hz). lia.
    + apply Z.leb_gt in E. constructor; [exact IH|].
      rewrite Forall_forall in *. intros z Hz.
      apply in_insert_sorted in Hz. destruct Hz as [-> | Hz]; [lia | now apply Hy].
Qed.

(** ORDER BY gives a list in ascending order of the key. *)
Lemma order_by_sorted l : StronglySorted (fun a b => key a <= key b) (order_by key l).
Proof.
  induction l as [|x l IH]; cbn [order_by fold_right]; [constructor|].
  now apply insert_sorted_le.
Qed.
End OrderByLe.

Lemma in_JOIN {A B} (on : A -> B -> bool) a b p :
  In p (JOIN on a b) <-> In (fst p) a /\ In (snd p) b /\ on (fst p) (snd p) = true.
Proof.
  unfold JOIN. rewrite in_flat_map. split.
  - intros (x & Hx & Hp). apply in_map_iff in Hp. destruct Hp as (y & <- & Hy).
    apply filter_In in Hy. cbn [fst snd]. tauto.
  - intros (Ha & Hb & Hon). exists (fst p). split; [exact Ha|].
    apply in_map_iff. exists (snd p). split; [now destruct p|].
    apply filter_In. now split.
Qed.

(** X18: the participants of the session report, which
    SessionManager.getSessionParticipants lists with the same statement.
    In a database whose foreign keys hold and whose user ids are unique
    the list has exactly one entry for every membership row of the
    session, departed members included, each paired with the row of its
    user, in ascending order of joined_at. *)
Theorem participants_are_the_membership_rows (d : db) (sid : Z) :
  referential_integrity d = true -> NoDup (map u_id (users d)) ->
  getSessionParticipants d sid = participants_query d sid
  /\ COUNT (getSessionParticipants d sid) = count_session_users d sid
  /\ (forall su, In su (map fst (getSessionParticipants d sid)) <->
                 In su (session_users d) /\ su_session_id su = sid)
  /\ (forall p, In p (getSessionParticipants d sid) ->
                In (snd p) (users d) /\ u_id (snd p) = su_user_id (fst p))
  /\ StronglySorted (fun a b => su_joined_at (fst a) <= su_joined_at (fst b))
       (getSessionParticipants d sid)
  /\ (forall now user r, get_session_report d now sid user = res_json r ->
        r_participants r = getSessionParticipants d sid
        /\ COUNT (r_participants r) = count_session_users d sid).
Proof.
  intros Hri Hnd.
  assert (Hlen : COUNT (getSessionParticipants d sid) = count_session_users d sid).
  { unfold getSessionParticipants, count_session_users, COUNT. f_equal.
    rewrite length_order_by.
    apply (JOIN_one_match (fun su u => su_user_id su =? u_id u)
             (fun su => su_session_id su =? sid)).
    intros su Hsu. apply one_user_per_id; [exact Hnd|].
    pose proof (integrity_members d su Hri Hsu) as H.
    now apply andb_true_iff in H. }
  split; [reflexivity|]. split; [exact Hlen|]. split; [|split; [|split]].
  - intros su. unfold getSessionParticipants. rewrite in_map_iff. split.
    + intros (p & <- & Hp). apply in_order_by, filter_In in Hp.
      destruct Hp as [Hp Hs]. apply in_JOIN in Hp. apply Z.eqb_eq in Hs. tauto.
    + intros [Hsu Hs].
      pose proof (integrity_members d su Hri Hsu) as H.
      apply andb_true_iff, proj2 in H. unfold user_exists in H.
      apply existsb_exists in H. destruct H as (u & Hu & Hk).
      exists (su, u). split; [reflexivity|].
      apply in_order_by, filter_In. cbn [fst]. split; [|now apply Z.eqb_eq].
      apply in_JOIN. cbn [fst snd]. rewrite Z.eqb_sym. tauto.
  - intros p Hp. unfold getSessionParticipants in Hp.
    apply in_order_by, filter_In, proj1, in_JOIN in Hp.
    destruct Hp as (_ & Hu & Hon). apply Z.eqb_eq in Hon. split; congruence.
  - apply order_by_sorted.
  - intros now user r. unfold get_session_report.
    destruct (select_session_user d sid (ru_id user)); [discriminate|].
    destruct (select_session d sid); [discriminate|]. cbv zeta.
    destruct (engagement_summary_query d sid); [discriminate|].
    destruct (overall_stats_query d sid); [discriminate|].
    intros [= <-]. cbn [r_participants]. split; [reflexivity | exact Hlen].
Qed.

Lemma participants_are_the_membership_rows_witness :
  let d := Scenario.small_after_leave in
  referential_integrity d = true /\ NoDup (map u_id (users d))
  /\ (getSessionParticipants d 1 = participants_query d 1
      /\ COUNT (getSessionParticipants d 1) = count_session_users d 1
      /\ (forall su, In su (map fst (getSessionParticipants d 1)) <->
                     In su (session_users d) /\ su_session_id su = 1)
      /\ (forall p, In p (getSessionParticipants d 1) ->
                    In (snd p) (users d) /\ u_id (snd p) = su_user_id (fst p))
      /\ StronglySorted (fun a b => su_joined_at (fst a) <= su_joined_at (fst b))
           (getSessionParticipants d 1)
      /\ (forall now user r, get_session_report d now 1 user = res_json r ->
            r_participants r = getSessionParticipants d 1
            /\ COUNT (r_participants r) = count_session_users d 1)).
Proof.
  intros d.
  assert (Hnd : NoDup (map u_id (users d))).
  { cbn. repeat (constructor; [cbn; intuition discriminate|]). constructor. }
  split; [reflexivity|]. split; [exact Hnd|].
  exact (participants_are_the_membership_rows d 1 eq_refl Hnd).
Defined.

Lemma in_firstn {A} (n : nat) (l : list A) x : In x (firstn n l) -> In x l.
Proof.
  revert l. induction n as [|n IH]; intros [|y l]; cbn [firstn In]; try tauto.
  intros [-> | H]; [now left | right; now apply IH].
Qed.

(** X19: the two read operations of SessionManager on engagement_metrics
    return nothing.  getSessionEngagementSummary counts DISTINCT user_id
    and getRealTimeEngagement joins on em.user_id, a column the table
    does not have: both throw undefined_column, for every session and in
    every database, and getRealTimeEngagement does so whatever the
    limit is, a negative one included, the statement being refused
    before its LIMIT is looked at. *)
Theorem sessionManager_reads_of_metrics_throw (d : db) (sessionId : Z)
    (limit : option Z) :
  getSessionEngagementSummary d sessionId = inl undefined_column
  /\ getRealTimeEngagement d sessionId limit = inl undefined_column
  /\ (forall summary, getSessionEngagementSummary d sessionId <> inr summary)
  /\ (forall rows, getRealTimeEngagement d sessionId limit <> inr rows).
Proof. repeat split; discriminate. Qed.

(** ** The sessions on offer *)

Section GroupBlocks.
Context {X A K : Type} (eqb : K -> K -> bool) (key : A -> K).
Context (f : X -> list A) (k : X -> K).
Hypothesis eqb_eq : forall a b, eqb a b = true <-> a = b.
Hypothesis block_key : forall x r, In r (f x) -> key r = k x.
Hypothesis block_not_empty : forall x, f x <> [].

Lemma filter_twice (p : K -> bool) l : filter p (filter p l) = filter p l.
Proof.
  apply filter_all. intros x Hx. now apply filter_In in Hx.
Qed.

Lemma distinct_keys_block blk rest kk :
  blk <> [] -> (forall r, In r blk -> key r = kk) ->
  distinct_keys eqb key (blk ++ rest)
  = kk :: filter (fun k1 => negb (eqb k1 kk)) (distinct_keys eqb key rest).
Proof.
  induction blk as [|r blk IH]; [congruence|]. intros _ Hall.
  cbn [app distinct_keys]. rewrite (Hall r) by now left.
  destruct blk as [|r1 blk1]; [reflexivity|].
  rewrite IH by (discriminate || (intros; apply Hall; now right)).
  cbn [filter]. rewrite (proj2 (eqb_eq kk kk) eq_refl). cbn [negb].
  now rewrite filter_twice.
Qed.

Lemma distinct_keys_blocks l :
  NoDup (map k l) -> distinct_keys eqb key (flat_map f l) = map k l.
Proof.
  induction l as [|x l IH]; cbn [map flat_map]; intros Hnd; [reflexivity|].
  inversion Hnd as [|? ? Hnotin Hnd1]; subst.
  rewrite (distinct_keys_block (f x) (flat_map f l) (k x))
    by (auto; intros; now apply block_key).
  rewrite IH by exact Hnd1. f_equal.
  apply filter_all. intros k1 Hk1. apply negb_true_iff.
  destruct (eqb k1 (k x)) eqn:E; [|reflexivity].
  apply eqb_eq in E. congruence.
Qed.

Lemma block_of_key l x :
  NoDup (map k l) -> In x l ->
  filter (fun r => eqb (key r) (k x)) (flat_map f l) = f x.
Proof.
  induction l as [|y l IH]; cbn [map flat_map]; intros Hnd Hin; [destruct Hin|].
  inversion Hnd as [|? ? Hnotin Hnd1]; subst.
  rewrite filter_app.
  assert (Hrest : forall z, In z l -> k z <> k x ->
            filter (fun r => eqb (key r) (k x)) (f z) = []).
  { intros z Hz Hne. apply filter_none. intros r Hr.
    rewrite (block_key z r Hr).
    destruct (eqb (k z) (k x)) eqn:E; [|reflexivity].
    apply eqb_eq in E. congruence. }
  destruct Hin as [-> | Hin].
  - rewrite filter_all
      by (intros r Hr; rewrite (block_key x r Hr); now apply eqb_eq).
    rewrite filter_flat_map.
    replace (flat_map (fun z => filter (fun r => eqb (key r) (k x)) (f z)) l)
      with (@nil A); [apply app_nil_r|].
    symmetry. clear IH Hnd Hnd1.
    induction l as [|z l IHl]; [reflexivity|].
    cbn [flat_map]. rewrite Hrest.
    + apply IHl.
      * intros H. apply Hnotin. now right.
      * intros z1 Hz1. apply Hrest. now right.
    + now left.
    + intros E. apply Hnotin. cbn [map]. left. exact E.
  - assert (Hne : k y <> k x).
    { intros E. apply Hnotin. rewrite E. now apply in_map. }
    rewrite filter_none.
    + now apply IH.
    + intros r Hr. rewrite (block_key y r Hr).
      destruct (eqb (k y) (k x)) eqn:E; [|reflexivity].
      apply eqb_eq in E. congruence.
Qed.

(** GROUP BY over blocks of rows with pairwise different keys gives the
    blocks. *)
Lemma group_by_blocks l :
  NoDup (map k l) ->
  group_by eqb key (flat_map f l) = map (fun x => (k x, f x)) l.
Proof.
  intros Hnd. unfold group_by. rewrite distinct_keys_blocks by exact Hnd.
  rewrite map_map. apply map_ext_in. intros x Hx.
  now rewrite block_of_key.
Qed.
End GroupBlocks.

Lemma LEFT_JOIN_at_most_one {A B} (on : A -> B -> bool) a b :
  (forall x, In x a -> (List.length (filter (on x) b) <= 1)%nat) ->
  LEFT_JOIN on a b = map (fun x => (x, hd_error (filter (on x) b))) a.
Proof.
  induction a as [|x a IH]; intros H; [reflexivity|].
  change (LEFT_JOIN on (x :: a) b)
    with (match filter (on x) b with
          | [] => [(x, None)]
          | y :: m => map (fun z => (x, Some z)) (y :: m)
          end ++ LEFT_JOIN on a b).
  rewrite IH by (intros; apply H; now right).
  specialize (H x (or_introl eq_refl)). cbn [map].
  destruct (filter (on x) b) as [|y [|z m]]; [reflexivity | reflexivity|].
  cbn [List.length] in H. lia.
Qed.

Lemma filter_of_map {A B} (p : B -> bool) (g : A -> B) l :
  filter p (map g l) = map g (filter (fun x => p (g x)) l).
Proof.
  induction l as [|x l IH]; [reflexivity|].
  cbn [map filter]. destruct (p (g x)); cbn [map]; now rewrite IH.
Qed.

Lemma flat_map_of_map {A B C} (f : B -> list C) (g : A -> B) l :
  flat_map f (map g l) = flat_map (fun x => f (g x)) l.
Proof.
  induction l as [|x l IH]; [reflexivity|].
  cbn [map flat_map]. now rewrite IH.
Qed.

Lemma NoDup_map_filter {A} (key : A -> Z) (p : A -> bool) l :
  NoDup (map key l) -> NoDup (map key (filter p l)).
Proof.
  induction l as [|x l IH]; cbn [map filter]; intros Hnd; [constructor|].
  inversion Hnd as [|? ? Hnotin Hnd1]; subst.
  destruct (p x); [|now apply IH].
  cbn [map]. constructor; [|now apply IH].
  intros Hin. apply Hnotin. apply in_map_iff in Hin.
  destruct Hin as (y & Hk & Hy). apply filter_In in Hy.
  apply in_map_iff. exists y. tauto.
Qed.

Lemma in_skipn {A} (n : nat) (l : list A) x : In x (skipn n l) -> In x l.
Proof.
  revert l. induction n as [|n IH]; intros [|y l]; cbn [skipn In]; try tauto.
  intros H. right. now apply IH.
Qed.

Lemma option_Z_eqb_eq a b : option_Z_eqb a b = true <-> a = b.
Proof.
  destruct a as [x|], b as [y|]; cbn [option_Z_eqb];
    try (split; [discriminate | congruence]); [|tauto].
  rewrite Z.eqb_eq. split; congruence.
Qed.

Lemma option_string_eqb_eq a b : option_string_eqb a b = true <-> a = b.
Proof.
  destruct a as [x|], b as [y|]; cbn [option_string_eqb];
    try (split; [discriminate | congruence]); [|tauto].
  rewrite String.eqb_eq. split; congruence.
Qed.

Lemma available_row_eqb_eq a b : available_row_eqb a b = true <-> a = b.
Proof.
  unfold available_row_eqb.
  rewrite !andb_true_iff, !Z.eqb_eq, !String.eqb_eq, !option_Z_eqb_eq,
    session_status_eqb_eq, !option_string_eqb_eq.
  destruct a, b. cbn. split.
  - intros ((((((((-> & ->) & ->) & ->) & ->) & ->) & ->) & ->) & ->). reflexivity.
  - intros [= -> -> -> -> -> -> -> -> ->]. repeat split.
Qed.

Section AvailableFacts.
Variable u_name : users_row -> string.

(** The groups of GET /available: one for each session with the
    requested status, holding the session's memberships. *)
Lemma available_groups d status :
  NoDup (map s_id (sessions d)) -> NoDup (map u_id (users d)) ->
  let teacher_of s := hd_error (filter (fun u => s_teacher_id s =? u_id u) (users d)) in
  let members r :=
    match filter (fun su => s_id (fst r) =? su_session_id su) (session_users d) with
    | [] => [(r, @None session_users_row)]
    | y :: m => map (fun z => (r, Some z)) (y :: m)
    end in
  group_by available_row_eqb
    (fun r : sessions_row * option users_row * option session_users_row =>
       available_key u_name (fst r))
    (filter (fun r => status_is (s_status (fst (fst r))) status)
       (LEFT_JOIN (fun r su => s_id (fst r) =? su_session_id su)
          (LEFT_JOIN (fun s u => s_teacher_id s =? u_id u) (sessions d) (users d))
          (session_users d)))
  = map (fun s => (available_key u_name (s, teacher_of s), members (s, teacher_of s)))
        (filter (fun s => status_is (s_status s) status) (sessions d)).
Proof.
  intros Hnds Hndu teacher_of members.
  rewrite (filter_LEFT_JOIN (fun r su => s_id (fst r) =? su_session_id su)
             (fun r : sessions_row * option users_row =>
                status_is (s_status (fst r)) status)).
  rewrite (LEFT_JOIN_at_most_one (fun s u => s_teacher_id s =? u_id u)).
  2:{ intros s _.
      rewrite (filter_ext _ (fun u => (u_id u =? s_teacher_id s)%Z))
        by (intros; apply Z.eqb_sym).
      now apply unique_key_one_match. }
  rewrite filter_of_map. cbn [fst].
  unfold LEFT_JOIN at 1. rewrite flat_map_of_map.
  apply (group_by_blocks available_row_eqb
           (fun r : sessions_row * option users_row * option session_users_row =>
              available_key u_name (fst r))
           (fun s => members (s, teacher_of s))
           (fun s => available_key u_name (s, teacher_of s))
           available_row_eqb_eq).
  - intros s r Hr. unfold members in Hr.
    destruct (filter _ (session_users d)) as [|y m].
    + destruct Hr as [<- | []]. reflexivity.
    + apply in_map_iff in Hr. destruct Hr as (z & <- & _). reflexivity.
  - intros s. unfold members. destruct (filter _ (session_users d)); discriminate.
  - apply NoDup_map_inv with (f := av_id). rewrite map_map. cbn [av_id available_key fst].
    now apply NoDup_map_filter.
Qed.

Lemma available_of_group_members d (s : sessions_row) (t : option users_row) :
  available_of_group
    (available_key u_name (s, t),
     match filter (fun su => s_id s =? su_session_id su) (session_users d) with
     | [] => [((s, t), @None session_users_row)]
     | y :: m => map (fun z => ((s, t), Some z)) (y :: m)
     end)
  = {| as_row := available_key u_name (s, t);
       participantCount := count_session_users d (s_id s);
       canJoin := count_session_users d (s_id s) <? to_number (s_max_students s) |}.
Proof.
  assert (Hc : COUNT (not_null
                 (map (fun x : sessions_row * option users_row * option session_users_row =>
                         option_map su_user_id (snd x))
                    match filter (fun su => s_id s =? su_session_id su) (session_users d) with
                    | [] => [((s, t), @None session_users_row)]
                    | y :: m => map (fun z => ((s, t), Some z)) (y :: m)
                    end))
               = count_session_users d (s_id s)).
  { unfold count_session_users.
    rewrite (filter_ext (fun su => su_session_id su =? s_id s)
               (fun su => s_id s =? su_session_id su))
      by (intros; apply Z.eqb_sym).
    destruct (filter _ (session_users d)) as [|y m]; [reflexivity|].
    rewrite map_map. cbn [snd option_map].
    rewrite <- (map_map su_user_id Some), not_null_map_Some.
    unfold COUNT. now rewrite length_map. }
  unfold available_of_group. cbn [fst snd av_max_students available_key].
  now rewrite Hc.
Qed.

(** X20: GET /available and the join it offers.  In a database with
    unique session and user ids every listed entry is a session with the
    requested status; its participantCount is the number of the
    session's membership rows, departed members included, and canJoin
    tells whether that number is below max_students.  This is the
    capacity test of POST /:id/join: for an active session and a caller
    without a membership row, the join is answered SESSION_FULL exactly
    when the entry says canJoin false.  total is the size of the page,
    never more than the limit. *)
Theorem available_sessions_can_join (d : db) (status : option string)
    (limit offset : option Z) (r : available_sessions) (e : available_session) :
  NoDup (map s_id (sessions d)) -> NoDup (map u_id (users d)) ->
  get_available u_name d status limit offset = res_json r ->
  In e (av_sessions r) ->
  av_total r = COUNT (av_sessions r) /\ av_total r <= av_limit r
  /\ exists s,
       In s (sessions d)
       /\ status_is (s_status s) (match status with Some str => str | None => "active"%string end)
          = true
       /\ av_id (as_row e) = s_id s /\ av_title (as_row e) = s_title s
       /\ av_max_students (as_row e) = s_max_students s
       /\ av_status (as_row e) = s_status s
       /\ participantCount e = count_session_users d (s_id s)
       /\ canJoin e = (count_session_users d (s_id s) <? to_number (s_max_students s))
       /\ (s_status s = active ->
           forall now user,
             select_session_user d (s_id s) (ru_id user) = [] ->
             (fst (post_join d now (s_id s) user) = res_error 400 "SESSION_FULL"
              <-> canJoin e = false)).
Proof.
  intros Hnds Hndu. unfold get_available.
  set (lim := match limit with Some n => n | None => 50 end).
  set (off := match offset with Some n => n | None => 0 end).
  set (st := match status with Some str => str | None => "active"%string end).
  destruct ((lim <? 0) || (off <? 0)) eqn:Eneg; [discriminate|].
  apply orb_false_iff in Eneg. destruct Eneg as [Elim _]. apply Z.ltb_ge in Elim.
  cbv zeta. rewrite (available_groups d st Hnds Hndu).
  intros [= <-]. cbn [av_sessions av_total av_limit].
  intros He. split; [reflexivity|]. split.
  { unfold COUNT. rewrite length_map, length_firstn.
    rewrite Nat2Z.inj_min, Z2Nat.id by exact Elim. lia. }
  apply in_map_iff in He. destruct He as (g & <- & Hg).
  apply in_firstn, in_skipn, in_order_by, in_map_iff in Hg.
  destruct Hg as (s & Hgs & Hs). apply filter_In in Hs. destruct Hs as [Hs Hst].
  exists s. split; [exact Hs|]. split; [exact Hst|].
  assert (Heq : available_of_group g
                = {| as_row :=
                       available_key u_name
                         (s, hd_error (filter (fun u => s_teacher_id s =? u_id u) (users d)));
                     participantCount := count_session_users d (s_id s);
                     canJoin := count_session_users d (s_id s)
                                <? to_number (s_max_students s) |}).
  { rewrite <- Hgs. apply available_of_group_members. }
  rewrite Heq.
  cbn [as_row participantCount canJoin fst snd av_id av_title av_max_students
       av_status available_key].
  repeat (split; [reflexivity|]).
  intros Hactive now user Hrow.
  assert (Hsel : select_active_session d (s_id s) = [s]).
  { rewrite select_active_session_filter.
    pose proof (unique_key_one_match s_id (sessions d) (s_id s) Hnds) as Hle.
    fold (select_session d (s_id s)) in Hle.
    assert (Hin : In s (select_session d (s_id s)))
      by (apply filter_In; split; [exact Hs | apply Z.eqb_refl]).
    destruct (select_session d (s_id s)) as [|a [|b l]];
      [destruct Hin | | cbn [List.length] in Hle; lia].
    destruct Hin as [-> | []]. cbn [filter]. now rewrite Hactive. }
  unfold post_join. rewrite Hsel, Hrow. cbn [COUNT List.length Z.of_nat Z.ltb Z.compare].
  rewrite Z.geb_leb, Z.ltb_antisym.
  destruct (to_number (s_max_students s) <=? count_session_users d (s_id s));
    cbn [negb fst].
  - split; reflexivity.
  - destruct (insert_session_user d now (s_id s) (ru_id user) (ru_role user))
      as [[err|row] d1]; cbn [fst]; split; discriminate.
Qed.
End AvailableFacts.

Lemma available_sessions_can_join_witness :
  let u_name := fun _ : users_row => "T"%string in
  let d := Scenario.small_full in
  let e := {| as_row := {| av_id := 1; av_title := "Algebra"; av_description := Some ""%string;
                           av_max_students := Some 2; av_start_time := 0;
                           av_end_time := Some 3600000000; av_status := active;
                           av_created_at := 10; av_teacher_name := Some "T"%string |};
              participantCount := 2; canJoin := false |} in
  let r := {| av_sessions := [e]; av_total := 1; av_limit := 50; av_offset := 0 |} in
  NoDup (map s_id (sessions d)) /\ NoDup (map u_id (users d))
  /\ get_available u_name d None None None = res_json r
  /\ In e (av_sessions r)
  /\ (av_total r = COUNT (av_sessions r) /\ av_total r <= av_limit r
      /\ exists s,
           In s (sessions d)
           /\ status_is (s_status s) "active" = true
           /\ av_id (as_row e) = s_id s /\ av_title (as_row e) = s_title s
           /\ av_max_students (as_row e) = s_max_students s
           /\ av_status (as_row e) = s_status s
           /\ participantCount e = count_session_users d (s_id s)
           /\ canJoin e = (count_session_users d (s_id s) <? to_number (s_max_students s))
           /\ (s_status s = active ->
               forall now user,
                 select_session_user d (s_id s) (ru_id user) = [] ->
                 (fst (post_join d now (s_id s) user) = res_error 400 "SESSION_FULL"
                  <-> canJoin e = false))).
Proof.
  intros u_name d e r.
  assert (Hnds : NoDup (map s_id (sessions d))).
  { cbn. repeat (constructor; [cbn; intuition discriminate|]). constructor. }
  assert (Hndu : NoDup (map u_id (users d))).
  { cbn. repeat (constructor; [cbn; intuition discriminate|]). constructor. }
  assert (Hin : In e (av_sessions r)) by now left.
  split; [exact Hnds|]. split; [exact Hndu|]. split; [reflexivity|]. split; [exact Hin|].
  exact (available_sessions_can_join u_name d None None None r e Hnds Hndu eq_refl Hin).
Defined.

(** ** Users and roles *)

(** X21: the guards and the users routes.  The three role guards are
    nested: requireAdmin admits admins only, requireTeacher teachers
    and admins, requireStudent everyone.  Behind authenticateToken,
    GET /api/users/profile always finds the caller: it answers the
    active row of the token's user and never USER_NOT_FOUND.
    GET /api/users/:id answers ADMIN_ACCESS_REQUIRED to everyone who is
    not an admin, also for the caller's own id.  To an admin it answers
    INVALID_USER_ID when the id is not a number, 500 USER_FETCH_ERROR
    when the number is outside the range of INTEGER, which the handler
    does not check, and otherwise the row with that id, deactivated
    users included, or USER_NOT_FOUND when there is none. *)
Theorem users_routes_behind_authentication (d : db) (t : token) (user : req_user) :
  authenticate d t = res_json user ->
  (requireAdmin user = true -> requireTeacher user = true)
  /\ (requireTeacher user = true -> requireStudent user = true)
  /\ requireStudent user = true
  /\ (requireAdmin user = true <-> ru_role user = admin)
  /\ (exists u, get_profile d user = res_json u
                /\ In u (users d) /\ u_id u = ru_id user /\ u_role u = ru_role user
                /\ u_is_active u = true)
  /\ (ru_role user <> admin ->
      forall id, get_user_by_id d id user = res_error 403 "ADMIN_ACCESS_REQUIRED")
  /\ (ru_role user = admin ->
      get_user_by_id d None user = res_error 400 "INVALID_USER_ID"
      /\ forall userId,
           (INTEGER_in_range userId = false ->
            get_user_by_id d (Some userId) user = res_error 500 "USER_FETCH_ERROR")
           /\ (INTEGER_in_range userId = true -> user_exists d userId = false ->
               get_user_by_id d (Some userId) user = res_error 404 "USER_NOT_FOUND")
           /\ (INTEGER_in_range userId = true -> user_exists d userId = true ->
               exists u, get_user_by_id d (Some userId) user = res_json u
                         /\ In u (users d) /\ u_id u = userId)).
Proof.
  intros Hauth.
  split; [|split; [|split; [|split; [|split; [|split]]]]].
  - unfold requireAdmin, requireTeacher, requireRole. now destruct (ru_role user).
  - unfold requireTeacher, requireStudent, requireRole. now destruct (ru_role user).
  - unfold requireStudent, requireRole. now destruct (ru_role user).
  - unfold requireAdmin, requireRole. destruct (ru_role user); cbn; split; congruence.
  - destruct t as [ | | | |userId]; cbn [authenticate] in Hauth; try discriminate.
    unfold authenticateToken in Hauth. unfold get_profile.
    destruct (filter (fun u => u_id u =? userId) (users d)) as [|u l] eqn:E;
      [discriminate|].
    destruct (u_is_active u) eqn:Ea; cbn [negb] in Hauth; [|discriminate].
    injection Hauth as <-. cbn [ru_id ru_role].
    assert (Hin : In u (filter (fun u => u_id u =? userId) (users d)))
      by (rewrite E; now left).
    apply filter_In in Hin. destruct Hin as [Hin Hid]. apply Z.eqb_eq in Hid.
    rewrite Hid, E. exists u. repeat split; auto.
  - intros Hrole id. unfold get_user_by_id.
    destruct (ru_role user); cbn [user_role_eqb negb]; congruence.
  - intros Hrole. unfold get_user_by_id. rewrite Hrole.
    cbn [user_role_eqb negb]. split; [reflexivity|].
    intros userId. split; [intros ->; reflexivity|].
    unfold user_exists. split; intros -> Hex; cbn [negb].
    + rewrite filter_none; [reflexivity|].
      intros u Hu. destruct (u_id u =? userId) eqn:E; [|reflexivity].
      assert (H : existsb (fun u => u_id u =? userId) (users d) = true)
        by (apply existsb_exists; eauto).
      congruence.
    + apply existsb_exists in Hex. destruct Hex as (u0 & Hu0 & Hk0).
      destruct (filter (fun u => u_id u =? userId) (users d)) as [|u l] eqn:E.
      * assert (H : In u0 (filter (fun u => u_id u =? userId) (users d)))
          by (apply filter_In; now split).
        rewrite E in H. destruct H.
      * assert (H : In u (filter (fun u => u_id u =? userId) (users d)))
          by (rewrite E; now left).
        apply filter_In in H. destruct H as [H Hk]. apply Z.eqb_eq in Hk.
        exists u. repeat split; auto.
Qed.

Lemma users_routes_behind_authentication_witness :
  let d := Scenario.db_admin in
  let user := Scenario.the_admin in
  authenticate d (token_for 13) = res_json user
  /\ get_user_by_id d (Some 99999999999) user = res_error 500 "USER_FETCH_ERROR"
  /\ get_user_by_id d (Some 99) user = res_error 404 "USER_NOT_FOUND"
  /\ get_user_by_id d (Some 2) user = res_json (Scenario.user 2 student)
  /\ get_user_by_id d (Some 13) Scenario.the_teacher
     = res_error 403 "ADMIN_ACCESS_REQUIRED"
  /\ ((requireAdmin user = true -> requireTeacher user = true)
      /\ (requireTeacher user = true -> requireStudent user = true)
      /\ requireStudent user = true
      /\ (requireAdmin user = true <-> ru_role user = admin)
      /\ (exists u, get_profile d user = res_json u
                    /\ In u (users d) /\ u_id u = ru_id user /\ u_role u = ru_role user
                    /\ u_is_active u = true)
      /\ (ru_role user <> admin ->
          forall id, get_user_by_id d id user = res_error 403 "ADMIN_ACCESS_REQUIRED")
      /\ (ru_role user = admin ->
          get_user_by_id d None user = res_error 400 "INVALID_USER_ID"
          /\ forall userId,
               (INTEGER_in_range userId = false ->
                get_user_by_id d (Some userId) user = res_error 500 "USER_FETCH_ERROR")
               /\ (INTEGER_in_range userId = true -> user_exists d userId = false ->
                   get_user_by_id d (Some userId) user = res_error 404 "USER_NOT_FOUND")
               /\ (INTEGER_in_range userId = true -> user_exists d userId = true ->
                   exists u, get_user_by_id d (Some userId) user = res_json u
                             /\ In u (users d) /\ u_id u = userId))).
Proof.
  intros d user. split; [reflexivity|]. split; [reflexivity|]. split; [reflexivity|].
  split; [reflexivity|]. split; [reflexivity|].
  exact (users_routes_behind_authentication d (token_for 13) user eq_refl).
Defined.

(** ** Participant status *)

Lemma select_session_user_after_rejoin d now sid uid sid1 uid1 :
  map (fun su => (su_id su, su_role su, su_left_at su))
      (select_session_user (update_joined_at d now sid uid) sid1 uid1)
  = map (fun su => (su_id su, su_role su, su_left_at su))
        (select_session_user d sid1 uid1).
Proof.
  unfold select_session_user, update_joined_at. cbn [session_users with_session_users].
  rewrite filter_map_swap
    by (intros su; now destruct ((su_session_id su =? sid) && (su_user_id su =? uid))).
  rewrite map_map. apply map_ext. intros su.
  now destruct ((su_session_id su =? sid) && (su_user_id su =? uid)).
Qed.

Lemma active_count_after_rejoin d now sid uid sid1 :
  active_participant_count (update_joined_at d now sid uid) sid1
  = active_participant_count d sid1.
Proof.
  unfold active_participant_count, update_joined_at, COUNT.
  cbn [session_users with_session_users].
  rewrite filter_map_swap, length_map; [reflexivity|].
  intros su. now destruct ((su_session_id su =? sid) && (su_user_id su =? uid)).
Qed.

Lemma count_after_rejoin d now sid uid sid1 :
  count_session_users (update_joined_at d now sid uid) sid1 = count_session_users d sid1.
Proof.
  unfold count_session_users, update_joined_at, COUNT.
  cbn [session_users with_session_users].
  rewrite filter_map_swap, length_map; [reflexivity|].
  intros su. now destruct ((su_session_id su =? sid) && (su_user_id su =? uid)).
Qed.

Lemma active_count_after_leave d now sid uid sid1 :
  active_participant_count (update_left_at d now sid uid) sid1
  <= active_participant_count d sid1.
Proof.
  unfold active_participant_count, update_left_at, COUNT.
  cbn [session_users with_session_users]. apply Nat2Z.inj_le.
  induction (session_users d) as [|su l IH]; [reflexivity|].
  cbn [map filter].
  destruct ((su_session_id su =? sid) && (su_user_id su =? uid));
    cbn [su_session_id su_left_at is_null];
    destruct (su_session_id su =? sid1); cbn [andb];
    try destruct (is_null (su_left_at su)); cbn [List.length]; lia.
Qed.

(** X22: SessionManager.updateUserStatus never admits, readmits or
    removes anyone.  Whatever the status, the membership rows keep their
    number, ids and roles, so isUserInSession and the row count that the
    capacity test of join reads are unchanged, and no session's active
    participant count grows.  With 'joined' only joined_at is written:
    left_at stays, a departed member stays departed.  With 'left' the
    database becomes what POST /:id/leave makes of it for a member, and
    with any other status nothing is written. *)
Theorem updateUserStatus_effects (d : db) (now sid uid : Z) (st : user_status) :
  let d1 := updateUserStatus d now sid uid st in
  (forall sid1 uid1, isUserInSession d1 sid1 uid1 = isUserInSession d sid1 uid1)
  /\ (forall sid1, count_session_users d1 sid1 = count_session_users d sid1)
  /\ (forall sid1, active_participant_count d1 sid1 <= active_participant_count d sid1)
  /\ sessions d1 = sessions d /\ engagement_metrics d1 = engagement_metrics d
  /\ (st = status_joined ->
      (forall sid1, active_participant_count d1 sid1 = active_participant_count d sid1)
      /\ (forall sid1 uid1,
            map (fun su => (su_id su, su_role su, su_left_at su))
                (select_session_user d1 sid1 uid1)
            = map (fun su => (su_id su, su_role su, su_left_at su))
                  (select_session_user d sid1 uid1))
      /\ (forall su, In su (select_session_user d1 sid uid) -> su_joined_at su = now))
  /\ (st = status_left ->
      forall user, ru_id user = uid -> select_session_user d sid uid <> [] ->
                   d1 = snd (post_leave d now sid user))
  /\ (st = status_other -> d1 = d).
Proof.
  cbv zeta.
  assert (Hlen : forall (f : session_users_row -> session_users_row) sid1 uid1,
            (forall su, su_session_id (f su) = su_session_id su
                        /\ su_user_id (f su) = su_user_id su) ->
            isUserInSession (with_session_users d (map f (session_users d))
                               (session_users_id_seq d)) sid1 uid1
            = isUserInSession d sid1 uid1).
  { intros f sid1 uid1 Hf. unfold isUserInSession, select_session_user, COUNT.
    cbn [session_users with_session_users].
    rewrite filter_map_swap, length_map; [reflexivity|].
    intros su. destruct (Hf su) as [-> ->]. reflexivity. }
  destruct st; cbn [updateUserStatus].
  - split; [|split; [|split; [|split; [|split; [|split; [|split]]]]]];
      try reflexivity; try discriminate.
    + intros sid1 uid1. apply Hlen. intros su.
      now destruct ((su_session_id su =? sid) && (su_user_id su =? uid)).
    + intros sid1. apply count_session_users_after_leave.
    + intros sid1. apply active_count_after_leave.
    + intros _ user <- Hrow. unfold post_leave.
      destruct (select_session_user d sid (ru_id user)); [congruence | reflexivity].
  - split; [|split; [|split; [|split; [|split; [|split; [|split]]]]]];
      try reflexivity; try discriminate.
    + intros sid1 uid1. apply Hlen. intros su.
      now destruct ((su_session_id su =? sid) && (su_user_id su =? uid)).
    + intros sid1. apply count_after_rejoin.
    + intros sid1. rewrite active_count_after_rejoin. lia.
    + intros _. split; [intros; apply active_count_after_rejoin|].
      split; [intros; apply select_session_user_after_rejoin|].
      intros su Hsu. apply select_session_user_in in Hsu.
      destruct Hsu as (Hin & Hs & Hu).
      unfold update_joined_at in Hin. cbn [session_users with_session_users] in Hin.
      apply in_map_iff in Hin. destruct Hin as (su0 & Hsu0 & _).
      destruct ((su_session_id su0 =? sid) && (su_user_id su0 =? uid)) eqn:E.
      * now subst su.
      * subst su0. rewrite Hs, Hu, !Z.eqb_refl in E. discriminate.
  - split; [|split; [|split; [|split; [|split; [|split; [|split]]]]]];
      try reflexivity; try discriminate.
Qed.

(** ** The pages *)

Lemma length_slice_last_2 {A} (l : list A) : (List.length (slice_last_2 l) <= 2)%nat.
Proof. unfold slice_last_2. rewrite length_skipn. lia. Qed.

Lemma process_frame_no_result d now frame studentId sessionId random1 random2 random3 :
  (0 <= random3)%Q ->
  exists status code,
    fst (post_process_frame d now frame studentId sessionId random1 random2 random3)
    = res_error status code.
Proof.
  intros H. unfold post_process_frame.
  destruct frame; cbn [negb]; [|do 2 eexists; reflexivity].
  destruct studentId as [studentId|], sessionId as [sessionId|];
    rewrite ?insert_engagement_metric_refused; do 2 eexists; reflexivity.
Qed.

(** X23: the two pages and their requests.  The frames of the student's
    page are posted without a token, so authenticateToken answers 401
    before the route is reached: captureAndProcessFrame changes neither
    the page nor the database, and with any token the answer would still
    be an error, the route recording nothing.  updateEngagementMetrics,
    had it an answer to work on, keeps the last two alerts and adds one
    exactly when the emotion is confused or bored with a confidence
    above 0.7, so the page never shows more than three.  The dashboard
    asks for the class overview without a token as well: fetchData
    leaves classMetrics as it is, and the recommendations computed from
    its initial state are the low-engagement one alone. *)
Theorem pages_get_no_answer (d : db) (now sessionStartTime : Z)
    (studentId sessionId : option Z) (random1 random2 random3 : Q) :
  (forall page,
     captureAndProcessFrame page d now sessionStartTime studentId sessionId
       random1 random2 random3 = (page, d))
  /\ ((0 <= random3)%Q ->
      forall t frame, exists status code,
        fst (behind_authentication d t
               (fun _ => post_process_frame d now frame studentId sessionId
                           random1 random2 random3))
        = res_error status code)
  /\ (forall page data,
        (List.length (sp_alerts page) <= 3)%nat ->
        (List.length (sp_alerts (updateEngagementMetrics page data now sessionStartTime))
         <= 3)%nat)
  /\ (forall page data,
        let page1 := updateEngagementMetrics page data now sessionStartTime in
        let hinted := (fr_emotion data = "confused"%string \/ fr_emotion data = "bored"%string)
                      /\ ((7 # 10) < fr_confidence data)%Q in
        (hinted -> exists hint, sp_alerts page1 = slice_last_2 (sp_alerts page) ++ [hint]
                                /\ (hint = confused_hint \/ hint = bored_hint))
        /\ (~ hinted -> sp_alerts page1 = sp_alerts page))
  /\ (forall classMetrics, fetchData d now classMetrics = classMetrics)
  /\ generateRecommendations (fetchData d now initial_classMetrics) = [low_engagement_alert].
Proof.
  split; [|split; [|split; [|split; [|split]]]].
  - intros page. reflexivity.
  - intros H t frame. unfold behind_authentication.
    destruct (authenticate d t) as [user|status code]; cbn [fst]; [|eauto].
    now apply process_frame_no_result.
  - intros page data Hlen. unfold updateEngagementMetrics. cbn [sp_alerts].
    destruct (String.eqb (fr_emotion data) "confused"
              && negb (Qle_bool (fr_confidence data) (7 # 10)));
      [|destruct (String.eqb (fr_emotion data) "bored"
                  && negb (Qle_bool (fr_confidence data) (7 # 10))); [|exact Hlen]];
      rewrite length_app; cbn [List.length];
      pose proof (length_slice_last_2 (sp_alerts page)); lia.
  - intros page data. cbv zeta. unfold updateEngagementMetrics. cbn [sp_alerts].
    assert (Hc : negb (Qle_bool (fr_confidence data) (7 # 10)) = true
                 <-> ((7 # 10) < fr_confidence data)%Q).
    { rewrite negb_true_iff, <- not_true_iff_false, Qle_bool_iff.
      split; [apply Qnot_le_lt | apply Qlt_not_le]. }
    destruct (negb (Qle_bool (fr_confidence data) (7 # 10))) eqn:Ec.
    + assert (Hconf : ((7 # 10) < fr_confidence data)%Q) by now apply Hc.
      destruct (String.eqb_spec (fr_emotion data) "confused") as [E1|E1]; cbn [andb].
      * split; [intros _; eexists; split; [reflexivity | now left]|].
        intros Hn. exfalso. apply Hn. split; [now left | exact Hconf].
      * destruct (String.eqb_spec (fr_emotion data) "bored") as [E2|E2]; cbn [andb].
        -- split; [intros _; eexists; split; [reflexivity | now right]|].
           intros Hn. exfalso. apply Hn. split; [now right | exact Hconf].
        -- split; [intros [[H | H] _]; congruence | reflexivity].
    + assert (Hconf : ~ ((7 # 10) < fr_confidence data)%Q)
        by (intros H; apply Hc in H; discriminate H).
      rewrite !andb_false_r.
      split; [intros [_ H]; contradiction | reflexivity].
  - intros classMetrics. reflexivity.
  - reflexivity.
Qed.

(** ** Updating a session with settings *)

Lemma put_session_accepted d now sid user body session l :
  select_session d sid = session :: l ->
  s_teacher_id session = ru_id user ->
  ru_role user <> student ->
  is_null (ub_title body) && is_null (ub_description body)
  && is_null (ub_max_students body) && is_null (ub_start_time body)
  && is_null (ub_end_time body) && is_null (ub_status body) = false ->
  acceptable body = true ->
  put_session d now sid user body
  = (res_json (updated_or_same body now session),
     update_sessions d sid (updated_or_same body now)).
Proof.
  intros Hsel Hteacher Hrole Hfields Hacc.
  assert (Hid : s_id session = sid).
  { assert (Hin : In session (select_session d sid)) by (rewrite Hsel; now left).
    unfold select_session in Hin. apply filter_In in Hin. now apply Z.eqb_eq. }
  unfold put_session.
  rewrite requireRole_teacher_admin, negb_involutive.
  replace (user_role_eqb (ru_role user) student) with false
    by (destruct (ru_role user) eqn:E; cbn; congruence).
  rewrite Hsel, Hteacher, Z.eqb_refl, Hfields. cbn [negb].
  rewrite (updated_session_accepted body now session Hacc). cbv zeta.
  rewrite select_session_update by (intros s0; apply updated_or_same_keys).
  rewrite Hsel. cbn [map]. rewrite Hid, Z.eqb_refl. reflexivity.
Qed.

Lemma upsert_session_analytics_refused d t now sid total_students :
  exists e, upsert_session_analytics d t now sid total_students = (inl e, t).
Proof.
  unfold upsert_session_analytics.
  destruct (negb (INTEGER_in_range total_students)); [eauto|].
  replace (existsb (same_columns ["session_id"%string]) session_analytics_unique)
    with false by reflexivity.
  cbn [negb]. eauto.
Qed.

(** X24: PUT /:id with settings writes the update and answers an
    error.  After the UPDATE of the session the handler stores the
    settings, when the body has a truthy [settings], by an INSERT into
    session_analytics with ON CONFLICT (session_id).  The only unique
    index of session_analytics is its primary key on id, so the
    statement is refused whatever the table holds and whatever
    settings.max_students is: the answer is 500 SESSION_UPDATE_ERROR,
    session_analytics is as it was, and the UPDATE, a transaction of its
    own, is not undone.  So for the session's teacher and a body the
    table accepts, the same request answers the updated row without
    settings and 500 with them, and the sessions table is the same in
    both cases; and no request with truthy settings is ever answered
    with a session. *)
Theorem put_session_with_settings_writes_and_fails (d : db)
    (t : session_analytics_table) (now sid : Z) (user : req_user)
    (body : update_body) (session : sessions_row) (l : list sessions_row) :
  select_session d sid = session :: l ->
  s_teacher_id session = ru_id user ->
  ru_role user <> student ->
  is_null (ub_title body) && is_null (ub_description body)
  && is_null (ub_max_students body) && is_null (ub_start_time body)
  && is_null (ub_end_time body) && is_null (ub_status body) = false ->
  acceptable body = true ->
  (forall max_students,
     put_session_with_settings d t now sid user body (Some max_students)
     = (res_error 500 "SESSION_UPDATE_ERROR",
        snd (put_session d now sid user body), t))
  /\ put_session_with_settings d t now sid user body None
     = (fst (put_session d now sid user body),
        snd (put_session d now sid user body), t)
  /\ (exists r,
        fst (put_session d now sid user body) = res_json r
        /\ In r (sessions (snd (put_session d now sid user body)))
        /\ s_id r = sid /\ s_updated_at r = now
        /\ s_title r = or_old_value (ub_title body) (s_title session)
        /\ s_start_time r = or_old_value (ub_start_time body) (s_start_time session)
        /\ s_end_time r = or_old (ub_end_time body) (s_end_time session)
        /\ s_max_students r = or_old (ub_max_students body) (s_max_students session))
  /\ (forall d1 t1 now1 sid1 user1 body1 max_students, exists status code,
        fst (fst (put_session_with_settings d1 t1 now1 sid1 user1 body1
                    (Some max_students)))
        = res_error status code
        /\ snd (put_session_with_settings d1 t1 now1 sid1 user1 body1
                  (Some max_students)) = t1).
Proof.
  intros Hsel Hteacher Hrole Hfields Hacc.
  assert (Hid : s_id session = sid).
  { assert (Hin : In session (select_session d sid)) by (rewrite Hsel; now left).
    unfold select_session in Hin. apply filter_In in Hin. now apply Z.eqb_eq. }
  assert (Hins : In session (sessions d)).
  { assert (Hin : In session (select_session d sid)) by (rewrite Hsel; now left).
    unfold select_session in Hin. now apply filter_In in Hin. }
  rewrite (put_session_accepted d now sid user body session l
             Hsel Hteacher Hrole Hfields Hacc).
  cbn [fst snd].
  split; [|split; [|split]].
  - intros max_students. unfold put_session_with_settings.
    rewrite (put_session_accepted d now sid user body session l
               Hsel Hteacher Hrole Hfields Hacc).
    match goal with
    | |- context [upsert_session_analytics ?d1 t now sid ?n] =>
        destruct (upsert_session_analytics_refused d1 t now sid n) as [e ->]
    end.
    reflexivity.
  - unfold put_session_with_settings.
    rewrite (put_session_accepted d now sid user body session l
               Hsel Hteacher Hrole Hfields Hacc).
    reflexivity.
  - exists (updated_or_same body now session).
    split; [reflexivity|]. split.
    + unfold update_sessions. cbn [sessions with_sessions].
      apply in_map_iff. exists session. rewrite Hid, Z.eqb_refl. now split.
    + unfold updated_or_same.
      rewrite (updated_session_accepted body now session Hacc).
      cbn [s_id s_updated_at s_title s_start_time s_end_time s_max_students].
      repeat split; exact Hid.
  - intros d1 t1 now1 sid1 user1 body1 max_students.
    unfold put_session_with_settings.
    destruct (put_session d1 now1 sid1 user1 body1) as [[r1|status code] d2].
    + match goal with
      | |- context [upsert_session_analytics ?d3 t1 now1 sid1 ?n] =>
          destruct (upsert_session_analytics_refused d3 t1 now1 sid1 n) as [e ->]
      end.
      cbn [fst snd]. eauto.
    + cbn [fst snd]. eauto.
Qed.

Lemma put_session_with_settings_writes_and_fails_witness :
  let d := Scenario.small_full in
  let t := {| sa_rows := []; sa_id_seq := 1 |} in
  let user := Scenario.the_teacher in
  let session := {| s_id := 1; s_teacher_id := 1; s_title := "Algebra";
                    s_description := Some ""%string; s_start_time := 0;
                    s_end_time := Some 3600000000; s_status := active;
                    s_max_students := Some 2; s_created_at := 10;
                    s_updated_at := 10 |} in
  let body := {| ub_title := Some (Some "Geometry"%string); ub_description := None;
                 ub_max_students := Some (Some 30); ub_start_time := None;
                 ub_end_time := None; ub_status := None |} in
  select_session d 1 = [session]
  /\ put_session_with_settings d t 60 1 user body (Some (Some 40))
     = (res_error 500 "SESSION_UPDATE_ERROR",
        update_sessions d 1 (updated_or_same body 60), t)
  /\ fst (put_session d 60 1 user body)
     = res_json {| s_id := 1; s_teacher_id := 1; s_title := "Geometry";
                   s_description := Some ""%string; s_start_time := 0;
                   s_end_time := Some 3600000000; s_status := active;
                   s_max_students := Some 30; s_created_at := 10;
                   s_updated_at := 60 |}
  /\ ((forall max_students,
         put_session_with_settings d t 60 1 user body (Some max_students)
         = (res_error 500 "SESSION_UPDATE_ERROR",
            snd (put_session d 60 1 user body), t))
      /\ put_session_with_settings d t 60 1 user body None
         = (fst (put_session d 60 1 user body),
            snd (put_session d 60 1 user body), t)
      /\ (exists r,
            fst (put_session d 60 1 user body) = res_json r
            /\ In r (sessions (snd (put_session d 60 1 user body)))
            /\ s_id r = 1 /\ s_updated_at r = 60
            /\ s_title r = or_old_value (ub_title body) (s_title session)
            /\ s_start_time r = or_old_value (ub_start_time body) (s_start_time session)
            /\ s_end_time r = or_old (ub_end_time body) (s_end_time session)
            /\ s_max_students r = or_old (ub_max_students body) (s_max_students session))
      /\ (forall d1 t1 now1 sid1 user1 body1 max_students, exists status code,
            fst (fst (put_session_with_settings d1 t1 now1 sid1 user1 body1
                        (Some max_students)))
            = res_error status code
            /\ snd (put_session_with_settings d1 t1 now1 sid1 user1 body1
                      (Some max_students)) = t1)).
Proof.
  intros d t user session body.
  split; [reflexivity|]. split; [reflexivity|]. split; [reflexivity|].
  apply (put_session_with_settings_writes_and_fails d t 60 1 user body session []);
    [reflexivity | reflexivity | discriminate | reflexivity | reflexivity].
Defined.

(** ** The class overview and end_time *)

Lemma post_session_end_times d now user body s :
  In s (sessions (snd (post_session d now user body))) ->
  In s (sessions d) \/ s_end_time s <> None.
Proof.
  unfold post_session.
  destruct (negb (requireRole [teacher; admin] user)); [now left|].
  destruct (cb_title body) as [|a t]; [now left|].
  destruct (cb_start_time body) as [st|]; [|now left].
  destruct (cb_end_time body) as [en|]; [|now left].
  destruct (en <=? st); [now left|].
  unfold insert_session.
  destruct (negb (user_exists d (ru_id user))); [now left|].
  match goal with
  | |- context [insert_session_user ?d1 ?n ?i ?u ?r] =>
      pose proof (sessions_insert_session_user d1 n i u r) as Hs;
      destruct (insert_session_user d1 n i u r) as [[e|row] d2]
  end; cbn [snd] in *; rewrite Hs; cbn [sessions with_sessions];
    rewrite in_app_iff; (intros [H | [<- | []]]; [now left | right; discriminate]).
Qed.

Lemma put_session_end_times d now sid user body s :
  ub_end_time body <> Some None ->
  (forall s0, In s0 (sessions d) -> s_end_time s0 <> None) ->
  In s (sessions (snd (put_session d now sid user body))) -> s_end_time s <> None.
Proof.
  intros Hbody Hall.
  destruct (put_session_shape d now sid user body) as [-> | ->]; [apply Hall|].
  unfold update_sessions. cbn [sessions with_sessions].
  rewrite in_map_iff. intros (s0 & <- & Hs0).
  destruct (s_id s0 =? sid); [|now apply Hall].
  specialize (Hall s0 Hs0). unfold updated_or_same, updated_session, bind.
  destruct (new_not_null (ub_title body) (s_title s0)); [exact Hall|].
  destruct (new_not_null (ub_start_time body) (s_start_time s0)); [exact Hall|].
  destruct (new_max_students (ub_max_students body) (s_max_students s0)); [exact Hall|].
  destruct (new_status (ub_status body) (s_status s0)); [exact Hall|].
  cbn [s_end_time].
  destruct (ub_end_time body) as [[t|]|]; cbn [or_old]; congruence.
Qed.

Lemma scheduled_step_end_times d d1 :
  scheduled_step d d1 ->
  (forall s, In s (sessions d) -> s_end_time s <> None) ->
  forall s, In s (sessions d1) -> s_end_time s <> None.
Proof.
  intros [d2 Hstep | now user body | now sid user body Hbody | now sid] Hall s Hs.
  - destruct (engine_step_sessions d d2 Hstep) as [E | (now & sid & E)];
      rewrite E in Hs; [now apply Hall|].
    apply in_map_iff in Hs. destruct Hs as (s0 & <- & Hs0).
    destruct (s_id s0 =? sid); [discriminate | now apply Hall].
  - apply post_session_end_times in Hs. destruct Hs as [Hs | Hs]; [now apply Hall | exact Hs].
  - now apply (put_session_end_times d now sid user body).
  - unfold endSession, update_sessions in Hs. cbn [sessions with_sessions] in Hs.
    apply in_map_iff in Hs. destruct Hs as (s0 & <- & Hs0).
    destruct (s_id s0 =? sid); [discriminate | now apply Hall].
Qed.

Lemma no_open_session_no_overview d now :
  (forall s, In s (sessions d) -> s_end_time s <> None) ->
  open_session_students d = [] /\ recent_metrics d now = [].
Proof.
  intros Hall. unfold open_session_students, recent_metrics. split.
  - apply filter_none. intros p Hp. apply in_JOIN in Hp. destruct Hp as (_ & Hs & _).
    specialize (Hall _ Hs). destruct (s_end_time (snd p)); [reflexivity | congruence].
  - apply filter_none. intros p Hp. apply in_JOIN in Hp. destruct Hp as (_ & Hs & _).
    specialize (Hall _ Hs). destruct (s_end_time (snd p)); [reflexivity | congruence].
Qed.

(** X25: the class overview needs a cleared end_time.  It counts only
    sessions whose end_time is NULL, and POST / stores every session
    with the end_time of its schedule.  So when no session has a NULL
    end_time, and after any sequence of operations in which no PUT /:id
    sets end_time to null, still none has, and GET /class-overview
    answers the empty overview whatever the students have submitted:
    no students, no one online, average 0, all emotion counts 0, and the
    low-engagement alert alone. *)
Theorem class_overview_needs_cleared_end_time (d0 d : db) :
  (forall s, In s (sessions d0) -> s_end_time s <> None) ->
  scheduled_steps d0 d ->
  (forall s, In s (sessions d) -> s_end_time s <> None)
  /\ forall now user o,
       get_class_overview d now user = res_json o ->
       o = {| totalStudents := 0; onlineStudents := 0; averageEngagement := 0;
              co_emotionDistribution :=
                {| attentive := 0; confused := 0; bored := 0; neutral := 0; happy := 0 |};
              alerts := [low_engagement_alert] |}.
Proof.
  intros H0 Hsteps.
  assert (Hall : forall s, In s (sessions d) -> s_end_time s <> None).
  { induction Hsteps as [|d1 d2 _ IH Hstep]; [exact H0|].
    now apply (scheduled_step_end_times d1 d2). }
  split; [exact Hall|].
  intros now user o. unfold get_class_overview.
  destruct (negb (requireRole [teacher; admin] user)); [discriminate|].
  intros [= <-].
  destruct (no_open_session_no_overview d now Hall) as [Ho Hr].
  unfold recent_avg_engagement, emotionDistribution, emotion_counts.
  rewrite Ho, Hr. reflexivity.
Qed.

Lemma class_overview_needs_cleared_end_time_witness :
  let d0 := Scenario.db0 in
  let d := snd (store_all Scenario.small_full (Scenario.three_scores (4 # 5) (3 # 5) 1)) in
  (forall s, In s (sessions d0) -> s_end_time s <> None)
  /\ scheduled_steps d0 d
  /\ ((forall s, In s (sessions d) -> s_end_time s <> None)
      /\ forall now user o,
           get_class_overview d now user = res_json o ->
           o = {| totalStudents := 0; onlineStudents := 0; averageEngagement := 0;
                  co_emotionDistribution :=
                    {| attentive := 0; confused := 0; bored := 0; neutral := 0;
                       happy := 0 |};
                  alerts := [low_engagement_alert] |}).
Proof.
  intros d0 d.
  assert (H0 : forall s, In s (sessions d0) -> s_end_time s <> None)
    by (intros s []).
  set (m1 := Scenario.metric 1 2 "attentive" (9 # 10) (4 # 5)).
  set (m2 := Scenario.metric 1 2 "attentive" (9 # 10) (3 # 5)).
  set (m3 := Scenario.metric 1 2 "attentive" (9 # 10) 1).
  set (d1 := snd (on_engagement_update Scenario.small_full 41 m1)).
  set (d2 := snd (on_engagement_update d1 42 m2)).
  assert (Hsteps : scheduled_steps d0 d).
  { change d with (snd (on_engagement_update d2 43 m3)).
    apply (scheduled_cons d0 d2).
    - apply (scheduled_cons d0 d1).
      + apply (scheduled_cons d0 Scenario.small_full).
        * apply (scheduled_cons d0 Scenario.small_created).
          -- apply (scheduled_cons d0 d0); [apply scheduled_nil|].
             apply (scheduled_create d0 10 Scenario.the_teacher
                      (Scenario.lesson (Some 2))).
          -- apply scheduled_engine.
             apply (step_join Scenario.small_created 30 1 (Scenario.the_student 2)).
        * apply scheduled_engine. apply (step_metric Scenario.small_full 41 m1).
      + apply scheduled_engine. apply (step_metric d1 42 m2).
    - apply scheduled_engine. apply (step_metric d2 43 m3). }
  split; [exact H0|]. split; [exact Hsteps|].
  exact (class_overview_needs_cleared_end_time d0 d H0 Hsteps).
Defined.
